(** * ovpn-dco: packet-id replay detector and datapath dispatch

    A shallow embedding of [net/ovpn-dco/pktid.c] and of the dispatch
    skeleton of [net/ovpn-dco/ovpn.c].  C integers are mathematical integers
    ([Z]) with the wrap-around of their type written out; the [history] byte
    array is a list indexed with stdpp's lookup and insert. *)

From Stdlib Require Import ZArith Lia Bool List.
From stdpp Require Import base list list_numbers.

Local Open Scope Z_scope.

(** ** Machine integers *)

(** Stores into [__u8], [__u32]/[unsigned int] and [unsigned long] lvalues
    (the kernel is taken as LP64, so [unsigned long] has 64 bits). *)
Definition u8 (x : Z) : Z := x mod 2 ^ 8.
Definition u32 (x : Z) : Z := x mod 2 ^ 32.
Definition ulong (x : Z) : Z := x mod 2 ^ 64.

(** The cast [(long)x] of an [unsigned long]. *)
Definition slong (x : Z) : Z :=
  let y := ulong x in if y <? 2 ^ 63 then y else y - 2 ^ 64.

(** [time_after_eq(a, b)] of <linux/jiffies.h>: [(long)((a) - (b)) >= 0]. *)
Definition time_after_eq (a b : Z) : bool := 0 <=? slong (a - b).

Module Pktid.

(** ** Data model of pktid.c *)

(** [struct ovpn_pktid_recv]; the spin lock carries no data and is left out
    (every call of [__ovpn_pktid_recv] runs as one critical section). *)
Record struct_ovpn_pktid_recv : Type := mk_pktid_recv {
  pr_history : list Z;      (* __u8 history[REPLAY_WINDOW_BYTES] *)
  pr_base : Z;              (* unsigned int *)
  pr_extent : Z;            (* unsigned int *)
  pr_expire : Z;            (* unsigned long, in jiffies *)
  pr_id : Z;                (* __u32 *)
  pr_time : Z;              (* __u32 *)
  pr_id_floor : Z;          (* __u32 *)
  pr_max_backtrack : Z      (* unsigned int *)
}.

Definition set_history (pr : struct_ovpn_pktid_recv) (v : list Z) : struct_ovpn_pktid_recv :=
  mk_pktid_recv v (pr_base pr) (pr_extent pr) (pr_expire pr) (pr_id pr)
                (pr_time pr) (pr_id_floor pr) (pr_max_backtrack pr).
Definition set_base (pr : struct_ovpn_pktid_recv) (v : Z) : struct_ovpn_pktid_recv :=
  mk_pktid_recv (pr_history pr) v (pr_extent pr) (pr_expire pr) (pr_id pr)
                (pr_time pr) (pr_id_floor pr) (pr_max_backtrack pr).
Definition set_extent (pr : struct_ovpn_pktid_recv) (v : Z) : struct_ovpn_pktid_recv :=
  mk_pktid_recv (pr_history pr) (pr_base pr) v (pr_expire pr) (pr_id pr)
                (pr_time pr) (pr_id_floor pr) (pr_max_backtrack pr).
Definition set_expire (pr : struct_ovpn_pktid_recv) (v : Z) : struct_ovpn_pktid_recv :=
  mk_pktid_recv (pr_history pr) (pr_base pr) (pr_extent pr) v (pr_id pr)
                (pr_time pr) (pr_id_floor pr) (pr_max_backtrack pr).
Definition set_id (pr : struct_ovpn_pktid_recv) (v : Z) : struct_ovpn_pktid_recv :=
  mk_pktid_recv (pr_history pr) (pr_base pr) (pr_extent pr) (pr_expire pr) v
                (pr_time pr) (pr_id_floor pr) (pr_max_backtrack pr).
Definition set_time (pr : struct_ovpn_pktid_recv) (v : Z) : struct_ovpn_pktid_recv :=
  mk_pktid_recv (pr_history pr) (pr_base pr) (pr_extent pr) (pr_expire pr)
                (pr_id pr) v (pr_id_floor pr) (pr_max_backtrack pr).
Definition set_id_floor (pr : struct_ovpn_pktid_recv) (v : Z) : struct_ovpn_pktid_recv :=
  mk_pktid_recv (pr_history pr) (pr_base pr) (pr_extent pr) (pr_expire pr)
                (pr_id pr) (pr_time pr) v (pr_max_backtrack pr).
Definition set_max_backtrack (pr : struct_ovpn_pktid_recv) (v : Z) : struct_ovpn_pktid_recv :=
  mk_pktid_recv (pr_history pr) (pr_base pr) (pr_extent pr) (pr_expire pr)
                (pr_id pr) (pr_time pr) (pr_id_floor pr) v.

(** The [-OVPN_ERR_PKTID_*] codes returned by the detector. *)
Inductive pktid_error : Type :=
| OVPN_ERR_PKTID_ID_ZERO
| OVPN_ERR_PKTID_TIME_BACKTRACK
| OVPN_ERR_PKTID_REPLAY
| OVPN_ERR_PKTID_EXPIRE
| OVPN_ERR_PKTID_ID_BACKTRACK.

(** The [int] result: [0], or the negated error code. *)
Inductive retcode : Type :=
| Accept
| Reject (e : pktid_error).

Definition is_accept (r : retcode) : bool :=
  match r with Accept => true | Reject _ => false end.

(** ** The history bitmap *)

(** [h[i]] *)
Definition hist_byte (h : list Z) (i : Z) : Z := default 0 (h !! Z.to_nat i).

(** [1 << (p % 8)] *)
Definition bit_mask (p : Z) : Z := Z.shiftl 1 (p mod 8).

(** [h[p / 8] |= (1 << (p % 8))] *)
Definition history_set (h : list Z) (p : Z) : list Z :=
  <[Z.to_nat (p / 8) := u8 (Z.lor (hist_byte h (p / 8)) (bit_mask p))]> h.

(** [h[p / 8] &= ~(1 << (p % 8))] *)
Definition history_clear (h : list Z) (p : Z) : list Z :=
  <[Z.to_nat (p / 8) := u8 (Z.land (hist_byte h (p / 8)) (Z.lnot (bit_mask p)))]> h.

(** [h[p / 8] & (__u8)(1 << (p % 8))], as a truth value *)
Definition history_test (h : list Z) (p : Z) : bool :=
  negb (Z.land (hist_byte h (p / 8)) (u8 (bit_mask p)) =? 0).

Section Detector.

(** Modelled from the spec: pktid.h is not among the sources.  The window has
    W = [REPLAY_WINDOW_SIZE] bits held in W/8 bytes, W a power of two (spec
    sections 3, 4.1 and 9); [REPLAY_WINDOW_ORDER] is the binary logarithm of
    the number of bytes and stays a parameter. *)
Variable REPLAY_WINDOW_ORDER : Z.

(** Modelled from the spec: the expiry delay T_expire of section 4.1, in
    jiffies; a parameter. *)
Variable PKTID_RECV_EXPIRE : Z.

Definition REPLAY_WINDOW_BYTES : Z := 2 ^ REPLAY_WINDOW_ORDER.
Definition REPLAY_WINDOW_SIZE : Z := REPLAY_WINDOW_BYTES * 8.

(** Modelled from the spec: [ri(base, k) = (base + k) mod W] (section 4.1),
    the sum being taken in [unsigned int] as C does for the uses
    [REPLAY_INDEX(pr->base, -1)] and [REPLAY_INDEX(pr->base, -delta)]. *)
Definition REPLAY_INDEX (base i : Z) : Z := u32 (base + i) mod REPLAY_WINDOW_SIZE.

(** [ovpn_pktid_recv_init]: [memset(pr, 0, sizeof( *pr))]. *)
Definition ovpn_pktid_recv_init : struct_ovpn_pktid_recv :=
  mk_pktid_recv (replicate (Z.to_nat REPLAY_WINDOW_BYTES) 0) 0 0 0 0 0 0 0.

(** The loop [for (i = 1; i < delta; ++i)] of the forward-jump branch, run
    for [n] more iterations from counter value [i]. *)
Fixpoint clear_skipped (h : list Z) (base i : Z) (n : nat) : list Z :=
  match n with
  | O => h
  | S n' => clear_skipped (history_clear h (REPLAY_INDEX base i)) base (i + 1) n'
  end.

(** The block run when [pkt_time > pr->time]. *)
Definition window_reset (pr : struct_ovpn_pktid_recv) (pkt_time : Z) : struct_ovpn_pktid_recv :=
  let pr := set_base pr 0 in
  let pr := set_extent pr 0 in
  let pr := set_id pr 0 in
  let pr := set_time pr pkt_time in
  set_id_floor pr 0.

(** The [if (pkt_id == pr->id + 1) ... else if (pkt_id > pr->id) ... else]
    chain of [__ovpn_pktid_recv]. *)
Definition window_update (pr : struct_ovpn_pktid_recv) (pkt_id : Z) : retcode * struct_ovpn_pktid_recv :=
  if pkt_id =? u32 (pr_id pr + 1) then
    (* well-formed ID sequence (incremented by 1) *)
    let pr := set_base pr (REPLAY_INDEX (pr_base pr) (-1)) in
    let pr := set_history pr (history_set (pr_history pr) (pr_base pr)) in
    let pr := if pr_extent pr <? REPLAY_WINDOW_SIZE
              then set_extent pr (u32 (pr_extent pr + 1)) else pr in
    (Accept, set_id pr pkt_id)
  else if pkt_id >? pr_id pr then
    (* ID jumped forward by more than one *)
    let delta := u32 (pkt_id - pr_id pr) in
    let pr :=
      if delta <? REPLAY_WINDOW_SIZE then
        let pr := set_base pr (REPLAY_INDEX (pr_base pr) (- delta)) in
        let pr := set_history pr (history_set (pr_history pr) (pr_base pr)) in
        let pr := set_extent pr (u32 (pr_extent pr + delta)) in
        let pr := if pr_extent pr >? REPLAY_WINDOW_SIZE
                  then set_extent pr REPLAY_WINDOW_SIZE else pr in
        set_history pr (clear_skipped (pr_history pr) (pr_base pr) 1
                                      (Z.to_nat (delta - 1)))
      else
        let pr := set_base pr 0 in
        let pr := set_extent pr REPLAY_WINDOW_SIZE in
        let pr := set_history pr (replicate (Z.to_nat REPLAY_WINDOW_BYTES) 0) in
        set_history pr (<[0%nat := 1]> (pr_history pr))
    in
    (Accept, set_id pr pkt_id)
  else
    (* ID backtrack *)
    let delta := u32 (pr_id pr - pkt_id) in
    let pr := if delta >? pr_max_backtrack pr
              then set_max_backtrack pr delta else pr in
    if delta <? pr_extent pr then
      if pkt_id >? pr_id_floor pr then
        let ri := REPLAY_INDEX (pr_base pr) delta in
        if history_test (pr_history pr) ri then
          (Reject OVPN_ERR_PKTID_REPLAY, pr)
        else
          (Accept, set_history pr (history_set (pr_history pr) ri))
      else
        (Reject OVPN_ERR_PKTID_EXPIRE, pr)
    else
      (Reject OVPN_ERR_PKTID_ID_BACKTRACK, pr).

(** [__ovpn_pktid_recv(pr, pkt_id, pkt_time)], with the value [now] read from
    [jiffies] as an input; the result is the return code and the state
    [*pr] is left in. *)
Definition __ovpn_pktid_recv (pr : struct_ovpn_pktid_recv) (now pkt_id pkt_time : Z)
  : retcode * struct_ovpn_pktid_recv :=
  (* expire backtracks at or below pr->id after PKTID_RECV_EXPIRE time *)
  let pr := if time_after_eq now (pr_expire pr)
            then set_id_floor pr (pr_id pr) else pr in
  (* ID must not be zero *)
  if pkt_id =? 0 then (Reject OVPN_ERR_PKTID_ID_ZERO, pr)
  else
    (* time changed? *)
    if negb (pkt_time =? pr_time pr) && negb (pkt_time >? pr_time pr) then
      (Reject OVPN_ERR_PKTID_TIME_BACKTRACK, pr)
    else
      let pr := if negb (pkt_time =? pr_time pr)
                then window_reset pr pkt_time else pr in
      match window_update pr pkt_id with
      | (Accept, pr) => (Accept, set_expire pr (ulong (now + PKTID_RECV_EXPIRE)))
      | (Reject e, pr) => (Reject e, pr)
      end.

(** [ovpn_pktid_recv]: the same decision under the spin lock
    (ENABLE_REPLAY_PROTECTION set). *)
Definition ovpn_pktid_recv (pr : struct_ovpn_pktid_recv) (now pkt_id pkt_time : Z)
  : retcode * struct_ovpn_pktid_recv :=
  __ovpn_pktid_recv pr now pkt_id pkt_time.

(** One presentation: the jiffies value, the packet id and the packet epoch. *)
Record presentation : Type := mk_presentation {
  p_now : Z; p_id : Z; p_time : Z
}.

(** A sequence of calls; the return codes are listed in call order. *)
Fixpoint recv_all (pr : struct_ovpn_pktid_recv) (ps : list presentation)
  : list retcode * struct_ovpn_pktid_recv :=
  match ps with
  | [] => ([], pr)
  | p :: ps' =>
      let '(r, pr1) := __ovpn_pktid_recv pr (p_now p) (p_id p) (p_time p) in
      let '(rs, pr2) := recv_all pr1 ps' in
      (r :: rs, pr2)
  end.


(** ** Vocabulary of the statements *)

(** The array has its declared size. *)
Definition history_sized (h : list Z) : Prop :=
  length h = Z.to_nat REPLAY_WINDOW_BYTES.

(** Typing facts of a [struct ovpn_pktid_recv] the proofs rely on: the array
    has its declared size and the unsigned fields are in range. *)
Definition state_wf (pr : struct_ovpn_pktid_recv) : Prop :=
  history_sized (pr_history pr) /\ 0 <= pr_extent pr /\ 0 <= pr_id pr < 2 ^ 32.

(** The invariant of spec section 4.1 against a log of the accepted
    presentations [(id, epoch)]. *)
Definition window_inv (pr : struct_ovpn_pktid_recv) (log : list (Z * Z)) : Prop :=
  pr_extent pr <= REPLAY_WINDOW_SIZE /\
  forall k, 0 <= k < pr_extent pr ->
    history_test (pr_history pr) (REPLAY_INDEX (pr_base pr) k) = true ->
    pr_id pr - pr_extent pr < pr_id pr - k <= pr_id pr /\
    In (pr_id pr - k, pr_time pr) log.

(** The log after a call that returned [r]. *)
Definition log_call (r : retcode) (pkt_id pkt_time : Z) (log : list (Z * Z))
  : list (Z * Z) :=
  if is_accept r then (pkt_id, pkt_time) :: log else log.

(** What the backtrack branch leaves in [max_backtrack]. *)
Definition backtrack_seen (pr : struct_ovpn_pktid_recv) (delta : Z) : Z :=
  if delta >? pr_max_backtrack pr then delta else pr_max_backtrack pr.

(** The state after the first statement of [__ovpn_pktid_recv]. *)
Definition floor_step (pr : struct_ovpn_pktid_recv) (now : Z) : struct_ovpn_pktid_recv :=
  if time_after_eq now (pr_expire pr) then set_id_floor pr (pr_id pr) else pr.

(** The presentations [ps] all carry the epoch [epoch]. *)
Definition at_epoch (epoch : Z) (ps : list presentation) : Prop :=
  Forall (fun p => p_time p = epoch) ps.

(** The ids of [ps] are strictly increasing and all above [lo]. *)
Fixpoint increasing_above (lo : Z) (ps : list presentation) : Prop :=
  match ps with
  | [] => True
  | p :: ps' => lo < p_id p /\ increasing_above (p_id p) ps'
  end.

(** What a call that returned the error [e] leaves in [max_backtrack]. *)
Definition max_backtrack_after (pr : struct_ovpn_pktid_recv) (pkt_id : Z)
  (e : pktid_error) : Z :=
  match e with
  | OVPN_ERR_PKTID_ID_ZERO | OVPN_ERR_PKTID_TIME_BACKTRACK => pr_max_backtrack pr
  | _ => backtrack_seen pr (u32 (pr_id pr - pkt_id))
  end.

(** The history bit that stands for the id [x] of the current window. *)
Definition seen (pr : struct_ovpn_pktid_recv) (x : Z) : bool :=
  history_test (pr_history pr) (REPLAY_INDEX (pr_base pr) (pr_id pr - x)).

(** The ids [{id - W + 1, ..., id}]. *)
Definition in_window (pr : struct_ovpn_pktid_recv) (x : Z) : Prop :=
  pr_id pr - REPLAY_WINDOW_SIZE + 1 <= x <= pr_id pr.

(** The window is full and every id in it is above the floor. *)
Definition full_window (pr : struct_ovpn_pktid_recv) : Prop :=
  history_sized (pr_history pr) /\ 0 <= pr_id pr < 2 ^ 32 /\
  pr_extent pr = REPLAY_WINDOW_SIZE /\
  0 <= pr_id_floor pr < pr_id pr - REPLAY_WINDOW_SIZE + 1.

(** No call of the run finds the expiry deadline passed. *)
Fixpoint unexpired (pr : struct_ovpn_pktid_recv) (ps : list presentation) : Prop :=
  match ps with
  | [] => True
  | p :: ps' =>
      time_after_eq (p_now p) (pr_expire pr) = false /\
      unexpired (snd (__ovpn_pktid_recv pr (p_now p) (p_id p) (p_time p))) ps'
  end.

(** The answer to an id of the window: REPLAY when its bit is set. *)
Definition verdict (pr : struct_ovpn_pktid_recv) (x : Z) : retcode :=
  if seen pr x then Reject OVPN_ERR_PKTID_REPLAY else Accept.

(** Same window, same epoch and floor. *)
Definition same_window (pr pr' : struct_ovpn_pktid_recv) : Prop :=
  pr_id pr' = pr_id pr /\ pr_base pr' = pr_base pr /\
  pr_extent pr' = pr_extent pr /\ pr_time pr' = pr_time pr /\
  pr_id_floor pr' = pr_id_floor pr /\ history_sized (pr_history pr').

(** The detector during the presentation of the window [{lo, ..., lo + W - 1}]:
    [acc] lists the ids of the window accepted so far.  The top id is not
    above the window, the extent reaches down to [lo], the floor is below
    [lo], and the history bit of each id from [lo] to the top id tells
    whether the id was accepted. *)
Definition window_run (lo : Z) (pr : struct_ovpn_pktid_recv) (acc : list Z)
  : Prop :=
  history_sized (pr_history pr) /\
  0 <= pr_id pr < lo + REPLAY_WINDOW_SIZE /\
  0 <= pr_extent pr <= REPLAY_WINDOW_SIZE /\
  pr_id pr - pr_extent pr < lo /\
  0 <= pr_id_floor pr < lo /\
  (forall x, x ∈ acc -> lo <= x <= pr_id pr) /\
  (forall x, lo <= x <= pr_id pr -> seen pr x = bool_decide (x ∈ acc)).

(** No call finds the expiry deadline passed once the top id has entered
    the window that starts at [lo]. *)
Fixpoint quiet (lo : Z) (pr : struct_ovpn_pktid_recv) (ps : list presentation)
  : Prop :=
  match ps with
  | [] => True
  | p :: ps' =>
      (time_after_eq (p_now p) (pr_expire pr) = false \/ pr_id pr < lo) /\
      quiet lo (snd (__ovpn_pktid_recv pr (p_now p) (p_id p) (p_time p))) ps'
  end.

(** A detector whose top id and floor are below [lo]. *)
Definition below_window (lo : Z) (pr : struct_ovpn_pktid_recv) : Prop :=
  history_sized (pr_history pr) /\ 0 <= pr_id pr < lo /\
  0 <= pr_extent pr <= REPLAY_WINDOW_SIZE /\ 0 <= pr_id_floor pr < lo.

(** The log of accepted presentations after a run. *)
Fixpoint log_all (pr : struct_ovpn_pktid_recv) (ps : list presentation)
  (log : list (Z * Z)) : list (Z * Z) :=
  match ps with
  | [] => log
  | p :: ps' =>
      let '(r, pr1) := __ovpn_pktid_recv pr (p_now p) (p_id p) (p_time p) in
      log_all pr1 ps' (log_call r (p_id p) (p_time p) log)
  end.

(** The packet ids are values of type [__u32]. *)
Definition typed (ps : list presentation) : Prop :=
  Forall (fun p => 0 <= p_id p < 2 ^ 32) ps.

(** The extent is the top id, capped by the window size. *)
Definition extent_tracks_id (pr : struct_ovpn_pktid_recv) : Prop :=
  0 <= pr_id pr < 2 ^ 32 /\
  pr_extent pr = Z.min (pr_id pr) REPLAY_WINDOW_SIZE.

(** The bit of the top id is set whenever the window is not empty. *)
Definition top_marked (pr : struct_ovpn_pktid_recv) : Prop :=
  history_sized (pr_history pr) /\
  0 <= pr_base pr < REPLAY_WINDOW_SIZE /\
  (pr_extent pr <> 0 -> history_test (pr_history pr) (pr_base pr) = true).

(** The ids of [ps] are a permutation of [{id - W + 1, ..., id}]. *)
Definition window_permutation (pr : struct_ovpn_pktid_recv)
  (ps : list presentation) : Prop :=
  map p_id ps ≡ₚ seqZ (pr_id pr - REPLAY_WINDOW_SIZE + 1) REPLAY_WINDOW_SIZE.

(** Every id accepted at the current epoch is at most the top id, and its
    history bit is set for as long as the extent reaches down to it. *)
Definition marks (pr : struct_ovpn_pktid_recv) (log : list (Z * Z)) : Prop :=
  forall x, In (x, pr_time pr) log ->
    1 <= x <= pr_id pr /\ (pr_id pr - x < pr_extent pr -> seen pr x = true).

(** No accepted presentation carries an epoch ahead of the detector's. *)
Definition epochs_bounded (pr : struct_ovpn_pktid_recv) (log : list (Z * Z))
  : Prop :=
  forall x e, In (x, e) log -> e <= pr_time pr.

(** The detector against the log of what it accepted: the set bits stand
    for logged ids ([window_inv]) and the logged ids of the window have
    their bit set ([marks]). *)
Definition replay_inv (pr : struct_ovpn_pktid_recv) (log : list (Z * Z))
  : Prop :=
  state_wf pr /\ window_inv pr log /\ marks pr log /\ epochs_bounded pr log.

(** The [i]-th call of the run [ps] from a fresh detector returned [r]. *)
Definition returned_at (ps : list presentation) (i : nat) (r : retcode) : Prop :=
  fst (recv_all ovpn_pktid_recv_init ps) !! i = Some r.

(** The error of a backtrack to [pkt_id] once the expiry deadline has
    passed. *)
Definition expired_error (pr : struct_ovpn_pktid_recv) (pkt_id : Z)
  : pktid_error :=
  if pkt_id =? 0 then OVPN_ERR_PKTID_ID_ZERO
  else if pr_id pr - pkt_id <? pr_extent pr then OVPN_ERR_PKTID_EXPIRE
  else OVPN_ERR_PKTID_ID_BACKTRACK.

(** The two states agree on every field but [id_floor]. *)
Definition same_fields (pr' pr : struct_ovpn_pktid_recv) : Prop :=
  pr_history pr' = pr_history pr /\ pr_base pr' = pr_base pr /\
  pr_extent pr' = pr_extent pr /\ pr_expire pr' = pr_expire pr /\
  pr_id pr' = pr_id pr /\ pr_time pr' = pr_time pr /\
  pr_max_backtrack pr' = pr_max_backtrack pr.

(** The state a run from a fresh detector leaves. *)
Definition reached (ps : list presentation) : struct_ovpn_pktid_recv :=
  snd (recv_all ovpn_pktid_recv_init ps).

(** ** Facts about machine integers and the bitmap *)

Lemma u32_small x : 0 <= x < 2 ^ 32 -> u32 x = x.
Proof. intros H. unfold u32. apply Z.mod_small. exact H. Qed.

Lemma bit_mask_pow2 p : bit_mask p = 2 ^ (p mod 8).
Proof. unfold bit_mask. rewrite Z.shiftl_1_l. reflexivity. Qed.

Lemma mod8_range p : 0 <= p mod 8 < 8.
Proof. apply Z.mod_pos_bound. lia. Qed.

Lemma u8_bit_mask p : u8 (bit_mask p) = 2 ^ (p mod 8).
Proof.
  rewrite bit_mask_pow2. unfold u8. apply Z.mod_small.
  pose proof (mod8_range p) as Hr. split.
  - apply Z.pow_nonneg. lia.
  - apply Z.pow_lt_mono_r; lia.
Qed.

Lemma land_pow2_eqb x k : 0 <= k -> (Z.land x (2 ^ k) =? 0) = negb (Z.testbit x k).
Proof.
  intros Hk. destruct (Z.testbit x k) eqn:Hb; simpl.
  - apply Z.eqb_neq. intros H0.
    assert (Hc : Z.testbit (Z.land x (2 ^ k)) k = true).
    { rewrite Z.land_spec, Hb, Z.pow2_bits_true by lia. reflexivity. }
    rewrite H0, Z.bits_0 in Hc. discriminate.
  - apply Z.eqb_eq. apply Z.bits_inj'. intros n Hn.
    rewrite Z.land_spec, Z.bits_0, Z.pow2_bits_eqb by lia.
    destruct (Z.eqb_spec k n) as [->|Hne].
    + rewrite Hb. reflexivity.
    + apply andb_false_r.
Qed.

Lemma history_test_spec h p :
  history_test h p = Z.testbit (hist_byte h (p / 8)) (p mod 8).
Proof.
  unfold history_test. rewrite u8_bit_mask, land_pow2_eqb, negb_involutive.
  - reflexivity.
  - apply mod8_range.
Qed.

Lemma u8_testbit x j : 0 <= j < 8 -> Z.testbit (u8 x) j = Z.testbit x j.
Proof. intros Hj. unfold u8. apply Z.mod_pow2_bits_low. lia. Qed.

Lemma hist_byte_insert_eq (h : list Z) i v :
  0 <= i -> (Z.to_nat i < length h)%nat ->
  hist_byte (<[Z.to_nat i := v]> h) i = v.
Proof.
  intros Hi Hlen. unfold hist_byte.
  rewrite list_lookup_insert_eq by exact Hlen. reflexivity.
Qed.

Lemma hist_byte_insert_ne (h : list Z) i j v :
  0 <= i -> 0 <= j -> i <> j ->
  hist_byte (<[Z.to_nat i := v]> h) j = hist_byte h j.
Proof.
  intros Hi Hj Hne. unfold hist_byte.
  rewrite list_lookup_insert_ne by lia. reflexivity.
Qed.

Lemma length_history_set h p : length (history_set h p) = length h.
Proof. unfold history_set. apply length_insert. Qed.

Lemma length_history_clear h p : length (history_clear h p) = length h.
Proof. unfold history_clear. apply length_insert. Qed.

Lemma div8_in_range (h : list Z) p :
  0 <= p < 8 * Z.of_nat (length h) -> 0 <= p / 8 /\ (Z.to_nat (p / 8) < length h)%nat.
Proof.
  intros Hp. assert (0 <= p / 8 < Z.of_nat (length h)).
  { split; [apply Z.div_pos; lia | apply Z.div_lt_upper_bound; lia]. }
  lia.
Qed.

Lemma position_split p q : p / 8 = q / 8 -> p mod 8 = q mod 8 -> p = q.
Proof.
  intros Hd Hm. rewrite (Z.div_mod p 8), (Z.div_mod q 8) by lia. lia.
Qed.

Lemma history_test_set_eq h p :
  0 <= p < 8 * Z.of_nat (length h) -> history_test (history_set h p) p = true.
Proof.
  intros Hp. destruct (div8_in_range h p Hp) as [H0 Hlen].
  rewrite history_test_spec. unfold history_set.
  rewrite hist_byte_insert_eq by assumption.
  rewrite u8_testbit by apply mod8_range.
  rewrite Z.lor_spec, bit_mask_pow2, Z.pow2_bits_true by apply mod8_range.
  apply orb_true_r.
Qed.

Lemma history_test_set_ne h p q :
  0 <= p -> 0 <= q -> p <> q ->
  history_test (history_set h p) q = history_test h q.
Proof.
  intros Hp Hq Hne. rewrite !history_test_spec. unfold history_set.
  assert (Hp8 : 0 <= p / 8) by (apply Z.div_pos; lia).
  assert (Hq8 : 0 <= q / 8) by (apply Z.div_pos; lia).
  destruct (Z.eq_dec (p / 8) (q / 8)) as [Heq|Hd].
  - destruct (le_lt_dec (length h) (Z.to_nat (p / 8))) as [Hge|Hlt].
    + rewrite list_insert_ge by exact Hge. reflexivity.
    + rewrite <- Heq. rewrite hist_byte_insert_eq by assumption.
      rewrite u8_testbit by apply mod8_range.
      rewrite Z.lor_spec, bit_mask_pow2, Z.pow2_bits_eqb by apply mod8_range.
      destruct (Z.eqb_spec (p mod 8) (q mod 8)) as [Hm|Hm].
      * exfalso. apply Hne. apply position_split; assumption.
      * apply orb_false_r.
  - rewrite hist_byte_insert_ne by assumption. reflexivity.
Qed.

Lemma history_test_clear_eq h p :
  0 <= p < 8 * Z.of_nat (length h) -> history_test (history_clear h p) p = false.
Proof.
  intros Hp. destruct (div8_in_range h p Hp) as [H0 Hlen].
  rewrite history_test_spec. unfold history_clear.
  rewrite hist_byte_insert_eq by assumption.
  rewrite u8_testbit by apply mod8_range.
  rewrite Z.land_spec, Z.lnot_spec, bit_mask_pow2, Z.pow2_bits_true
    by apply mod8_range.
  apply andb_false_r.
Qed.

Lemma history_test_clear_ne h p q :
  0 <= p -> 0 <= q -> p <> q ->
  history_test (history_clear h p) q = history_test h q.
Proof.
  intros Hp Hq Hne. rewrite !history_test_spec. unfold history_clear.
  assert (Hp8 : 0 <= p / 8) by (apply Z.div_pos; lia).
  assert (Hq8 : 0 <= q / 8) by (apply Z.div_pos; lia).
  destruct (Z.eq_dec (p / 8) (q / 8)) as [Heq|Hd].
  - destruct (le_lt_dec (length h) (Z.to_nat (p / 8))) as [Hge|Hlt].
    + rewrite list_insert_ge by exact Hge. reflexivity.
    + rewrite <- Heq. rewrite hist_byte_insert_eq by assumption.
      rewrite u8_testbit by apply mod8_range.
      rewrite Z.land_spec, Z.lnot_spec, bit_mask_pow2, Z.pow2_bits_eqb
        by apply mod8_range.
      destruct (Z.eqb_spec (p mod 8) (q mod 8)) as [Hm|Hm].
      * exfalso. apply Hne. apply position_split; assumption.
      * apply andb_true_r.
  - rewrite hist_byte_insert_ne by assumption. reflexivity.
Qed.

Lemma history_test_zeroed n q : history_test (replicate n 0) q = false.
Proof.
  rewrite history_test_spec. unfold hist_byte.
  destruct (replicate n 0 !! Z.to_nat (q / 8)) as [b|] eqn:Hl; simpl.
  - apply lookup_replicate in Hl. destruct Hl as [-> _]. apply Z.bits_0.
  - apply Z.bits_0.
Qed.

Lemma history_test_clear_false h p q :
  0 <= p < 8 * Z.of_nat (length h) -> 0 <= q ->
  history_test h q = false -> history_test (history_clear h p) q = false.
Proof.
  intros Hp Hq Hf. destruct (Z.eq_dec p q) as [<-|Hne].
  - apply history_test_clear_eq. exact Hp.
  - rewrite history_test_clear_ne by lia. exact Hf.
Qed.

Lemma history_first_bit n :
  <[0%nat := 1]> (replicate n 0) = history_set (replicate n 0) 0.
Proof.
  unfold history_set, hist_byte. change (Z.to_nat (0 / 8)) with 0%nat.
  destruct n as [|n]; reflexivity.
Qed.

(** ** Window arithmetic *)

Hypothesis order_range : 0 <= REPLAY_WINDOW_ORDER <= 28.

Lemma window_size_pow2 : REPLAY_WINDOW_SIZE = 2 ^ (REPLAY_WINDOW_ORDER + 3).
Proof.
  unfold REPLAY_WINDOW_SIZE, REPLAY_WINDOW_BYTES.
  rewrite Z.pow_add_r by lia. reflexivity.
Qed.

Lemma window_size_bounds : 8 <= REPLAY_WINDOW_SIZE <= 2 ^ 31.
Proof.
  rewrite window_size_pow2. split.
  - change 8 with (2 ^ 3). apply Z.pow_le_mono_r; lia.
  - apply Z.pow_le_mono_r; lia.
Qed.

Lemma window_bytes_nonneg : 0 <= REPLAY_WINDOW_BYTES.
Proof. unfold REPLAY_WINDOW_BYTES. apply Z.pow_nonneg. lia. Qed.

Lemma window_divides_u32 : (REPLAY_WINDOW_SIZE | 2 ^ 32).
Proof.
  rewrite window_size_pow2.
  exists (2 ^ (29 - REPLAY_WINDOW_ORDER)).
  rewrite <- Z.pow_add_r by lia. f_equal. lia.
Qed.

Lemma REPLAY_INDEX_mod b i : REPLAY_INDEX b i = (b + i) mod REPLAY_WINDOW_SIZE.
Proof.
  unfold REPLAY_INDEX, u32. pose proof window_size_bounds as Hw.
  apply Z.mod_mod_divide. apply window_divides_u32.
Qed.

Lemma REPLAY_INDEX_range b i : 0 <= REPLAY_INDEX b i < REPLAY_WINDOW_SIZE.
Proof.
  rewrite REPLAY_INDEX_mod. pose proof window_size_bounds as Hw.
  apply Z.mod_pos_bound. lia.
Qed.

Lemma REPLAY_INDEX_shift b i j :
  REPLAY_INDEX (REPLAY_INDEX b i) j = REPLAY_INDEX b (i + j).
Proof.
  rewrite !REPLAY_INDEX_mod. pose proof window_size_bounds as Hw.
  rewrite Zplus_mod_idemp_l. f_equal. lia.
Qed.

Lemma REPLAY_INDEX_0 b : 0 <= b < REPLAY_WINDOW_SIZE -> REPLAY_INDEX b 0 = b.
Proof.
  intros Hb. rewrite REPLAY_INDEX_mod, Z.add_0_r. apply Z.mod_small. exact Hb.
Qed.

Lemma REPLAY_INDEX_inj b i j :
  0 <= i < REPLAY_WINDOW_SIZE -> 0 <= j < REPLAY_WINDOW_SIZE ->
  REPLAY_INDEX b i = REPLAY_INDEX b j -> i = j.
Proof.
  intros Hi Hj. rewrite !REPLAY_INDEX_mod. intros Heq.
  pose proof window_size_bounds as Hw.
  pose proof (Z.div_mod (b + i) REPLAY_WINDOW_SIZE) as Di.
  pose proof (Z.div_mod (b + j) REPLAY_WINDOW_SIZE) as Dj.
  rewrite Heq in Di.
  remember ((b + i) / REPLAY_WINDOW_SIZE) as qi eqn:Eqi.
  remember ((b + j) / REPLAY_WINDOW_SIZE) as qj eqn:Eqj.
  assert (Hq : i - j = REPLAY_WINDOW_SIZE * (qi - qj)) by lia.
  assert (Hd : qi - qj = 0) by nia.
  lia.
Qed.

Lemma history_sized_bits h :
  history_sized h -> 8 * Z.of_nat (length h) = REPLAY_WINDOW_SIZE.
Proof.
  unfold history_sized, REPLAY_WINDOW_SIZE. intros ->.
  pose proof window_bytes_nonneg. lia.
Qed.

Lemma clear_skipped_sized h b i n :
  history_sized h -> history_sized (clear_skipped h b i n).
Proof.
  revert h i. induction n as [|n IH]; intros h i Hs; simpl.
  - exact Hs.
  - apply IH. unfold history_sized. rewrite length_history_clear. exact Hs.
Qed.

Lemma clear_skipped_false h b i n q :
  history_sized h -> 0 <= q ->
  history_test h q = false -> history_test (clear_skipped h b i n) q = false.
Proof.
  revert h i. induction n as [|n IH]; intros h i Hs Hq Hf; simpl.
  - exact Hf.
  - apply IH.
    + unfold history_sized. rewrite length_history_clear. exact Hs.
    + exact Hq.
    + apply history_test_clear_false; try assumption.
      rewrite (history_sized_bits h Hs). apply REPLAY_INDEX_range.
Qed.

Lemma clear_skipped_hit h b i n j :
  history_sized h -> i <= j < i + Z.of_nat n ->
  history_test (clear_skipped h b i n) (REPLAY_INDEX b j) = false.
Proof.
  revert h i. induction n as [|n IH]; intros h i Hs Hj; simpl.
  - lia.
  - assert (Hs' : history_sized (history_clear h (REPLAY_INDEX b i))).
    { unfold history_sized. rewrite length_history_clear. exact Hs. }
    destruct (Z.eq_dec i j) as [->|Hne].
    + apply clear_skipped_false; try assumption.
      * apply REPLAY_INDEX_range.
      * apply history_test_clear_eq. rewrite (history_sized_bits h Hs).
        apply REPLAY_INDEX_range.
    + apply IH; [assumption | lia].
Qed.

Lemma clear_skipped_miss h b i n q :
  0 <= q ->
  (forall j, i <= j < i + Z.of_nat n -> REPLAY_INDEX b j <> q) ->
  history_test (clear_skipped h b i n) q = history_test h q.
Proof.
  revert h i. induction n as [|n IH]; intros h i Hq Hmiss; simpl.
  - reflexivity.
  - rewrite IH.
    + apply history_test_clear_ne; try assumption.
      * apply REPLAY_INDEX_range.
      * apply Hmiss. lia.
    + exact Hq.
    + intros j Hj. apply Hmiss. lia.
Qed.

(** ** The window invariant *)

Lemma succ_id_no_wrap id pkt_id :
  0 <= id < 2 ^ 32 -> 1 <= pkt_id -> pkt_id = u32 (id + 1) -> pkt_id = id + 1.
Proof.
  intros Hid Hp Heq. unfold u32 in Heq.
  destruct (Z.eq_dec (id + 1) (2 ^ 32)) as [Hw|Hw].
  - rewrite Hw, Z.mod_same in Heq by lia. lia.
  - rewrite Z.mod_small in Heq by lia. exact Heq.
Qed.

(** The branches of [window_update], each with the state it leaves. *)

Lemma window_update_next pr pkt_id :
  pkt_id = u32 (pr_id pr + 1) ->
  window_update pr pkt_id =
  (Accept,
   mk_pktid_recv
     (history_set (pr_history pr) (REPLAY_INDEX (pr_base pr) (-1)))
     (REPLAY_INDEX (pr_base pr) (-1))
     (if pr_extent pr <? REPLAY_WINDOW_SIZE then u32 (pr_extent pr + 1)
      else pr_extent pr)
     (pr_expire pr) pkt_id (pr_time pr) (pr_id_floor pr) (pr_max_backtrack pr)).
Proof.
  intros Heq. unfold window_update. rewrite <- Heq, Z.eqb_refl.
  cbn [pr_history pr_base pr_extent set_base set_history].
  destruct (pr_extent pr <? REPLAY_WINDOW_SIZE); reflexivity.
Qed.

Lemma window_update_jump pr pkt_id :
  pkt_id <> u32 (pr_id pr + 1) -> pr_id pr < pkt_id ->
  u32 (pkt_id - pr_id pr) < REPLAY_WINDOW_SIZE ->
  window_update pr pkt_id =
  (Accept,
   let delta := u32 (pkt_id - pr_id pr) in
   let b := REPLAY_INDEX (pr_base pr) (- delta) in
   mk_pktid_recv
     (clear_skipped (history_set (pr_history pr) b) b 1 (Z.to_nat (delta - 1)))
     b
     (if u32 (pr_extent pr + delta) >? REPLAY_WINDOW_SIZE then REPLAY_WINDOW_SIZE
      else u32 (pr_extent pr + delta))
     (pr_expire pr) pkt_id (pr_time pr) (pr_id_floor pr) (pr_max_backtrack pr)).
Proof.
  intros Hne Hgt Hd. unfold window_update.
  destruct (Z.eqb_spec pkt_id (u32 (pr_id pr + 1))) as [|_]; [contradiction|].
  destruct (Z.gtb_spec pkt_id (pr_id pr)) as [_|]; [|lia].
  destruct (Z.ltb_spec (u32 (pkt_id - pr_id pr)) REPLAY_WINDOW_SIZE) as [_|]; [|lia].
  cbn [pr_history pr_base pr_extent set_base set_history set_extent].
  destruct (u32 (pr_extent pr + u32 (pkt_id - pr_id pr)) >? REPLAY_WINDOW_SIZE);
    reflexivity.
Qed.

Lemma window_update_far pr pkt_id :
  pkt_id <> u32 (pr_id pr + 1) -> pr_id pr < pkt_id ->
  REPLAY_WINDOW_SIZE <= u32 (pkt_id - pr_id pr) ->
  window_update pr pkt_id =
  (Accept,
   mk_pktid_recv
     (<[0%nat := 1]> (replicate (Z.to_nat REPLAY_WINDOW_BYTES) 0))
     0 REPLAY_WINDOW_SIZE
     (pr_expire pr) pkt_id (pr_time pr) (pr_id_floor pr) (pr_max_backtrack pr)).
Proof.
  intros Hne Hgt Hd. unfold window_update.
  destruct (Z.eqb_spec pkt_id (u32 (pr_id pr + 1))) as [|_]; [contradiction|].
  destruct (Z.gtb_spec pkt_id (pr_id pr)) as [_|]; [|lia].
  destruct (Z.ltb_spec (u32 (pkt_id - pr_id pr)) REPLAY_WINDOW_SIZE) as [|_]; [lia|].
  reflexivity.
Qed.

Lemma window_update_back pr pkt_id :
  pkt_id <> u32 (pr_id pr + 1) -> pkt_id <= pr_id pr ->
  window_update pr pkt_id =
  let delta := u32 (pr_id pr - pkt_id) in
  let seen := set_max_backtrack pr (backtrack_seen pr delta) in
  if delta <? pr_extent pr then
    if pkt_id >? pr_id_floor pr then
      if history_test (pr_history pr) (REPLAY_INDEX (pr_base pr) delta)
      then (Reject OVPN_ERR_PKTID_REPLAY, seen)
      else (Accept,
            set_history seen
              (history_set (pr_history pr) (REPLAY_INDEX (pr_base pr) delta)))
    else (Reject OVPN_ERR_PKTID_EXPIRE, seen)
  else (Reject OVPN_ERR_PKTID_ID_BACKTRACK, seen).
Proof.
  intros Hne Hle. unfold window_update, backtrack_seen.
  destruct (Z.eqb_spec pkt_id (u32 (pr_id pr + 1))) as [|_]; [contradiction|].
  destruct (Z.gtb_spec pkt_id (pr_id pr)) as [|_]; [lia|].
  cbv zeta.
  destruct (u32 (pr_id pr - pkt_id) >? pr_max_backtrack pr);
    destruct pr; reflexivity.
Qed.

Lemma window_inv_intro pr log :
  pr_extent pr <= REPLAY_WINDOW_SIZE ->
  (forall k, 0 <= k < pr_extent pr ->
     history_test (pr_history pr) (REPLAY_INDEX (pr_base pr) k) = true ->
     In (pr_id pr - k, pr_time pr) log) ->
  window_inv pr log.
Proof.
  intros Hext Hbits. split; [exact Hext|].
  intros k Hk Hbit. split; [lia|]. apply Hbits; assumption.
Qed.

Lemma window_update_inv pr pkt_id log :
  state_wf pr -> 1 <= pkt_id < 2 ^ 32 -> window_inv pr log ->
  window_inv (snd (window_update pr pkt_id))
             (log_call (fst (window_update pr pkt_id)) pkt_id (pr_time pr) log)
  /\ state_wf (snd (window_update pr pkt_id)).
Proof.
  intros (Hs & He & Hid) Hp (Hext & Hbits).
  pose proof window_size_bounds as Hw.
  pose proof (history_sized_bits _ Hs) as Hlen.
  destruct (Z.eq_dec pkt_id (u32 (pr_id pr + 1))) as [Heq|Hne].
  - (* pkt_id == pr->id + 1 *)
    rewrite (window_update_next _ _ Heq).
    apply succ_id_no_wrap in Heq; [|lia|lia].
    pose proof (REPLAY_INDEX_range (pr_base pr) (-1)) as Hb.
    assert (Hx : (if pr_extent pr <? REPLAY_WINDOW_SIZE
                  then u32 (pr_extent pr + 1) else pr_extent pr)
                 = Z.min (pr_extent pr + 1) REPLAY_WINDOW_SIZE).
    { destruct (Z.ltb_spec (pr_extent pr) REPLAY_WINDOW_SIZE).
      - rewrite u32_small by lia. lia.
      - lia. }
    rewrite Hx. unfold log_call. cbn [fst snd is_accept]. split.
    + apply window_inv_intro; cbn [pr_history pr_base pr_extent pr_id pr_time].
      * lia.
      * intros k Hk Hbit.
        destruct (Z.eq_dec k 0) as [->|Hk0]; [left; f_equal; lia|].
        right. replace (pkt_id - k) with (pr_id pr - (k - 1)) by lia.
        apply Hbits; [lia|]. rewrite <- Hbit.
        replace (REPLAY_INDEX (pr_base pr) (k - 1))
          with (REPLAY_INDEX (REPLAY_INDEX (pr_base pr) (-1)) k)
          by (rewrite REPLAY_INDEX_shift; f_equal; lia).
        symmetry. apply history_test_set_ne.
        -- lia.
        -- apply REPLAY_INDEX_range.
        -- rewrite <- (REPLAY_INDEX_0 (REPLAY_INDEX (pr_base pr) (-1))) at 1
             by exact Hb.
           intros Hc. apply REPLAY_INDEX_inj in Hc; lia.
    + unfold state_wf. cbn [pr_history pr_extent pr_id].
      split; [|lia]. unfold history_sized. rewrite length_history_set. exact Hs.
  - destruct (Z_lt_le_dec (pr_id pr) pkt_id) as [Hgt|Hle].
    + assert (Hdelta : u32 (pkt_id - pr_id pr) = pkt_id - pr_id pr)
        by (apply u32_small; lia).
      destruct (Z_lt_le_dec (u32 (pkt_id - pr_id pr)) REPLAY_WINDOW_SIZE)
        as [Hnear|Hfar].
      * (* forward jump inside the window *)
        rewrite (window_update_jump _ _ Hne Hgt Hnear). cbv zeta.
        rewrite Hdelta in *.
        set (delta := pkt_id - pr_id pr) in *.
        set (b := REPLAY_INDEX (pr_base pr) (- delta)).
        pose proof (REPLAY_INDEX_range (pr_base pr) (- delta)) as Hb. fold b in Hb.
        assert (Hsb : history_sized (history_set (pr_history pr) b)).
        { unfold history_sized. rewrite length_history_set. exact Hs. }
        rewrite (u32_small (pr_extent pr + delta)) by lia.
        assert (Hx : (if pr_extent pr + delta >? REPLAY_WINDOW_SIZE
                      then REPLAY_WINDOW_SIZE else pr_extent pr + delta)
                     = Z.min (pr_extent pr + delta) REPLAY_WINDOW_SIZE).
        { destruct (Z.gtb_spec (pr_extent pr + delta) REPLAY_WINDOW_SIZE); lia. }
        rewrite Hx. unfold log_call. cbn [fst snd is_accept]. split.
        -- apply window_inv_intro;
             cbn [pr_history pr_base pr_extent pr_id pr_time]; [lia|].
           intros k Hk Hbit.
           destruct (Z.eq_dec k 0) as [->|Hk0]; [left; f_equal; lia|].
           right.
           destruct (Z_lt_le_dec k delta) as [Hskip|Hold].
           ++ rewrite clear_skipped_hit in Hbit; [discriminate|exact Hsb|lia].
           ++ replace (pkt_id - k) with (pr_id pr - (k - delta)) by lia.
              apply Hbits; [lia|].
              rewrite <- Hbit. rewrite clear_skipped_miss.
              ** replace (REPLAY_INDEX (pr_base pr) (k - delta))
                   with (REPLAY_INDEX b k).
                 { symmetry. apply history_test_set_ne; try lia.
                   - apply REPLAY_INDEX_range.
                   - rewrite <- (REPLAY_INDEX_0 b) at 1 by exact Hb.
                     intros Hc. apply REPLAY_INDEX_inj in Hc; lia. }
                 unfold b. rewrite REPLAY_INDEX_shift. f_equal. lia.
              ** apply REPLAY_INDEX_range.
              ** intros j Hj Hc. apply REPLAY_INDEX_inj in Hc; lia.
        -- unfold state_wf. cbn [pr_history pr_extent pr_id].
           split; [|lia]. apply clear_skipped_sized. exact Hsb.
      * (* forward jump past the window *)
        rewrite (window_update_far _ _ Hne Hgt Hfar).
        unfold log_call. cbn [fst snd is_accept]. split.
        -- apply window_inv_intro;
             cbn [pr_history pr_base pr_extent pr_id pr_time]; [lia|].
           intros k Hk Hbit.
           destruct (Z.eq_dec k 0) as [->|Hk0]; [left; f_equal; lia|].
           exfalso. rewrite history_first_bit in Hbit.
           rewrite history_test_set_ne in Hbit.
           ++ rewrite history_test_zeroed in Hbit. discriminate.
           ++ lia.
           ++ apply REPLAY_INDEX_range.
           ++ rewrite REPLAY_INDEX_mod, Z.add_0_l, Z.mod_small; lia.
        -- unfold state_wf. cbn [pr_history pr_extent pr_id].
           split; [|lia]. unfold history_sized.
           rewrite length_insert, length_replicate. reflexivity.
    + (* backtrack *)
      rewrite (window_update_back _ _ Hne Hle). cbv zeta.
      assert (Hdelta : u32 (pr_id pr - pkt_id) = pr_id pr - pkt_id)
        by (apply u32_small; lia).
      rewrite Hdelta. set (delta := pr_id pr - pkt_id) in *.
      assert (Hkeep : forall e,
        window_inv (snd (Reject e, set_max_backtrack pr (backtrack_seen pr delta)))
          (log_call (fst (Reject e, set_max_backtrack pr (backtrack_seen pr delta)))
                    pkt_id (pr_time pr) log)
        /\ state_wf (snd (Reject e, set_max_backtrack pr (backtrack_seen pr delta)))).
      { intros e. unfold log_call. cbn [fst snd is_accept]. split.
        - apply window_inv_intro; [exact Hext|]. intros k Hk Hbit.
          apply (Hbits k Hk Hbit).
        - unfold state_wf. cbn [set_max_backtrack pr_history pr_extent pr_id].
          split; [exact Hs|lia]. }
      destruct (Z.ltb_spec delta (pr_extent pr)) as [Hin|Hout]; [|apply Hkeep].
      destruct (Z.gtb_spec pkt_id (pr_id_floor pr)) as [Hfl|Hfl]; [|apply Hkeep].
      destruct (history_test (pr_history pr) (REPLAY_INDEX (pr_base pr) delta))
        eqn:Hseen; [apply Hkeep|].
      unfold log_call. cbn [fst snd is_accept]. split.
      * apply window_inv_intro;
          cbn [set_history set_max_backtrack pr_history pr_base pr_extent
               pr_id pr_time]; [exact Hext|].
        intros k Hk Hbit.
        destruct (Z.eq_dec k delta) as [->|Hkd]; [left; f_equal; lia|].
        right. apply Hbits; [lia|]. rewrite <- Hbit.
        symmetry. apply history_test_set_ne.
        -- apply REPLAY_INDEX_range.
        -- apply REPLAY_INDEX_range.
        -- intros Hc. apply REPLAY_INDEX_inj in Hc; lia.
      * unfold state_wf.
        cbn [set_history set_max_backtrack pr_history pr_extent pr_id].
        split; [|lia]. unfold history_sized. rewrite length_history_set. exact Hs.
Qed.

Lemma floor_step_fields pr now :
  pr_history (floor_step pr now) = pr_history pr /\
  pr_base (floor_step pr now) = pr_base pr /\
  pr_extent (floor_step pr now) = pr_extent pr /\
  pr_expire (floor_step pr now) = pr_expire pr /\
  pr_id (floor_step pr now) = pr_id pr /\
  pr_time (floor_step pr now) = pr_time pr /\
  pr_max_backtrack (floor_step pr now) = pr_max_backtrack pr /\
  pr_id_floor (floor_step pr now) =
    (if time_after_eq now (pr_expire pr) then pr_id pr else pr_id_floor pr).
Proof.
  unfold floor_step. destruct (time_after_eq now (pr_expire pr));
    repeat split; reflexivity.
Qed.

Lemma floor_step_inv pr now log :
  state_wf pr -> window_inv pr log ->
  state_wf (floor_step pr now) /\ window_inv (floor_step pr now) log.
Proof.
  intros Hwf Hinv. unfold floor_step.
  destruct (time_after_eq now (pr_expire pr)); split; assumption.
Qed.

Lemma window_reset_inv pr pkt_time log :
  state_wf pr ->
  state_wf (window_reset pr pkt_time) /\ window_inv (window_reset pr pkt_time) log.
Proof.
  intros (Hs & _ & _). pose proof window_size_bounds as Hw.
  unfold state_wf, window_inv, window_reset. cbn. repeat split; try lia.
  exact Hs.
Qed.

(** The decision of [__ovpn_pktid_recv] in terms of its three stages. *)
Lemma recv_stages pr now pkt_id pkt_time :
  __ovpn_pktid_recv pr now pkt_id pkt_time =
  let pr0 := floor_step pr now in
  if pkt_id =? 0 then (Reject OVPN_ERR_PKTID_ID_ZERO, pr0)
  else if pkt_time <? pr_time pr then (Reject OVPN_ERR_PKTID_TIME_BACKTRACK, pr0)
  else
    let pr1 := if pkt_time =? pr_time pr then pr0 else window_reset pr0 pkt_time in
    match window_update pr1 pkt_id with
    | (Accept, pr2) => (Accept, set_expire pr2 (ulong (now + PKTID_RECV_EXPIRE)))
    | (Reject e, pr2) => (Reject e, pr2)
    end.
Proof.
  unfold __ovpn_pktid_recv. fold (floor_step pr now). cbv zeta.
  destruct (floor_step_fields pr now) as (_ & _ & _ & _ & _ & Ht & _).
  rewrite Ht.
  destruct (pkt_id =? 0); [reflexivity|].
  destruct (Z.eqb_spec pkt_time (pr_time pr)) as [Heq|Hne];
    destruct (Z.gtb_spec pkt_time (pr_time pr)) as [Hgt|Hle];
    destruct (Z.ltb_spec pkt_time (pr_time pr)) as [Hlt|Hge];
    cbn [negb andb]; try reflexivity; lia.
Qed.

(** One call keeps the invariant, the log growing by the call when it
    accepts. *)
Lemma recv_window_inv_step pr log now pkt_id pkt_time :
  state_wf pr -> 0 <= pkt_id < 2 ^ 32 -> window_inv pr log ->
  window_inv (snd (__ovpn_pktid_recv pr now pkt_id pkt_time))
             (log_call (fst (__ovpn_pktid_recv pr now pkt_id pkt_time))
                       pkt_id pkt_time log)
  /\ state_wf (snd (__ovpn_pktid_recv pr now pkt_id pkt_time)).
Proof.
  intros Hwf Hp Hinv. rewrite recv_stages. cbv zeta.
  destruct (floor_step_inv pr now log Hwf Hinv) as [Hwf0 Hinv0].
  destruct (floor_step_fields pr now) as (_ & _ & _ & _ & _ & Ht & _).
  destruct (Z.eqb_spec pkt_id 0) as [Hz|Hnz]; [split; assumption|].
  destruct (Z.ltb_spec pkt_time (pr_time pr)) as [Hlt|Hge]; [split; assumption|].
  set (pr1 := if pkt_time =? pr_time pr then floor_step pr now
              else window_reset (floor_step pr now) pkt_time).
  assert (H1 : state_wf pr1 /\ window_inv pr1 log /\ pr_time pr1 = pkt_time).
  { unfold pr1. destruct (Z.eqb_spec pkt_time (pr_time pr)) as [Heq|Hne].
    - split; [exact Hwf0 | split; [exact Hinv0 | lia]].
    - destruct (window_reset_inv (floor_step pr now) pkt_time log Hwf0)
        as [Hwfr Hinvr].
      split; [exact Hwfr | split; [exact Hinvr | reflexivity]]. }
  destruct H1 as (Hwf1 & Hinv1 & Ht1).
  assert (Hp1 : 1 <= pkt_id < 2 ^ 32) by lia.
  destruct (window_update_inv pr1 pkt_id log Hwf1 Hp1 Hinv1) as [Hi Hw].
  rewrite Ht1 in Hi.
  destruct (window_update pr1 pkt_id) as [[|e] pr2]; simpl in *.
  - split; assumption.
  - split; assumption.
Qed.

(** ** Forward movement *)

Lemma window_update_forward pr pkt_id :
  pr_id pr < pkt_id ->
  fst (window_update pr pkt_id) = Accept /\
  pr_id (snd (window_update pr pkt_id)) = pkt_id /\
  pr_time (snd (window_update pr pkt_id)) = pr_time pr /\
  pr_id_floor (snd (window_update pr pkt_id)) = pr_id_floor pr.
Proof.
  intros Hlt.
  destruct (Z.eq_dec pkt_id (u32 (pr_id pr + 1))) as [Heq|Hne].
  - rewrite (window_update_next _ _ Heq). repeat split.
  - destruct (Z_lt_le_dec (u32 (pkt_id - pr_id pr)) REPLAY_WINDOW_SIZE) as [Hn|Hf].
    + rewrite (window_update_jump _ _ Hne Hlt Hn). repeat split.
    + rewrite (window_update_far _ _ Hne Hlt Hf). repeat split.
Qed.

Lemma recv_forward pr now pkt_id pkt_time :
  1 <= pkt_id -> pr_time pr <= pkt_time ->
  (pr_time pr = pkt_time -> pr_id pr < pkt_id) ->
  fst (__ovpn_pktid_recv pr now pkt_id pkt_time) = Accept /\
  pr_id (snd (__ovpn_pktid_recv pr now pkt_id pkt_time)) = pkt_id /\
  pr_time (snd (__ovpn_pktid_recv pr now pkt_id pkt_time)) = pkt_time.
Proof.
  intros Hp Ht Hid. rewrite recv_stages. cbv zeta.
  destruct (floor_step_fields pr now) as (_ & _ & _ & _ & Hi0 & Ht0 & _).
  destruct (Z.eqb_spec pkt_id 0) as [|_]; [lia|].
  destruct (Z.ltb_spec pkt_time (pr_time pr)) as [|_]; [lia|].
  set (pr1 := if pkt_time =? pr_time pr then floor_step pr now
              else window_reset (floor_step pr now) pkt_time).
  assert (H1 : pr_id pr1 < pkt_id /\ pr_time pr1 = pkt_time).
  { unfold pr1. destruct (Z.eqb_spec pkt_time (pr_time pr)) as [Heq|Hne].
    - rewrite Hi0, Ht0. split; [apply Hid|]; lia.
    - cbn. lia. }
  destruct H1 as [Hlt Ht1].
  destruct (window_update_forward pr1 pkt_id Hlt) as (Ha & Hi & Htm & _).
  destruct (window_update pr1 pkt_id) as [r pr2]. cbn in Ha, Hi, Htm.
  subst r. cbn. repeat split; [exact Hi | lia].
Qed.

Lemma recv_all_increasing epoch ps : forall pr,
  at_epoch epoch ps ->
  increasing_above 0 ps ->
  pr_time pr <= epoch ->
  (pr_time pr = epoch -> increasing_above (pr_id pr) ps) ->
  Forall (fun r => r = Accept) (fst (recv_all pr ps)).
Proof.
  induction ps as [|p ps IH]; intros pr He Hinc Ht Hid.
  - constructor.
  - cbn [recv_all]. apply Forall_cons_1 in He. destruct He as [Hpe He].
    destruct Hinc as [Hp0 Hinc].
    destruct (recv_forward pr (p_now p) (p_id p) (p_time p)) as (Ha & Hi & Htm).
    + lia.
    + lia.
    + intros Heq. apply Hid. lia.
    + destruct (__ovpn_pktid_recv pr (p_now p) (p_id p) (p_time p)) as [r pr1].
      cbn in Ha, Hi, Htm. subst r.
      assert (Hinc0 : increasing_above 0 ps).
      { destruct ps as [|q ps']; [exact I|]. destruct Hinc as [Hq Hrest].
        split; [lia | exact Hrest]. }
      specialize (IH pr1 He Hinc0).
      destruct (recv_all pr1 ps) as [rs pr2]. cbn [fst] in *.
      constructor; [reflexivity|]. apply IH.
      * lia.
      * intros _. rewrite Hi. exact Hinc.
Qed.

Lemma recv_all_length ps : forall pr, length (fst (recv_all pr ps)) = length ps.
Proof.
  induction ps as [|p ps IH]; intros pr; cbn [recv_all].
  - reflexivity.
  - destruct (__ovpn_pktid_recv pr (p_now p) (p_id p) (p_time p)) as [r pr1].
    specialize (IH pr1). destruct (recv_all pr1 ps) as [rs pr2].
    cbn in *. rewrite IH. reflexivity.
Qed.

(** C4.  Strictly increasing ids [id_1 < id_2 < ... < id_n] with
    [id_1 >= 1], all presented at one epoch, are all accepted: every call
    returns success.  The detector starts in any state that is not ahead of
    the sequence (its epoch is older, or it is the same and its top id is
    below [id_1]); the state left by [ovpn_pktid_recv_init] is one. *)
Theorem recv_monotone_accept pr epoch ps :
  at_epoch epoch ps ->
  increasing_above 0 ps ->
  pr_time pr <= epoch ->
  (pr_time pr = epoch -> increasing_above (pr_id pr) ps) ->
  length (fst (recv_all pr ps)) = length ps /\
  Forall (fun r => r = Accept) (fst (recv_all pr ps)).
Proof.
  intros He Hinc Ht Hid. split.
  - apply recv_all_length.
  - apply (recv_all_increasing epoch); assumption.
Qed.

(** ** Rejections *)

Lemma window_update_reject pr pkt_id e :
  fst (window_update pr pkt_id) = Reject e ->
  pkt_id <= pr_id pr /\
  snd (window_update pr pkt_id) =
    set_max_backtrack pr (backtrack_seen pr (u32 (pr_id pr - pkt_id))) /\
  (e = OVPN_ERR_PKTID_REPLAY \/ e = OVPN_ERR_PKTID_EXPIRE \/
   e = OVPN_ERR_PKTID_ID_BACKTRACK).
Proof.
  intros Hr.
  destruct (Z_lt_le_dec (pr_id pr) pkt_id) as [Hlt|Hle].
  - destruct (window_update_forward pr pkt_id Hlt) as (Ha & _).
    rewrite Ha in Hr. discriminate.
  - destruct (Z.eq_dec pkt_id (u32 (pr_id pr + 1))) as [Heq|Hne].
    + rewrite (window_update_next _ _ Heq) in Hr. discriminate.
    + split; [exact Hle|]. revert Hr.
      rewrite (window_update_back _ _ Hne Hle). cbv zeta.
      destruct (u32 (pr_id pr - pkt_id) <? pr_extent pr);
        [destruct (pkt_id >? pr_id_floor pr);
         [destruct (history_test _ _)|]|];
        cbn [fst snd]; intros Hr; inversion Hr; subst; auto.
Qed.

Lemma recv_reject_state pr now pkt_id pkt_time e :
  0 <= pkt_id ->
  fst (__ovpn_pktid_recv pr now pkt_id pkt_time) = Reject e ->
  snd (__ovpn_pktid_recv pr now pkt_id pkt_time) =
    set_max_backtrack (floor_step pr now) (max_backtrack_after pr pkt_id e).
Proof.
  intros Hp. rewrite recv_stages. cbv zeta.
  destruct (floor_step_fields pr now) as (_ & _ & _ & _ & Hi0 & Ht0 & Hm0 & _).
  assert (Hsame : set_max_backtrack (floor_step pr now) (pr_max_backtrack pr)
                  = floor_step pr now).
  { rewrite <- Hm0. destruct (floor_step pr now). reflexivity. }
  destruct (Z.eqb_spec pkt_id 0) as [Hz|Hnz].
  { cbn [fst snd]. intros Hr. inversion Hr; subst e. cbn. rewrite Hsame. reflexivity. }
  destruct (Z.ltb_spec pkt_time (pr_time pr)) as [Hlt|Hge].
  { cbn [fst snd]. intros Hr. inversion Hr; subst e. cbn. rewrite Hsame. reflexivity. }
  destruct (Z.eqb_spec pkt_time (pr_time pr)) as [Heq|Hne].
  - destruct (window_update (floor_step pr now) pkt_id) as [r pr2] eqn:Hu.
    destruct r as [|e']; cbn [fst snd]; intros Hr; [discriminate|].
    inversion Hr; subst e'.
    destruct (window_update_reject (floor_step pr now) pkt_id e) as (_ & Hs & He).
    { rewrite Hu. reflexivity. }
    rewrite Hu in Hs. cbn [snd] in Hs. rewrite Hs.
    unfold backtrack_seen. rewrite Hi0, Hm0.
    destruct He as [-> | [-> | ->] ]; reflexivity.
  - destruct (window_update_forward (window_reset (floor_step pr now) pkt_time) pkt_id)
      as (Ha & _); [cbn; lia|].
    destruct (window_update _ pkt_id) as [r pr2]. cbn [fst] in Ha. subst r.
    cbn [fst]. discriminate.
Qed.

Lemma time_after_eq_refl a : time_after_eq a a = true.
Proof. unfold time_after_eq. rewrite Z.sub_diag. reflexivity. Qed.

(** The first packet of a fresh detector, with id 1 at epoch 0. *)
Lemma recv_init_first now :
  time_after_eq now 0 = true ->
  __ovpn_pktid_recv ovpn_pktid_recv_init now 1 0 =
  (Accept,
   mk_pktid_recv
     (history_set (replicate (Z.to_nat REPLAY_WINDOW_BYTES) 0) (REPLAY_INDEX 0 (-1)))
     (REPLAY_INDEX 0 (-1)) 1 (ulong (now + PKTID_RECV_EXPIRE)) 1 0 0 0).
Proof.
  intros Hnow. pose proof window_size_bounds as Hw.
  rewrite recv_stages. cbv zeta. unfold floor_step.
  cbn [ovpn_pktid_recv_init pr_expire pr_id pr_time set_id_floor
       pr_history pr_base pr_extent pr_id_floor pr_max_backtrack].
  rewrite Hnow. change (1 =? 0) with false. change (0 <? 0) with false.
  change (0 =? 0) with true. cbv iota.
  rewrite window_update_next by reflexivity.
  cbn [ovpn_pktid_recv_init set_id_floor pr_history pr_base pr_extent pr_expire
       pr_id pr_time pr_id_floor pr_max_backtrack set_expire].
  destruct (Z.ltb_spec 0 REPLAY_WINDOW_SIZE) as [_|]; [reflexivity|lia].
Qed.

(** The first packet of a fresh detector, with the largest id at epoch 0. *)
Lemma recv_init_last now :
  time_after_eq now 0 = true ->
  __ovpn_pktid_recv ovpn_pktid_recv_init now (2 ^ 32 - 1) 0 =
  (Accept,
   mk_pktid_recv
     (<[0%nat := 1]> (replicate (Z.to_nat REPLAY_WINDOW_BYTES) 0))
     0 REPLAY_WINDOW_SIZE (ulong (now + PKTID_RECV_EXPIRE)) (2 ^ 32 - 1) 0 0 0).
Proof.
  intros Hnow. pose proof window_size_bounds as Hw.
  rewrite recv_stages. cbv zeta. unfold floor_step.
  cbn [ovpn_pktid_recv_init pr_expire pr_id pr_time set_id_floor
       pr_history pr_base pr_extent pr_id_floor pr_max_backtrack].
  rewrite Hnow. change (2 ^ 32 - 1 =? 0) with false. change (0 <? 0) with false.
  change (0 =? 0) with true. cbv iota.
  rewrite window_update_far.
  - reflexivity.
  - discriminate.
  - reflexivity.
  - cbn [ovpn_pktid_recv_init set_id_floor pr_id].
    change (u32 (2 ^ 32 - 1 - 0)) with 4294967295.
    change (2 ^ 31) with 2147483648 in Hw. lia.
Qed.

(** A backtrack by at least the window size is too old, whatever the
    history, the floor and the expiry state are. *)
Lemma backtrack_beyond_window pr now pkt_id pkt_time :
  0 <= pr_id pr < 2 ^ 32 ->
  pr_extent pr <= REPLAY_WINDOW_SIZE ->
  pkt_time = pr_time pr ->
  0 <= pkt_id -> pkt_id <> 0 ->
  pkt_id < pr_id pr - REPLAY_WINDOW_SIZE + 1 ->
  fst (__ovpn_pktid_recv pr now pkt_id pkt_time) = Reject OVPN_ERR_PKTID_ID_BACKTRACK.
Proof.
  intros Hid Hext Ht Hp Hnz Hold. pose proof window_size_bounds as Hw.
  rewrite recv_stages. cbv zeta.
  destruct (floor_step_fields pr now) as (_ & _ & Hx0 & _ & Hi0 & _).
  destruct (Z.eqb_spec pkt_id 0) as [|_]; [contradiction|].
  destruct (Z.ltb_spec pkt_time (pr_time pr)) as [|_]; [lia|].
  destruct (Z.eqb_spec pkt_time (pr_time pr)) as [_|]; [|contradiction].
  rewrite window_update_back.
  - cbv zeta. rewrite Hi0, Hx0. rewrite (u32_small (pr_id pr - pkt_id)) by lia.
    destruct (Z.ltb_spec (pr_id pr - pkt_id) (pr_extent pr)) as [|_]; [lia|].
    reflexivity.
  - rewrite Hi0. intros Heq. unfold u32 in Heq.
    pose proof (Z.mod_pos_bound (pr_id pr + 1) (2 ^ 32)) as Hm.
    destruct (Z.eq_dec (pr_id pr + 1) (2 ^ 32)) as [Hwrap|Hwrap].
    + rewrite Hwrap, Z.mod_same in Heq by lia. lia.
    + rewrite Z.mod_small in Heq by lia. lia.
  - rewrite Hi0. lia.
Qed.

(** C9.  A call of [__ovpn_pktid_recv] that returns an error leaves [base],
    [extent], [id], [history], [time] and [expire] as they were.  It is not
    free of effects: [id_floor] is raised to the current [id] when the
    expiry deadline has passed, and [max_backtrack] grows when the rejected
    id backtracks further than any before; both happen on states reached
    from a fresh detector. *)
Theorem recv_reject_frame :
  (forall pr now pkt_id pkt_time e,
     0 <= pkt_id < 2 ^ 32 ->
     fst (__ovpn_pktid_recv pr now pkt_id pkt_time) = Reject e ->
     let pr' := snd (__ovpn_pktid_recv pr now pkt_id pkt_time) in
     pr_base pr' = pr_base pr /\
     pr_extent pr' = pr_extent pr /\
     pr_id pr' = pr_id pr /\
     pr_history pr' = pr_history pr /\
     pr_time pr' = pr_time pr /\
     pr_expire pr' = pr_expire pr /\
     pr_id_floor pr' =
       (if time_after_eq now (pr_expire pr) then pr_id pr else pr_id_floor pr) /\
     pr_max_backtrack pr' = max_backtrack_after pr pkt_id e)
  /\ (exists ps now pkt_id pkt_time e,
        let pr := snd (recv_all ovpn_pktid_recv_init ps) in
        let pr' := snd (__ovpn_pktid_recv pr now pkt_id pkt_time) in
        fst (__ovpn_pktid_recv pr now pkt_id pkt_time) = Reject e /\
        pr_id_floor pr < pr_id_floor pr' /\ pr_id_floor pr' = pr_id pr)
  /\ (exists ps now pkt_id pkt_time e,
        let pr := snd (recv_all ovpn_pktid_recv_init ps) in
        let pr' := snd (__ovpn_pktid_recv pr now pkt_id pkt_time) in
        fst (__ovpn_pktid_recv pr now pkt_id pkt_time) = Reject e /\
        pr_max_backtrack pr < pr_max_backtrack pr').
Proof.
  split; [|split].
  - intros pr now pkt_id pkt_time e Hp Hr. cbv zeta.
    rewrite (recv_reject_state pr now pkt_id pkt_time e) by (lia || exact Hr).
    destruct (floor_step_fields pr now) as (Hh & Hb & Hx & Hex & Hi & Ht & _ & Hf).
    cbn [pr_history pr_base pr_extent pr_expire pr_id pr_time pr_id_floor
         pr_max_backtrack set_max_backtrack].
    repeat split; assumption.
  - exists [mk_presentation 0 1 0], (ulong (0 + PKTID_RECV_EXPIRE)), 0, 0,
      OVPN_ERR_PKTID_ID_ZERO.
    cbn [recv_all p_now p_id p_time].
    rewrite (recv_init_first 0) by reflexivity. cbn [snd fst].
    rewrite recv_stages. cbv zeta. change (0 =? 0) with true. cbv iota.
    unfold floor_step. cbn [pr_expire pr_id pr_id_floor fst snd].
    rewrite time_after_eq_refl. cbn. repeat split; lia.
  - exists [mk_presentation 0 (2 ^ 32 - 1) 0], 0, 1, 0,
      OVPN_ERR_PKTID_ID_BACKTRACK.
    pose proof window_size_bounds as Hw.
    change (2 ^ 31) with 2147483648 in Hw.
    cbn [recv_all p_now p_id p_time].
    rewrite (recv_init_last 0) by reflexivity. cbn [snd fst].
    set (pr := mk_pktid_recv _ _ _ _ _ _ _ _).
    assert (Hr : fst (__ovpn_pktid_recv pr 0 1 0)
                 = Reject OVPN_ERR_PKTID_ID_BACKTRACK).
    { apply backtrack_beyond_window; unfold pr; cbn [pr_id pr_extent pr_time];
        try reflexivity; try discriminate; try lia. }
    split; [exact Hr|].
    rewrite (recv_reject_state pr 0 1 0 _ ltac:(lia) Hr).
    cbn [set_max_backtrack pr_max_backtrack max_backtrack_after].
    unfold backtrack_seen, pr. cbn [pr_id pr_max_backtrack]. reflexivity.
Qed.

(** ** Epoch changes *)

Lemma window_reset_floor_step pr now pkt_time :
  window_reset (floor_step pr now) pkt_time = window_reset pr pkt_time /\
  floor_step (window_reset pr pkt_time) now = window_reset pr pkt_time.
Proof.
  unfold floor_step, window_reset.
  cbn [pr_expire pr_id set_base set_extent set_id set_time set_id_floor
       pr_history pr_base pr_extent pr_time pr_id_floor pr_max_backtrack].
  destruct (time_after_eq now (pr_expire pr)); split; reflexivity.
Qed.

Lemma window_update_fresh_extent pr pkt_id :
  pr_id pr = 0 -> pr_extent pr = 0 -> 1 <= pkt_id < 2 ^ 32 ->
  pr_extent (snd (window_update pr pkt_id)) = Z.min pkt_id REPLAY_WINDOW_SIZE.
Proof.
  intros Hi Hx Hp. pose proof window_size_bounds as Hw.
  assert (Hd : u32 (pkt_id - pr_id pr) = pkt_id).
  { rewrite Hi, Z.sub_0_r. apply u32_small. lia. }
  destruct (Z.eq_dec pkt_id (u32 (pr_id pr + 1))) as [Heq|Hne].
  - rewrite (window_update_next _ _ Heq). cbn [snd pr_extent].
    rewrite Hi in Heq. change (u32 (0 + 1)) with 1 in Heq. rewrite Hx.
    destruct (Z.ltb_spec 0 REPLAY_WINDOW_SIZE) as [_|]; [|lia].
    change (u32 (0 + 1)) with 1. lia.
  - destruct (Z_lt_le_dec (u32 (pkt_id - pr_id pr)) REPLAY_WINDOW_SIZE) as [Hn|Hf].
    + rewrite (window_update_jump _ _ Hne ltac:(lia) Hn). cbv zeta.
      cbn [snd pr_extent]. rewrite Hd in *. rewrite Hx, Z.add_0_l.
      rewrite (u32_small pkt_id) by lia.
      destruct (Z.gtb_spec pkt_id REPLAY_WINDOW_SIZE); lia.
    + rewrite (window_update_far _ _ Hne ltac:(lia) Hf). cbn [snd pr_extent].
      rewrite Hd in Hf. lia.
Qed.

(** A packet of a newer epoch is processed on the reset state. *)
Lemma recv_newer_epoch pr now pkt_id pkt_time :
  pr_time pr < pkt_time -> pkt_id <> 0 ->
  __ovpn_pktid_recv pr now pkt_id pkt_time =
  match window_update (window_reset pr pkt_time) pkt_id with
  | (Accept, pr2) => (Accept, set_expire pr2 (ulong (now + PKTID_RECV_EXPIRE)))
  | (Reject e, pr2) => (Reject e, pr2)
  end.
Proof.
  intros Ht Hnz. rewrite recv_stages. cbv zeta.
  destruct (window_reset_floor_step pr now pkt_time) as [Hrf _].
  destruct (Z.eqb_spec pkt_id 0) as [|_]; [contradiction|].
  destruct (Z.ltb_spec pkt_time (pr_time pr)) as [|_]; [lia|].
  destruct (Z.eqb_spec pkt_time (pr_time pr)) as [|_]; [lia|].
  rewrite Hrf. reflexivity.
Qed.

Lemma recv_on_reset pr now pkt_id pkt_time :
  pkt_id <> 0 ->
  __ovpn_pktid_recv (window_reset pr pkt_time) now pkt_id pkt_time =
  match window_update (window_reset pr pkt_time) pkt_id with
  | (Accept, pr2) => (Accept, set_expire pr2 (ulong (now + PKTID_RECV_EXPIRE)))
  | (Reject e, pr2) => (Reject e, pr2)
  end.
Proof.
  intros Hnz. rewrite recv_stages. cbv zeta.
  destruct (window_reset_floor_step pr now pkt_time) as [_ Hfr].
  rewrite Hfr.
  assert (Ht : pr_time (window_reset pr pkt_time) = pkt_time) by reflexivity.
  rewrite Ht.
  destruct (Z.eqb_spec pkt_id 0) as [|_]; [contradiction|].
  rewrite Z.ltb_irrefl, Z.eqb_refl. reflexivity.
Qed.

(** C3.  A packet with id at least 1 whose epoch is strictly greater than
    the stored one resets the window ([base], [extent], [id] and [id_floor]
    to 0, [time] to the packet's epoch) and is then accepted: the call
    behaves as a call on the reset state, returns success, and leaves the
    packet as the top id of the new epoch.  A packet with a non-zero id
    whose epoch is strictly less than the stored one is rejected with the
    TIME-BACKTRACK error, and the window is not reset. *)
Theorem recv_epoch_change pr now pkt_id pkt_time :
  0 <= pkt_id < 2 ^ 32 ->
  (pr_time pr < pkt_time -> 1 <= pkt_id ->
   let fresh := window_reset pr pkt_time in
   let pr' := snd (__ovpn_pktid_recv pr now pkt_id pkt_time) in
   (pr_base fresh = 0 /\ pr_extent fresh = 0 /\ pr_id fresh = 0 /\
    pr_id_floor fresh = 0 /\ pr_time fresh = pkt_time) /\
   __ovpn_pktid_recv pr now pkt_id pkt_time =
     __ovpn_pktid_recv fresh now pkt_id pkt_time /\
   fst (__ovpn_pktid_recv pr now pkt_id pkt_time) = Accept /\
   pr_time pr' = pkt_time /\ pr_id pr' = pkt_id /\ pr_id_floor pr' = 0 /\
   pr_extent pr' = Z.min pkt_id REPLAY_WINDOW_SIZE /\
   pr_expire pr' = ulong (now + PKTID_RECV_EXPIRE))
  /\
  (pkt_time < pr_time pr -> pkt_id <> 0 ->
   let pr' := snd (__ovpn_pktid_recv pr now pkt_id pkt_time) in
   fst (__ovpn_pktid_recv pr now pkt_id pkt_time)
     = Reject OVPN_ERR_PKTID_TIME_BACKTRACK /\
   pr_base pr' = pr_base pr /\ pr_extent pr' = pr_extent pr /\
   pr_id pr' = pr_id pr /\ pr_time pr' = pr_time pr /\
   pr_history pr' = pr_history pr /\ pr_expire pr' = pr_expire pr).
Proof.
  intros Hp. split.
  - intros Ht H1. cbv zeta.
    rewrite (recv_newer_epoch pr now pkt_id pkt_time) by lia.
    rewrite (recv_on_reset pr now pkt_id pkt_time) by lia.
    split; [repeat split|]. split; [reflexivity|].
    pose proof (window_update_forward (window_reset pr pkt_time) pkt_id) as Hfw.
    pose proof (window_update_fresh_extent (window_reset pr pkt_time) pkt_id) as Hx.
    cbn [window_reset pr_id pr_time pr_id_floor pr_extent set_base set_extent
         set_id set_time set_id_floor] in Hfw, Hx.
    destruct Hfw as (Ha & Hi & Htm & Hfl); [lia|].
    specialize (Hx eq_refl eq_refl ltac:(lia)).
    destruct (window_update (window_reset pr pkt_time) pkt_id) as [r pr2].
    cbn [fst snd] in Ha, Hi, Htm, Hfl, Hx. subst r.
    cbn [fst snd set_expire pr_time pr_id pr_id_floor pr_extent pr_expire].
    repeat split; assumption.
  - intros Ht Hnz. cbv zeta. rewrite recv_stages. cbv zeta.
    destruct (floor_step_fields pr now) as (Hh & Hb & Hx & Hex & Hi & Htm & _).
    destruct (Z.eqb_spec pkt_id 0) as [|_]; [contradiction|].
    destruct (Z.ltb_spec pkt_time (pr_time pr)) as [_|]; [|lia].
    cbn [fst snd]. repeat split; assumption.
Qed.

(** ** Presentations inside a full window *)

Lemma recv_in_window pr now x :
  full_window pr -> in_window pr x ->
  time_after_eq now (pr_expire pr) = false ->
  fst (__ovpn_pktid_recv pr now x (pr_time pr)) = verdict pr x /\
  same_window pr (snd (__ovpn_pktid_recv pr now x (pr_time pr))) /\
  forall y, in_window pr y ->
    seen (snd (__ovpn_pktid_recv pr now x (pr_time pr))) y
    = seen pr y || (y =? x).
Proof.
  intros (Hs & Hid & Hx & Hfl) Hin Hnow. unfold in_window in Hin.
  pose proof window_size_bounds as Hw.
  rewrite recv_stages. cbv zeta. unfold floor_step. rewrite Hnow.
  destruct (Z.eqb_spec x 0) as [|_]; [lia|].
  rewrite Z.ltb_irrefl, Z.eqb_refl.
  assert (Hne : x <> u32 (pr_id pr + 1)).
  { intros Heq. apply succ_id_no_wrap in Heq; lia. }
  rewrite (window_update_back _ _ Hne ltac:(lia)). cbv zeta.
  rewrite (u32_small (pr_id pr - x)) by lia. rewrite Hx.
  destruct (Z.ltb_spec (pr_id pr - x) REPLAY_WINDOW_SIZE) as [_|]; [|lia].
  destruct (Z.gtb_spec x (pr_id_floor pr)) as [_|]; [|lia].
  unfold verdict. fold (seen pr x).
  destruct (seen pr x) eqn:Hseen; cbn [fst snd]; (split; [reflexivity|]).
  - split.
    + unfold same_window. cbn. repeat split; exact Hs.
    + intros y Hy. unfold seen at 1. cbn [set_max_backtrack pr_history pr_base pr_id].
      fold (seen pr y). destruct (Z.eqb_spec y x) as [->|_].
      * rewrite Hseen. reflexivity.
      * rewrite orb_false_r. reflexivity.
  - split.
    + unfold same_window. cbn. repeat split.
      unfold history_sized. rewrite length_history_set. exact Hs.
    + intros y Hy. unfold in_window in Hy. unfold seen at 1.
      cbn [set_expire set_history set_max_backtrack pr_history pr_base pr_id].
      destruct (Z.eqb_spec y x) as [->|Hyx].
      * rewrite orb_true_r. apply history_test_set_eq.
        rewrite (history_sized_bits _ Hs). apply REPLAY_INDEX_range.
      * rewrite orb_false_r. unfold seen. apply history_test_set_ne.
        -- apply REPLAY_INDEX_range.
        -- apply REPLAY_INDEX_range.
        -- intros Hc. apply REPLAY_INDEX_inj in Hc; lia.
Qed.

Lemma full_window_same pr pr' :
  full_window pr -> same_window pr pr' -> full_window pr'.
Proof.
  intros (Hs & Hid & Hx & Hfl) (Hi & Hb & He & Ht & Hf & Hs').
  unfold full_window. rewrite Hi, He, Hf. repeat split; try assumption; lia.
Qed.

Lemma recv_all_in_window ps : forall pr,
  full_window pr ->
  at_epoch (pr_time pr) ps ->
  Forall (fun p => in_window pr (p_id p)) ps ->
  NoDup (map p_id ps) ->
  unexpired pr ps ->
  fst (recv_all pr ps) = map (fun p => verdict pr (p_id p)) ps /\
  same_window pr (snd (recv_all pr ps)) /\
  forall y, in_window pr y ->
    seen (snd (recv_all pr ps)) y = seen pr y || bool_decide (y ∈ map p_id ps).
Proof.
  induction ps as [|p ps IH]; intros pr Hfull He Hin Hnd Hun.
  - cbn [recv_all fst snd map]. split; [reflexivity|]. split.
    + destruct Hfull as (Hs & _). unfold same_window. repeat split. exact Hs.
    + intros y _. rewrite orb_false_r. reflexivity.
  - cbn [recv_all]. apply Forall_cons_1 in He. destruct He as [Hpe He].
    apply Forall_cons_1 in Hin. destruct Hin as [Hpin Hin].
    cbn [map] in Hnd. apply NoDup_cons in Hnd. destruct Hnd as [Hfresh Hnd].
    destruct Hun as [Hnow Hun]. rewrite Hpe in *.
    destruct (recv_in_window pr (p_now p) (p_id p) Hfull Hpin Hnow)
      as (Hr & Hsame & Hseen).
    destruct (__ovpn_pktid_recv pr (p_now p) (p_id p) (pr_time pr)) as [r pr1].
    cbn [fst snd] in Hr, Hsame, Hseen, Hun.
    pose proof (full_window_same _ _ Hfull Hsame) as Hfull1.
    destruct Hsame as (Hi & Hb & Hx & Ht & Hf & Hs1).
    assert (Hwin : forall y, in_window pr1 y <-> in_window pr y).
    { intros y. unfold in_window. rewrite Hi. reflexivity. }
    specialize (IH pr1 Hfull1).
    destruct IH as (IHr & IHsame & IHseen).
    + rewrite Ht. exact He.
    + eapply Forall_impl; [exact Hin|]. intros q Hq. apply Hwin. exact Hq.
    + exact Hnd.
    + exact Hun.
    + destruct (recv_all pr1 ps) as [rs pr2]. cbn [fst snd] in *.
      split; [|split].
      * rewrite Hr, IHr. cbn [map]. f_equal.
        apply map_ext_in. intros q Hq. unfold verdict.
        rewrite Hseen.
        -- destruct (Z.eqb_spec (p_id q) (p_id p)) as [Heq|_].
           ++ exfalso. apply Hfresh. rewrite <- Heq.
              apply list_elem_of_In. apply in_map. exact Hq.
           ++ rewrite orb_false_r. reflexivity.
        -- rewrite Forall_forall in Hin. apply Hin.
           apply list_elem_of_In. exact Hq.
      * destruct IHsame as (Hi2 & Hb2 & Hx2 & Ht2 & Hf2 & Hs2).
        unfold same_window. repeat split; first [congruence | exact Hs2].
      * intros y Hy. rewrite IHseen by (apply Hwin; exact Hy).
        rewrite Hseen by exact Hy. cbn [map].
        rewrite <- orb_assoc. f_equal.
        destruct (Z.eqb_spec y (p_id p)) as [->|Hne].
        -- cbn [orb]. symmetry. apply bool_decide_eq_true_2. left.
        -- cbn [orb]. apply bool_decide_ext. rewrite elem_of_cons. tauto.
Qed.

(** ** A window presented to a detector that is below it *)

Lemma bool_decide_elem_other (x y : Z) (acc : list Z) :
  y <> x -> bool_decide (y ∈ x :: acc) = bool_decide (y ∈ acc).
Proof.
  intros Hne. apply bool_decide_ext. rewrite elem_of_cons. tauto.
Qed.

Lemma bool_decide_elem_head (x : Z) (acc : list Z) :
  bool_decide (x ∈ x :: acc) = true.
Proof. apply bool_decide_eq_true_2. left. Qed.

Lemma window_update_run lo pr acc x :
  1 <= lo -> lo + REPLAY_WINDOW_SIZE <= 2 ^ 32 ->
  window_run lo pr acc ->
  lo <= x < lo + REPLAY_WINDOW_SIZE -> x ∉ acc ->
  fst (window_update pr x) = Accept /\
  window_run lo (snd (window_update pr x)) (x :: acc) /\
  pr_time (snd (window_update pr x)) = pr_time pr /\
  pr_expire (snd (window_update pr x)) = pr_expire pr.
Proof.
  intros Hlo Hhi (Hs & Hid & Hext & Hreach & Hfl & Hacc & Hseen) Hx Hfresh.
  pose proof window_size_bounds as Hw.
  pose proof (history_sized_bits _ Hs) as Hlen.
  assert (Hacc' : forall y, y ∈ x :: acc -> lo <= y <= Z.max x (pr_id pr)).
  { intros y Hy. apply elem_of_cons in Hy. destruct Hy as [->|Hy]; [lia|].
    specialize (Hacc y Hy). lia. }
  destruct (Z.eq_dec x (u32 (pr_id pr + 1))) as [Heq|Hne].
  - (* the next id *)
    rewrite (window_update_next _ _ Heq).
    apply succ_id_no_wrap in Heq; [|lia|lia].
    pose proof (REPLAY_INDEX_range (pr_base pr) (-1)) as Hb.
    assert (Hx' : (if pr_extent pr <? REPLAY_WINDOW_SIZE
                   then u32 (pr_extent pr + 1) else pr_extent pr)
                  = Z.min (pr_extent pr + 1) REPLAY_WINDOW_SIZE).
    { destruct (Z.ltb_spec (pr_extent pr) REPLAY_WINDOW_SIZE).
      - rewrite u32_small by lia. lia.
      - lia. }
    rewrite Hx'. cbn [fst snd]. split; [reflexivity|].
    split; [|split; reflexivity].
    unfold window_run, seen.
    cbn [pr_history pr_base pr_extent pr_id pr_id_floor].
    split; [unfold history_sized; rewrite length_history_set; exact Hs|].
    do 4 (split; [lia|]). split.
    + intros y Hy. specialize (Hacc' y Hy). lia.
    + intros y Hy. destruct (Z.eq_dec y x) as [->|Hyx].
      * rewrite bool_decide_elem_head, Z.sub_diag, REPLAY_INDEX_0 by exact Hb.
        apply history_test_set_eq. rewrite Hlen. exact Hb.
      * rewrite bool_decide_elem_other by exact Hyx.
        rewrite <- Hseen by lia. unfold seen.
        replace (REPLAY_INDEX (pr_base pr) (pr_id pr - y))
          with (REPLAY_INDEX (REPLAY_INDEX (pr_base pr) (-1)) (x - y))
          by (rewrite REPLAY_INDEX_shift; f_equal; lia).
        apply history_test_set_ne.
        -- lia.
        -- apply REPLAY_INDEX_range.
        -- rewrite <- (REPLAY_INDEX_0 (REPLAY_INDEX (pr_base pr) (-1))) at 1
             by exact Hb.
           intros Hc. apply REPLAY_INDEX_inj in Hc; lia.
  - destruct (Z_lt_le_dec (pr_id pr) x) as [Hgt|Hle].
    + assert (Hdelta : u32 (x - pr_id pr) = x - pr_id pr)
        by (apply u32_small; lia).
      destruct (Z_lt_le_dec (u32 (x - pr_id pr)) REPLAY_WINDOW_SIZE)
        as [Hnear|Hfar].
      * (* forward jump inside the window *)
        rewrite (window_update_jump _ _ Hne Hgt Hnear). cbv zeta.
        rewrite Hdelta in *.
        set (delta := x - pr_id pr) in *.
        set (b := REPLAY_INDEX (pr_base pr) (- delta)).
        pose proof (REPLAY_INDEX_range (pr_base pr) (- delta)) as Hb. fold b in Hb.
        assert (Hsb : history_sized (history_set (pr_history pr) b)).
        { unfold history_sized. rewrite length_history_set. exact Hs. }
        rewrite (u32_small (pr_extent pr + delta)) by lia.
        assert (Hx' : (if pr_extent pr + delta >? REPLAY_WINDOW_SIZE
                       then REPLAY_WINDOW_SIZE else pr_extent pr + delta)
                      = Z.min (pr_extent pr + delta) REPLAY_WINDOW_SIZE).
        { destruct (Z.gtb_spec (pr_extent pr + delta) REPLAY_WINDOW_SIZE); lia. }
        rewrite Hx'. cbn [fst snd]. split; [reflexivity|].
        split; [|split; reflexivity].
        unfold window_run, seen.
        cbn [pr_history pr_base pr_extent pr_id pr_id_floor].
        split; [apply clear_skipped_sized; exact Hsb|].
        do 4 (split; [lia|]). split.
        -- intros y Hy. specialize (Hacc' y Hy). lia.
        -- intros y Hy. destruct (Z.eq_dec y x) as [->|Hyx].
           ++ rewrite bool_decide_elem_head, Z.sub_diag, REPLAY_INDEX_0
                by exact Hb.
              rewrite clear_skipped_miss.
              ** apply history_test_set_eq. rewrite Hlen. exact Hb.
              ** lia.
              ** intros j Hj Hc.
                 rewrite <- (REPLAY_INDEX_0 b) in Hc at 2 by exact Hb.
                 apply REPLAY_INDEX_inj in Hc; lia.
           ++ rewrite bool_decide_elem_other by exact Hyx.
              destruct (Z_lt_le_dec (pr_id pr) y) as [Hskip|Hold].
              ** rewrite clear_skipped_hit by (exact Hsb || lia).
                 symmetry. apply bool_decide_eq_false_2. intros Hin.
                 specialize (Hacc y Hin). lia.
              ** rewrite <- Hseen by lia. unfold seen.
                 rewrite clear_skipped_miss.
                 { replace (REPLAY_INDEX (pr_base pr) (pr_id pr - y))
                     with (REPLAY_INDEX b (x - y))
                     by (unfold b; rewrite REPLAY_INDEX_shift; f_equal; lia).
                   apply history_test_set_ne.
                   - lia.
                   - apply REPLAY_INDEX_range.
                   - rewrite <- (REPLAY_INDEX_0 b) at 1 by exact Hb.
                     intros Hc. apply REPLAY_INDEX_inj in Hc; lia. }
                 { apply REPLAY_INDEX_range. }
                 { intros j Hj Hc. apply REPLAY_INDEX_inj in Hc; lia. }
      * (* forward jump past the window *)
        rewrite (window_update_far _ _ Hne Hgt Hfar).
        rewrite Hdelta in Hfar.
        cbn [fst snd]. split; [reflexivity|]. split; [|split; reflexivity].
        unfold window_run, seen.
        cbn [pr_history pr_base pr_extent pr_id pr_id_floor].
        split; [unfold history_sized;
                rewrite length_insert, length_replicate; reflexivity|].
        do 4 (split; [lia|]). split.
        -- intros y Hy. specialize (Hacc' y Hy). lia.
        -- intros y Hy. rewrite history_first_bit.
           destruct (Z.eq_dec y x) as [->|Hyx].
           ++ rewrite bool_decide_elem_head, Z.sub_diag.
              rewrite REPLAY_INDEX_0 by lia.
              apply history_test_set_eq.
              rewrite length_replicate. pose proof window_bytes_nonneg.
              unfold REPLAY_WINDOW_SIZE in Hw. lia.
           ++ rewrite bool_decide_elem_other by exact Hyx.
              rewrite history_test_set_ne.
              ** rewrite history_test_zeroed. symmetry.
                 apply bool_decide_eq_false_2. intros Hin.
                 specialize (Hacc y Hin). lia.
              ** lia.
              ** apply REPLAY_INDEX_range.
              ** rewrite REPLAY_INDEX_mod, Z.add_0_l, Z.mod_small; lia.
    + (* backtrack to an id not yet accepted *)
      rewrite (window_update_back _ _ Hne Hle). cbv zeta.
      rewrite (u32_small (pr_id pr - x)) by lia.
      destruct (Z.ltb_spec (pr_id pr - x) (pr_extent pr)) as [_|]; [|lia].
      destruct (Z.gtb_spec x (pr_id_floor pr)) as [_|]; [|lia].
      fold (seen pr x). rewrite (Hseen x) by lia.
      rewrite bool_decide_eq_false_2 by exact Hfresh.
      cbn [fst snd]. split; [reflexivity|]. split; [|split; reflexivity].
      unfold window_run, seen.
      cbn [set_history set_max_backtrack pr_history pr_base pr_extent pr_id
           pr_id_floor].
      split; [unfold history_sized; rewrite length_history_set; exact Hs|].
      do 4 (split; [lia|]). split.
      * intros y Hy. specialize (Hacc' y Hy). lia.
      * intros y Hy. destruct (Z.eq_dec y x) as [->|Hyx].
        -- rewrite bool_decide_elem_head. apply history_test_set_eq.
           rewrite Hlen. apply REPLAY_INDEX_range.
        -- rewrite bool_decide_elem_other by exact Hyx.
           rewrite <- Hseen by lia. unfold seen.
           apply history_test_set_ne.
           ++ apply REPLAY_INDEX_range.
           ++ apply REPLAY_INDEX_range.
           ++ intros Hc. apply REPLAY_INDEX_inj in Hc; lia.
Qed.

Lemma below_window_run lo pr : below_window lo pr -> window_run lo pr [].
Proof.
  intros (Hs & Hid & Hext & Hfl). pose proof window_size_bounds as Hw.
  unfold window_run. split; [exact Hs|]. do 4 (split; [lia|]). split.
  - intros x Hx. apply elem_of_nil in Hx. contradiction.
  - intros x Hx. lia.
Qed.

Lemma floor_step_run lo pr acc now :
  window_run lo pr acc ->
  time_after_eq now (pr_expire pr) = false \/ pr_id pr < lo ->
  window_run lo (floor_step pr now) acc.
Proof.
  intros Hrun Hcalm. unfold floor_step.
  destruct (time_after_eq now (pr_expire pr)); [|exact Hrun].
  destruct Hcalm as [|Hbelow]; [discriminate|].
  destruct Hrun as (Hs & Hid & Hext & Hreach & Hfl & Hacc & Hseen).
  unfold window_run, seen in *.
  cbn [set_id_floor pr_history pr_base pr_extent pr_id pr_id_floor].
  split; [exact Hs|]. do 3 (split; [lia|]). split; [lia|].
  split; assumption.
Qed.

Lemma recv_run lo pr acc now x :
  1 <= lo -> lo + REPLAY_WINDOW_SIZE <= 2 ^ 32 ->
  window_run lo pr acc ->
  lo <= x < lo + REPLAY_WINDOW_SIZE -> x ∉ acc ->
  time_after_eq now (pr_expire pr) = false \/ pr_id pr < lo ->
  fst (__ovpn_pktid_recv pr now x (pr_time pr)) = Accept /\
  window_run lo (snd (__ovpn_pktid_recv pr now x (pr_time pr))) (x :: acc) /\
  pr_time (snd (__ovpn_pktid_recv pr now x (pr_time pr))) = pr_time pr.
Proof.
  intros Hlo Hhi Hrun Hx Hfresh Hcalm.
  rewrite recv_stages. cbv zeta.
  destruct (floor_step_fields pr now) as (_ & _ & _ & _ & _ & Ht & _).
  destruct (Z.eqb_spec x 0) as [|_]; [lia|].
  rewrite Z.ltb_irrefl, Z.eqb_refl.
  pose proof (floor_step_run lo pr acc now Hrun Hcalm) as Hrun0.
  destruct (window_update_run lo _ acc x Hlo Hhi Hrun0 Hx Hfresh)
    as (Ha & Hrun1 & Ht1 & _).
  destruct (window_update (floor_step pr now) x) as [r pr1].
  cbn [fst snd] in Ha, Hrun1, Ht1. subst r. cbn [fst snd].
  split; [reflexivity|]. split; [|cbn; lia].
  destruct Hrun1 as (Hs & Hid & Hext & Hreach & Hfl & Hacc & Hseen).
  unfold window_run, seen in *.
  cbn [set_expire pr_history pr_base pr_extent pr_id pr_id_floor].
  repeat (split; [assumption|]). assumption.
Qed.

Lemma recv_all_run lo ps : forall pr acc,
  1 <= lo -> lo + REPLAY_WINDOW_SIZE <= 2 ^ 32 ->
  window_run lo pr acc ->
  at_epoch (pr_time pr) ps ->
  Forall (fun p => lo <= p_id p < lo + REPLAY_WINDOW_SIZE /\ p_id p ∉ acc) ps ->
  NoDup (map p_id ps) ->
  quiet lo pr ps ->
  Forall (fun r => r = Accept) (fst (recv_all pr ps)) /\
  window_run lo (snd (recv_all pr ps)) (rev (map p_id ps) ++ acc) /\
  pr_time (snd (recv_all pr ps)) = pr_time pr.
Proof.
  induction ps as [|p ps IH]; intros pr acc Hlo Hhi Hrun He Hin Hnd Hq.
  - cbn. split; [constructor|]. split; [exact Hrun|reflexivity].
  - cbn [recv_all]. apply Forall_cons_1 in He. destruct He as [Hpe He].
    apply Forall_cons_1 in Hin. destruct Hin as [[Hpr Hpf] Hin].
    cbn [map] in Hnd. apply NoDup_cons in Hnd. destruct Hnd as [Hfresh Hnd].
    destruct Hq as [Hcalm Hq]. rewrite Hpe in *.
    destruct (recv_run lo pr acc (p_now p) (p_id p) Hlo Hhi Hrun Hpr Hpf Hcalm)
      as (Ha & Hrun1 & Ht1).
    destruct (__ovpn_pktid_recv pr (p_now p) (p_id p) (pr_time pr)) as [r pr1].
    cbn [fst snd] in Ha, Hrun1, Ht1, Hq. subst r.
    specialize (IH pr1 (p_id p :: acc) Hlo Hhi Hrun1).
    destruct IH as (IHa & IHrun & IHt).
    + rewrite Ht1. exact He.
    + apply Forall_forall. intros q Hq'. rewrite Forall_forall in Hin.
      destruct (Hin q Hq') as [Hqr Hqf]. split; [exact Hqr|].
      intros Hc. apply elem_of_cons in Hc. destruct Hc as [Hc|Hc].
      * apply Hfresh. rewrite <- Hc. apply list_elem_of_In. apply in_map.
        apply list_elem_of_In. exact Hq'.
      * contradiction.
    + exact Hnd.
    + exact Hq.
    + destruct (recv_all pr1 ps) as [rs pr2]. cbn [fst snd] in *.
      split; [constructor; [reflexivity | exact IHa]|].
      split; [|lia]. cbn [map rev]. rewrite <- app_assoc. exact IHrun.
Qed.

(** An id of the window that was accepted is a replay from then on. *)
Lemma recv_run_replay lo pr acc now x :
  1 <= lo -> lo + REPLAY_WINDOW_SIZE <= 2 ^ 32 ->
  window_run lo pr acc -> x ∈ acc ->
  time_after_eq now (pr_expire pr) = false ->
  fst (__ovpn_pktid_recv pr now x (pr_time pr)) = Reject OVPN_ERR_PKTID_REPLAY.
Proof.
  intros Hlo Hhi (Hs & Hid & Hext & Hreach & Hfl & Hacc & Hseen) Hin Hnow.
  pose proof window_size_bounds as Hw. specialize (Hacc x Hin).
  rewrite recv_stages. cbv zeta. unfold floor_step. rewrite Hnow.
  destruct (Z.eqb_spec x 0) as [|_]; [lia|].
  rewrite Z.ltb_irrefl, Z.eqb_refl.
  assert (Hne : x <> u32 (pr_id pr + 1)).
  { intros Heq. apply succ_id_no_wrap in Heq; lia. }
  rewrite (window_update_back _ _ Hne ltac:(lia)). cbv zeta.
  rewrite (u32_small (pr_id pr - x)) by lia.
  destruct (Z.ltb_spec (pr_id pr - x) (pr_extent pr)) as [_|]; [|lia].
  destruct (Z.gtb_spec x (pr_id_floor pr)) as [_|]; [|lia].
  fold (seen pr x). rewrite (Hseen x) by lia.
  rewrite bool_decide_eq_true_2 by exact Hin. reflexivity.
Qed.

Lemma recv_window_same_epoch lo pr ps :
  1 <= lo -> lo + REPLAY_WINDOW_SIZE <= 2 ^ 32 ->
  below_window lo pr ->
  at_epoch (pr_time pr) ps ->
  map p_id ps ≡ₚ seqZ lo REPLAY_WINDOW_SIZE ->
  quiet lo pr ps ->
  length (fst (recv_all pr ps)) = length ps /\
  Forall (fun r => r = Accept) (fst (recv_all pr ps)) /\
  forall now x,
    lo <= x < lo + REPLAY_WINDOW_SIZE ->
    time_after_eq now (pr_expire (snd (recv_all pr ps))) = false ->
    fst (__ovpn_pktid_recv (snd (recv_all pr ps)) now x (pr_time pr))
    = Reject OVPN_ERR_PKTID_REPLAY.
Proof.
  intros Hlo Hhi Hbelow He Hperm Hq.
  assert (Hnd : NoDup (map p_id ps)) by (rewrite Hperm; apply NoDup_seqZ).
  assert (Hmem : forall x, x ∈ map p_id ps <-> lo <= x < lo + REPLAY_WINDOW_SIZE).
  { intros x. rewrite Hperm, elem_of_seqZ. reflexivity. }
  assert (Hin : Forall (fun p => lo <= p_id p < lo + REPLAY_WINDOW_SIZE
                                 /\ p_id p ∉ []) ps).
  { apply Forall_forall. intros p Hp. split.
    - apply Hmem. apply list_elem_of_In. apply in_map. apply list_elem_of_In.
      exact Hp.
    - apply not_elem_of_nil. }
  destruct (recv_all_run lo ps pr [] Hlo Hhi (below_window_run lo pr Hbelow)
              He Hin Hnd Hq) as (Ha & Hrun & Ht).
  split; [apply recv_all_length|]. split; [exact Ha|].
  intros now x Hx Hnow. rewrite <- Ht.
  apply (recv_run_replay lo _ (rev (map p_id ps) ++ []) now x Hlo Hhi Hrun);
    [|exact Hnow].
  rewrite app_nil_r. apply list_elem_of_In. apply (proj1 (in_rev _ _)).
  apply list_elem_of_In. apply Hmem. exact Hx.
Qed.

Lemma recv_all_newer_epoch pr epoch p ps :
  pr_time pr < epoch -> p_time p = epoch -> p_id p <> 0 ->
  recv_all pr (p :: ps) = recv_all (window_reset pr epoch) (p :: ps).
Proof.
  intros Ht He Hnz. cbn [recv_all]. rewrite He.
  rewrite (recv_newer_epoch pr (p_now p) (p_id p) epoch Ht Hnz).
  rewrite (recv_on_reset pr (p_now p) (p_id p) epoch Hnz). reflexivity.
Qed.

(** X20.  The window [{lo, ..., lo + W - 1}] presented in any permutation,
    at one epoch, to a detector that is below it (a fresh detector is, for
    every [lo >= 1] and every epoch): every id is accepted, and presenting
    any of them once more is rejected with the REPLAY error. *)
Theorem recv_window_from_below lo epoch pr ps :
  1 <= lo -> lo + REPLAY_WINDOW_SIZE <= 2 ^ 32 ->
  below_window lo pr ->
  pr_time pr <= epoch ->
  at_epoch epoch ps ->
  map p_id ps ≡ₚ seqZ lo REPLAY_WINDOW_SIZE ->
  quiet lo pr ps ->
  length (fst (recv_all pr ps)) = length ps /\
  Forall (fun r => r = Accept) (fst (recv_all pr ps)) /\
  forall now x,
    lo <= x < lo + REPLAY_WINDOW_SIZE ->
    time_after_eq now (pr_expire (snd (recv_all pr ps))) = false ->
    fst (__ovpn_pktid_recv (snd (recv_all pr ps)) now x epoch)
    = Reject OVPN_ERR_PKTID_REPLAY.
Proof.
  intros Hlo Hhi Hbelow Ht He Hperm Hq.
  destruct (Z.eq_dec (pr_time pr) epoch) as [Heq|Hne].
  - subst epoch. apply recv_window_same_epoch; assumption.
  - destruct ps as [|p ps'].
    + apply Permutation_length in Hperm. rewrite length_seqZ in Hperm.
      pose proof window_size_bounds. cbn in Hperm. lia.
    + assert (Hpe : p_time p = epoch).
      { apply Forall_cons_1 in He. apply He. }
      assert (Hpid : lo <= p_id p < lo + REPLAY_WINDOW_SIZE).
      { apply elem_of_seqZ. rewrite <- Hperm. left. }
      rewrite (recv_all_newer_epoch pr epoch p ps') by lia.
      destruct Hbelow as (Hs & _ & _ & _).
      replace epoch with (pr_time (window_reset pr epoch)) at 3 by reflexivity.
      apply recv_window_same_epoch; try assumption.
      * pose proof window_size_bounds.
        unfold below_window, window_reset. cbn. repeat split; try lia.
        exact Hs.
      * destruct Hq as [_ Hq]. cbn [quiet]. split.
        -- right. cbn. lia.
        -- rewrite Hpe in *.
           rewrite (recv_on_reset pr (p_now p) (p_id p) epoch) by lia.
           rewrite (recv_newer_epoch pr (p_now p) (p_id p) epoch) in Hq by lia.
           exact Hq.
Qed.

(** ** States reached from a fresh detector *)

Lemma init_window_inv :
  state_wf ovpn_pktid_recv_init /\ window_inv ovpn_pktid_recv_init [].
Proof.
  pose proof window_size_bounds as Hw. split.
  - unfold state_wf, history_sized. cbn. rewrite length_replicate. lia.
  - apply window_inv_intro; cbn; [lia|]. intros k Hk. lia.
Qed.

Lemma recv_all_window_inv ps : forall pr log,
  typed ps -> state_wf pr -> window_inv pr log ->
  state_wf (snd (recv_all pr ps)) /\
  window_inv (snd (recv_all pr ps)) (log_all pr ps log).
Proof.
  induction ps as [|p ps IH]; intros pr log Hty Hwf Hinv.
  - split; assumption.
  - cbn [recv_all log_all]. apply Forall_cons_1 in Hty. destruct Hty as [Hp Hty].
    destruct (recv_window_inv_step pr log (p_now p) (p_id p) (p_time p)
                Hwf Hp Hinv) as [Hinv1 Hwf1].
    destruct (__ovpn_pktid_recv pr (p_now p) (p_id p) (p_time p)) as [r pr1].
    cbn [fst snd] in Hinv1, Hwf1.
    specialize (IH pr1 (log_call r (p_id p) (p_time p) log) Hty Hwf1 Hinv1).
    destruct (recv_all pr1 ps) as [rs pr2]. exact IH.
Qed.

(** In every state reached from a fresh detector the extent is at most
    [REPLAY_WINDOW_SIZE]. *)
Lemma reachable_extent ps :
  typed ps ->
  pr_extent (snd (recv_all ovpn_pktid_recv_init ps)) <= REPLAY_WINDOW_SIZE.
Proof.
  intros Hty. destruct init_window_inv as [Hwf Hinv].
  destruct (recv_all_window_inv ps _ [] Hty Hwf Hinv) as [_ [Hext _]].
  exact Hext.
Qed.

(** C5.  The window invariant holds in the state left by
    [ovpn_pktid_recv_init] and is preserved by every call of
    [__ovpn_pktid_recv], accepting or rejecting, hence holds in every state
    reached from a fresh detector: the extent is at most
    [REPLAY_WINDOW_SIZE], and every set history bit whose ring index relative
    to [base] is some [k] in [[0, extent)] stands for the id [id - k], which
    lies in [(id - extent, id]] and was accepted earlier at the current
    epoch (it is in the log of accepted presentations, to which a call is
    added when it accepts). *)
Theorem recv_preserves_window_inv :
  window_inv ovpn_pktid_recv_init [] /\
  (forall pr log now pkt_id pkt_time,
     state_wf pr -> 0 <= pkt_id < 2 ^ 32 -> window_inv pr log ->
     window_inv (snd (__ovpn_pktid_recv pr now pkt_id pkt_time))
                (log_call (fst (__ovpn_pktid_recv pr now pkt_id pkt_time))
                          pkt_id pkt_time log)
     /\ state_wf (snd (__ovpn_pktid_recv pr now pkt_id pkt_time))) /\
  (forall ps,
     typed ps ->
     window_inv (snd (recv_all ovpn_pktid_recv_init ps))
                (log_all ovpn_pktid_recv_init ps [])).
Proof.
  destruct init_window_inv as [Hwf Hinv].
  split; [exact Hinv|]. split.
  - intros pr log now pkt_id pkt_time Hwf' Hp Hinv'.
    apply recv_window_inv_step; assumption.
  - intros ps Hty.
    destruct (recv_all_window_inv ps _ [] Hty Hwf Hinv) as [_ Hreach].
    exact Hreach.
Qed.

(** C2.  At the current epoch, a non-zero packet id below
    [id - REPLAY_WINDOW_SIZE + 1] (a backtrack by at least the window size)
    is rejected with the ID-BACKTRACK error, whatever the history bitmap,
    [id_floor] and the expiry state are: in every state with
    [extent <= REPLAY_WINDOW_SIZE], and so in every state reached from a
    fresh detector. *)
Theorem recv_out_of_window :
  (forall pr now pkt_id pkt_time,
     0 <= pr_id pr < 2 ^ 32 ->
     pr_extent pr <= REPLAY_WINDOW_SIZE ->
     pkt_time = pr_time pr ->
     0 <= pkt_id -> pkt_id <> 0 ->
     pkt_id < pr_id pr - REPLAY_WINDOW_SIZE + 1 ->
     fst (__ovpn_pktid_recv pr now pkt_id pkt_time)
     = Reject OVPN_ERR_PKTID_ID_BACKTRACK) /\
  (forall ps now pkt_id,
     typed ps ->
     let pr := snd (recv_all ovpn_pktid_recv_init ps) in
     0 <= pkt_id -> pkt_id <> 0 ->
     pkt_id < pr_id pr - REPLAY_WINDOW_SIZE + 1 ->
     fst (__ovpn_pktid_recv pr now pkt_id (pr_time pr))
     = Reject OVPN_ERR_PKTID_ID_BACKTRACK).
Proof.
  split.
  - intros pr now pkt_id pkt_time Hid Hext Ht Hp Hnz Hold.
    apply backtrack_beyond_window; assumption.
  - intros ps now pkt_id Hty pr Hp Hnz Hold.
    destruct init_window_inv as [Hwf Hinv].
    destruct (recv_all_window_inv ps _ [] Hty Hwf Hinv)
      as [(_ & _ & Hid) [Hext _]].
    apply backtrack_beyond_window; try assumption. reflexivity.
Qed.

Lemma window_update_extent pr pkt_id :
  1 <= pkt_id < 2 ^ 32 -> extent_tracks_id pr ->
  extent_tracks_id (snd (window_update pr pkt_id)).
Proof.
  intros Hp (Hid & Hx). pose proof window_size_bounds as Hw.
  unfold extent_tracks_id.
  destruct (Z.eq_dec pkt_id (u32 (pr_id pr + 1))) as [Heq|Hne].
  - rewrite (window_update_next _ _ Heq). cbn [snd pr_id pr_extent].
    apply succ_id_no_wrap in Heq; [|lia|lia].
    split; [lia|].
    destruct (Z.ltb_spec (pr_extent pr) REPLAY_WINDOW_SIZE).
    + rewrite u32_small by lia. lia.
    + lia.
  - destruct (Z_lt_le_dec (pr_id pr) pkt_id) as [Hgt|Hle].
    + assert (Hdelta : u32 (pkt_id - pr_id pr) = pkt_id - pr_id pr)
        by (apply u32_small; lia).
      destruct (Z_lt_le_dec (u32 (pkt_id - pr_id pr)) REPLAY_WINDOW_SIZE)
        as [Hnear|Hfar].
      * rewrite (window_update_jump _ _ Hne Hgt Hnear). cbv zeta.
        cbn [snd pr_id pr_extent]. rewrite Hdelta in *.
        split; [lia|]. rewrite u32_small by lia.
        destruct (Z.gtb_spec (pr_extent pr + (pkt_id - pr_id pr))
                             REPLAY_WINDOW_SIZE); lia.
      * rewrite (window_update_far _ _ Hne Hgt Hfar).
        cbn [snd pr_id pr_extent]. rewrite Hdelta in Hfar. lia.
    + rewrite (window_update_back _ _ Hne Hle). cbv zeta.
      destruct (u32 (pr_id pr - pkt_id) <? pr_extent pr);
        [destruct (pkt_id >? pr_id_floor pr);
         [destruct (history_test _ (REPLAY_INDEX _ _))|]|];
        cbn [snd set_history set_max_backtrack pr_id pr_extent];
        split; assumption.
Qed.

Lemma recv_extent pr now pkt_id pkt_time :
  0 <= pkt_id < 2 ^ 32 -> extent_tracks_id pr ->
  extent_tracks_id (snd (__ovpn_pktid_recv pr now pkt_id pkt_time)).
Proof.
  intros Hp Hx. rewrite recv_stages. cbv zeta.
  assert (Hx0 : extent_tracks_id (floor_step pr now)).
  { unfold floor_step. destruct (time_after_eq now (pr_expire pr)); exact Hx. }
  destruct (Z.eqb_spec pkt_id 0) as [|Hnz]; [exact Hx0|].
  destruct (pkt_time <? pr_time pr); [exact Hx0|].
  set (pr1 := if pkt_time =? pr_time pr then floor_step pr now
              else window_reset (floor_step pr now) pkt_time).
  assert (Hx1 : extent_tracks_id pr1).
  { unfold pr1. destruct (pkt_time =? pr_time pr); [exact Hx0|].
    pose proof window_size_bounds. unfold extent_tracks_id, window_reset.
    cbn. lia. }
  pose proof (window_update_extent pr1 pkt_id ltac:(lia) Hx1) as Hx2.
  destruct (window_update pr1 pkt_id) as [[|e] pr2]; exact Hx2.
Qed.

(** In every state reached from a fresh detector the extent is the top id
    capped by the window size: the window is full once the top id has
    reached [REPLAY_WINDOW_SIZE]. *)
Lemma reachable_extent_tracks_id ps :
  typed ps -> extent_tracks_id (snd (recv_all ovpn_pktid_recv_init ps)).
Proof.
  assert (Hgen : forall pr, typed ps -> extent_tracks_id pr ->
                            extent_tracks_id (snd (recv_all pr ps))).
  { induction ps as [|p ps IH]; intros pr Hty Hx; [exact Hx|].
    cbn [recv_all]. apply Forall_cons_1 in Hty. destruct Hty as [Hp Hty].
    pose proof (recv_extent pr (p_now p) (p_id p) (p_time p) Hp Hx) as H1.
    destruct (__ovpn_pktid_recv pr (p_now p) (p_id p) (p_time p)) as [r pr1].
    specialize (IH pr1 Hty H1). destruct (recv_all pr1 ps) as [rs pr2].
    exact IH. }
  intros Hty. apply Hgen; [exact Hty|].
  pose proof window_size_bounds. unfold extent_tracks_id. cbn. lia.
Qed.

Lemma window_update_top_marked pr pkt_id :
  top_marked pr -> top_marked (snd (window_update pr pkt_id)).
Proof.
  intros (Hs & Hb & Htop). pose proof window_size_bounds as Hw.
  pose proof (history_sized_bits _ Hs) as Hlen.
  destruct (Z.eq_dec pkt_id (u32 (pr_id pr + 1))) as [Heq|Hne].
  - rewrite (window_update_next _ _ Heq). unfold top_marked.
    cbn [snd pr_history pr_base pr_extent].
    pose proof (REPLAY_INDEX_range (pr_base pr) (-1)) as Hb'.
    split; [unfold history_sized; rewrite length_history_set; exact Hs|].
    split; [exact Hb'|]. intros _. apply history_test_set_eq. lia.
  - destruct (Z_lt_le_dec (pr_id pr) pkt_id) as [Hgt|Hle].
    + destruct (Z_lt_le_dec (u32 (pkt_id - pr_id pr)) REPLAY_WINDOW_SIZE)
        as [Hnear|Hfar].
      * rewrite (window_update_jump _ _ Hne Hgt Hnear). cbv zeta.
        set (delta := u32 (pkt_id - pr_id pr)) in *.
        assert (Hd0 : 0 <= delta) by (apply Z.mod_pos_bound; lia).
        set (b := REPLAY_INDEX (pr_base pr) (- delta)).
        pose proof (REPLAY_INDEX_range (pr_base pr) (- delta)) as Hb'.
        fold b in Hb'.
        assert (Hsb : history_sized (history_set (pr_history pr) b)).
        { unfold history_sized. rewrite length_history_set. exact Hs. }
        unfold top_marked. cbn [snd pr_history pr_base pr_extent].
        split; [apply clear_skipped_sized; exact Hsb|].
        split; [exact Hb'|]. intros _.
        rewrite clear_skipped_miss.
        -- apply history_test_set_eq. lia.
        -- lia.
        -- intros j Hj Hc. rewrite <- (REPLAY_INDEX_0 b) in Hc at 2 by exact Hb'.
           apply REPLAY_INDEX_inj in Hc; lia.
      * rewrite (window_update_far _ _ Hne Hgt Hfar). unfold top_marked.
        cbn [snd pr_history pr_base pr_extent].
        split; [unfold history_sized;
                rewrite length_insert, length_replicate; reflexivity|].
        split; [lia|]. intros _. rewrite history_first_bit.
        apply history_test_set_eq. rewrite length_replicate.
        pose proof window_bytes_nonneg. unfold REPLAY_WINDOW_SIZE in Hw. lia.
    + rewrite (window_update_back _ _ Hne Hle). cbv zeta.
      destruct (u32 (pr_id pr - pkt_id) <? pr_extent pr);
        [destruct (pkt_id >? pr_id_floor pr);
         [destruct (history_test _ (REPLAY_INDEX _ _)) eqn:Hbit|]|];
        unfold top_marked;
        cbn [snd set_history set_max_backtrack pr_history pr_base pr_extent];
        try (split; [exact Hs|]; split; [exact Hb|exact Htop]).
      split; [unfold history_sized; rewrite length_history_set; exact Hs|].
      split; [exact Hb|]. intros Hx.
      set (ri := REPLAY_INDEX (pr_base pr) (u32 (pr_id pr - pkt_id))) in *.
      pose proof (REPLAY_INDEX_range (pr_base pr) (u32 (pr_id pr - pkt_id)))
        as Hri. fold ri in Hri.
      destruct (Z.eq_dec ri (pr_base pr)) as [Heq|Hneq].
      * rewrite <- Heq. apply history_test_set_eq. lia.
      * rewrite history_test_set_ne by lia. apply Htop. exact Hx.
Qed.

Lemma recv_top_marked pr now pkt_id pkt_time :
  top_marked pr ->
  top_marked (snd (__ovpn_pktid_recv pr now pkt_id pkt_time)).
Proof.
  intros Htop. rewrite recv_stages. cbv zeta.
  assert (Htop0 : top_marked (floor_step pr now)).
  { unfold floor_step. destruct (time_after_eq now (pr_expire pr)); exact Htop. }
  destruct (pkt_id =? 0); [exact Htop0|].
  destruct (pkt_time <? pr_time pr); [exact Htop0|].
  set (pr1 := if pkt_time =? pr_time pr then floor_step pr now
              else window_reset (floor_step pr now) pkt_time).
  assert (Htop1 : top_marked pr1).
  { unfold pr1. destruct (pkt_time =? pr_time pr); [exact Htop0|].
    destruct Htop0 as (Hs & _ & _). pose proof window_size_bounds.
    unfold top_marked, window_reset. cbn. split; [exact Hs|].
    split; [lia|]. intros Hc. contradiction. }
  pose proof (window_update_top_marked pr1 pkt_id Htop1) as Htop2.
  destruct (window_update pr1 pkt_id) as [[|e] pr2]; exact Htop2.
Qed.

Lemma reachable_top_marked ps :
  top_marked (snd (recv_all ovpn_pktid_recv_init ps)).
Proof.
  assert (Hgen : forall pr, top_marked pr -> top_marked (snd (recv_all pr ps))).
  { induction ps as [|p ps IH]; intros pr Htop; [exact Htop|].
    cbn [recv_all].
    pose proof (recv_top_marked pr (p_now p) (p_id p) (p_time p) Htop) as H1.
    destruct (__ovpn_pktid_recv pr (p_now p) (p_id p) (p_time p)) as [r pr1].
    specialize (IH pr1 H1). destruct (recv_all pr1 ps) as [rs pr2]. exact IH. }
  apply Hgen. pose proof window_size_bounds as Hw.
  unfold top_marked, history_sized. cbn. rewrite length_replicate.
  split; [lia|]. split; [lia|]. intros Hc. contradiction.
Qed.

(** With a full window, a marked top id is answered as a replay. *)
Lemma top_marked_verdict pr :
  full_window pr -> top_marked pr ->
  verdict pr (pr_id pr) = Reject OVPN_ERR_PKTID_REPLAY.
Proof.
  intros (_ & _ & Hx & _) (_ & Hb & Htop). pose proof window_size_bounds as Hw.
  unfold verdict, seen. rewrite Z.sub_diag, REPLAY_INDEX_0 by exact Hb.
  rewrite Htop by lia. reflexivity.
Qed.

(** ** The window of a detector whose top id is the window's last id *)

(** C1 (amended).  The detector is in a state with top id [id], a full
    window (as it is in every reached state whose top id is at least W),
    every id of [{id - W + 1, ..., id}] above [id_floor], and no call finds
    the window expired.  The ids of the window are presented in
    any permutation at the state's epoch.  Then each id whose history bit is
    clear (it was not accepted before) is accepted, each id whose bit is
    already set is rejected with the REPLAY error (the top id itself is one
    of these when its bit is set, as it is in every state reached from a
    fresh detector), and afterwards presenting any id of the window once
    more is rejected with the REPLAY error. *)
Theorem recv_window_permutation pr ps :
  full_window pr ->
  at_epoch (pr_time pr) ps ->
  window_permutation pr ps ->
  unexpired pr ps ->
  fst (recv_all pr ps) = map (fun p => verdict pr (p_id p)) ps /\
  (top_marked pr -> verdict pr (pr_id pr) = Reject OVPN_ERR_PKTID_REPLAY) /\
  forall now x,
    in_window pr x ->
    time_after_eq now (pr_expire (snd (recv_all pr ps))) = false ->
    fst (__ovpn_pktid_recv (snd (recv_all pr ps)) now x (pr_time pr))
    = Reject OVPN_ERR_PKTID_REPLAY.
Proof.
  intros Hfull He Hperm Hun. unfold window_permutation in Hperm.
  pose proof window_size_bounds as Hw.
  assert (Hnd : NoDup (map p_id ps)).
  { rewrite Hperm. apply NoDup_seqZ. }
  assert (Hmem : forall x, x ∈ map p_id ps <-> in_window pr x).
  { intros x. rewrite Hperm, elem_of_seqZ. unfold in_window. lia. }
  assert (Hin : Forall (fun p => in_window pr (p_id p)) ps).
  { apply Forall_forall. intros p Hp. apply Hmem.
    apply list_elem_of_In. apply in_map. apply list_elem_of_In. exact Hp. }
  destruct (recv_all_in_window ps pr Hfull He Hin Hnd Hun)
    as (Hrs & Hsame & Hseen).
  split; [exact Hrs|].
  split; [apply top_marked_verdict; exact Hfull|].
  intros now x Hx Hnow.
  pose proof (full_window_same _ _ Hfull Hsame) as Hfull'.
  destruct Hsame as (Hi & _ & _ & Ht & _).
  assert (Hx' : in_window (snd (recv_all pr ps)) x).
  { unfold in_window in *. rewrite Hi. exact Hx. }
  destruct (recv_in_window _ now x Hfull' Hx' Hnow) as (Hr & _).
  rewrite Ht in Hr. rewrite Hr. unfold verdict.
  rewrite (Hseen x Hx).
  rewrite (bool_decide_eq_true_2 _ (proj2 (Hmem x) Hx)), orb_true_r.
  reflexivity.
Qed.

(** ** No presentation is accepted twice *)

Lemma history_test_set_keeps h p q :
  0 <= p < 8 * Z.of_nat (length h) -> 0 <= q ->
  history_test h q = true -> history_test (history_set h p) q = true.
Proof.
  intros Hp Hq Hbit. destruct (Z.eq_dec p q) as [<-|Hne].
  - apply history_test_set_eq. exact Hp.
  - rewrite history_test_set_ne by lia. exact Hbit.
Qed.

Lemma window_update_time pr pkt_id :
  pr_time (snd (window_update pr pkt_id)) = pr_time pr.
Proof.
  unfold window_update.
  repeat match goal with
         | |- context [if ?c then _ else _] => destruct c
         end; reflexivity.
Qed.

(** The branches of [window_update] keep the bit of every logged id that
    stays within the extent, and set the bit of the id they accept. *)
Lemma window_update_marks pr pkt_id log :
  state_wf pr -> pr_extent pr <= REPLAY_WINDOW_SIZE -> 1 <= pkt_id < 2 ^ 32 ->
  marks pr log ->
  marks (snd (window_update pr pkt_id))
        (log_call (fst (window_update pr pkt_id)) pkt_id (pr_time pr) log).
Proof.
  intros (Hs & He & Hid) Hext Hp Hm.
  pose proof window_size_bounds as Hw.
  pose proof (history_sized_bits _ Hs) as Hlen.
  destruct (Z.eq_dec pkt_id (u32 (pr_id pr + 1))) as [Heq|Hne].
  - (* pkt_id == pr->id + 1 *)
    rewrite (window_update_next _ _ Heq).
    apply succ_id_no_wrap in Heq; [|lia|lia].
    pose proof (REPLAY_INDEX_range (pr_base pr) (-1)) as Hb.
    assert (Hx : (if pr_extent pr <? REPLAY_WINDOW_SIZE
                  then u32 (pr_extent pr + 1) else pr_extent pr)
                 = Z.min (pr_extent pr + 1) REPLAY_WINDOW_SIZE).
    { destruct (Z.ltb_spec (pr_extent pr) REPLAY_WINDOW_SIZE).
      - rewrite u32_small by lia. lia.
      - lia. }
    rewrite Hx. unfold log_call, marks, seen.
    cbn [fst snd is_accept pr_history pr_base pr_extent pr_id pr_time].
    intros x [Hnew|Hold].
    + injection Hnew as <-. split; [lia|]. intros _.
      rewrite Z.sub_diag, REPLAY_INDEX_0 by exact Hb.
      apply history_test_set_eq. lia.
    + destruct (Hm x Hold) as [Hr Hbit]. split; [lia|]. intros Hin.
      rewrite REPLAY_INDEX_shift.
      replace (-1 + (pkt_id - x)) with (pr_id pr - x) by lia.
      apply history_test_set_keeps; [lia | apply REPLAY_INDEX_range |].
      apply Hbit. lia.
  - destruct (Z_lt_le_dec (pr_id pr) pkt_id) as [Hgt|Hle].
    + assert (Hdelta : u32 (pkt_id - pr_id pr) = pkt_id - pr_id pr)
        by (apply u32_small; lia).
      destruct (Z_lt_le_dec (u32 (pkt_id - pr_id pr)) REPLAY_WINDOW_SIZE)
        as [Hnear|Hfar].
      * (* forward jump inside the window *)
        rewrite (window_update_jump _ _ Hne Hgt Hnear). cbv zeta.
        rewrite Hdelta in *.
        set (delta := pkt_id - pr_id pr) in *.
        set (b := REPLAY_INDEX (pr_base pr) (- delta)).
        pose proof (REPLAY_INDEX_range (pr_base pr) (- delta)) as Hb. fold b in Hb.
        rewrite (u32_small (pr_extent pr + delta)) by lia.
        assert (Hx : (if pr_extent pr + delta >? REPLAY_WINDOW_SIZE
                      then REPLAY_WINDOW_SIZE else pr_extent pr + delta)
                     = Z.min (pr_extent pr + delta) REPLAY_WINDOW_SIZE).
        { destruct (Z.gtb_spec (pr_extent pr + delta) REPLAY_WINDOW_SIZE); lia. }
        rewrite Hx. unfold log_call, marks, seen.
        cbn [fst snd is_accept pr_history pr_base pr_extent pr_id pr_time].
        intros x [Hnew|Hold].
        -- injection Hnew as <-. split; [lia|]. intros _.
           rewrite Z.sub_diag. rewrite clear_skipped_miss.
           ++ rewrite REPLAY_INDEX_0 by exact Hb.
              apply history_test_set_eq. lia.
           ++ apply REPLAY_INDEX_range.
           ++ intros j Hj Hc. apply REPLAY_INDEX_inj in Hc; lia.
        -- destruct (Hm x Hold) as [Hr Hbit]. split; [lia|]. intros Hin.
           rewrite clear_skipped_miss.
           ++ unfold b. rewrite REPLAY_INDEX_shift.
              replace (- delta + (pkt_id - x)) with (pr_id pr - x) by lia.
              apply history_test_set_keeps;
                [fold b; lia | apply REPLAY_INDEX_range |].
              apply Hbit. lia.
           ++ apply REPLAY_INDEX_range.
           ++ intros j Hj Hc. apply REPLAY_INDEX_inj in Hc; lia.
      * (* forward jump past the window *)
        rewrite (window_update_far _ _ Hne Hgt Hfar).
        unfold log_call, marks, seen.
        cbn [fst snd is_accept pr_history pr_base pr_extent pr_id pr_time].
        intros x [Hnew|Hold].
        -- injection Hnew as <-. split; [lia|]. intros _.
           rewrite Z.sub_diag, REPLAY_INDEX_0 by lia.
           rewrite history_first_bit. apply history_test_set_eq.
           rewrite length_replicate. fold REPLAY_WINDOW_SIZE.
           unfold REPLAY_WINDOW_SIZE in *. lia.
        -- destruct (Hm x Hold) as [Hr _]. split; [lia|]. intros Hin. lia.
    + (* backtrack *)
      rewrite (window_update_back _ _ Hne Hle). cbv zeta.
      assert (Hdelta : u32 (pr_id pr - pkt_id) = pr_id pr - pkt_id)
        by (apply u32_small; lia).
      rewrite Hdelta. set (delta := pr_id pr - pkt_id) in *.
      assert (Hkeep : forall e,
        marks (snd (Reject e, set_max_backtrack pr (backtrack_seen pr delta)))
          (log_call (fst (Reject e, set_max_backtrack pr (backtrack_seen pr delta)))
                    pkt_id (pr_time pr) log)).
      { intros e. exact Hm. }
      destruct (Z.ltb_spec delta (pr_extent pr)) as [Hin|Hout]; [|apply Hkeep].
      destruct (Z.gtb_spec pkt_id (pr_id_floor pr)) as [Hfl|Hfl]; [|apply Hkeep].
      destruct (history_test (pr_history pr) (REPLAY_INDEX (pr_base pr) delta))
        eqn:Hseen; [apply Hkeep|].
      unfold log_call, marks, seen.
      cbn [fst snd is_accept set_history set_max_backtrack pr_history pr_base
           pr_extent pr_id pr_time].
      intros x [Hnew|Hold].
      * injection Hnew as <-. split; [lia|]. intros _. fold delta.
        apply history_test_set_eq. pose proof (REPLAY_INDEX_range (pr_base pr) delta).
        lia.
      * destruct (Hm x Hold) as [Hr Hbit]. split; [lia|]. intros Hx.
        apply history_test_set_keeps.
        -- pose proof (REPLAY_INDEX_range (pr_base pr) delta). lia.
        -- apply REPLAY_INDEX_range.
        -- apply Hbit. exact Hx.
Qed.

Lemma floor_step_marks pr now log :
  marks pr log -> marks (floor_step pr now) log.
Proof.
  intros Hm. unfold marks, seen.
  destruct (floor_step_fields pr now) as (-> & -> & -> & _ & -> & -> & _).
  exact Hm.
Qed.

Lemma init_replay_inv : replay_inv ovpn_pktid_recv_init [].
Proof.
  destruct init_window_inv as [Hwf Hinv].
  split; [exact Hwf | split; [exact Hinv | split]].
  - intros x [].
  - intros x e [].
Qed.

(** One call keeps [replay_inv], the log growing by the call when it
    accepts. *)
Lemma recv_replay_inv pr log now pkt_id pkt_time :
  0 <= pkt_id < 2 ^ 32 -> replay_inv pr log ->
  replay_inv (snd (__ovpn_pktid_recv pr now pkt_id pkt_time))
             (log_call (fst (__ovpn_pktid_recv pr now pkt_id pkt_time))
                       pkt_id pkt_time log).
Proof.
  intros Hp (Hwf & Hinv & Hm & Hep).
  destruct (recv_window_inv_step pr log now pkt_id pkt_time Hwf Hp Hinv)
    as [Hinv' Hwf'].
  split; [exact Hwf' | split; [exact Hinv' | clear Hinv' Hwf']].
  rewrite recv_stages. cbv zeta.
  destruct (floor_step_inv pr now log Hwf Hinv) as [Hwf0 [Hext0 _]].
  pose proof (floor_step_marks pr now log Hm) as Hm0.
  destruct (floor_step_fields pr now) as (_ & _ & _ & _ & _ & Ht & _).
  assert (Hep0 : epochs_bounded (floor_step pr now) log).
  { intros x e Hin. rewrite Ht. exact (Hep x e Hin). }
  destruct (Z.eqb_spec pkt_id 0) as [Hz|Hnz]; [split; assumption|].
  destruct (Z.ltb_spec pkt_time (pr_time pr)) as [Hlt|Hge]; [split; assumption|].
  set (pr1 := if pkt_time =? pr_time pr then floor_step pr now
              else window_reset (floor_step pr now) pkt_time).
  assert (H1 : state_wf pr1 /\ pr_extent pr1 <= REPLAY_WINDOW_SIZE /\
               marks pr1 log /\ pr_time pr1 = pkt_time).
  { unfold pr1. destruct (Z.eqb_spec pkt_time (pr_time pr)) as [Heq|Hne].
    - split; [exact Hwf0 | split; [exact Hext0 | split; [exact Hm0|]]].
      rewrite Ht. lia.
    - destruct (window_reset_inv (floor_step pr now) pkt_time log Hwf0)
        as [Hwfr [Hextr _]].
      split; [exact Hwfr | split; [exact Hextr | split; [|reflexivity]]].
      intros x Hin. cbn [window_reset set_id_floor set_time pr_time] in Hin.
      apply Hep in Hin. lia. }
  destruct H1 as (Hwf1 & Hext1 & Hm1 & Ht1).
  assert (Hp1 : 1 <= pkt_id < 2 ^ 32) by lia.
  pose proof (window_update_marks pr1 pkt_id log Hwf1 Hext1 Hp1 Hm1) as Hm2.
  pose proof (window_update_time pr1 pkt_id) as Ht2.
  rewrite Ht1 in Hm2, Ht2.
  assert (Hep2 : epochs_bounded (snd (window_update pr1 pkt_id))
                   (log_call (fst (window_update pr1 pkt_id)) pkt_id pkt_time log)).
  { intros x e Hin. rewrite Ht2. unfold log_call in Hin.
    destruct (is_accept (fst (window_update pr1 pkt_id))).
    - destruct Hin as [Hnew|Hold].
      + injection Hnew as _ <-. lia.
      + apply Hep in Hold. lia.
    - apply Hep in Hin. lia. }
  destruct (window_update pr1 pkt_id) as [[|e] pr2]; cbn [fst snd] in *.
  - split; assumption.
  - split; assumption.
Qed.

Lemma recv_all_replay_inv ps : forall pr log,
  typed ps -> replay_inv pr log ->
  replay_inv (snd (recv_all pr ps)) (log_all pr ps log).
Proof.
  induction ps as [|p ps IH]; intros pr log Hty Hinv.
  - exact Hinv.
  - cbn [recv_all log_all]. apply Forall_cons_1 in Hty. destruct Hty as [Hp Hty].
    pose proof (recv_replay_inv pr log (p_now p) (p_id p) (p_time p) Hp Hinv)
      as Hinv1.
    destruct (__ovpn_pktid_recv pr (p_now p) (p_id p) (p_time p)) as [r pr1].
    cbn [fst snd] in Hinv1.
    specialize (IH pr1 (log_call r (p_id p) (p_time p) log) Hty Hinv1).
    destruct (recv_all pr1 ps) as [rs pr2]. exact IH.
Qed.

(** A presentation found in the log is rejected. *)
Lemma replay_inv_rejects pr log now x e :
  replay_inv pr log -> In (x, e) log ->
  exists err, fst (__ovpn_pktid_recv pr now x e) = Reject err.
Proof.
  intros ((Hs & He & Hid) & _ & Hm & Hep) Hin.
  rewrite recv_stages. cbv zeta.
  destruct (Z.eqb_spec x 0) as [Hz|Hnz]; [eexists; reflexivity|].
  destruct (Z.ltb_spec e (pr_time pr)) as [Hlt|Hge]; [eexists; reflexivity|].
  pose proof (Hep x e Hin) as Hle.
  assert (Het : e = pr_time pr) by lia. subst e.
  rewrite Z.eqb_refl.
  destruct (Hm x Hin) as [Hr Hbit].
  destruct (floor_step_fields pr now) as (Hh & Hb & Hx & _ & Hi & _ & _ & _).
  assert (Hne : x <> u32 (pr_id (floor_step pr now) + 1)).
  { rewrite Hi. unfold u32. intros Hc.
    destruct (Z_lt_le_dec (pr_id pr + 1) (2 ^ 32)) as [Hs1|Hs1].
    - rewrite Z.mod_small in Hc by lia. lia.
    - replace (pr_id pr + 1) with (2 ^ 32) in Hc by lia.
      rewrite Z.mod_same in Hc by lia. lia. }
  rewrite (window_update_back _ _ Hne) by (rewrite Hi; lia). cbv zeta.
  rewrite Hh, Hb, Hx, Hi.
  rewrite (u32_small (pr_id pr - x)) by lia.
  destruct (Z.ltb_spec (pr_id pr - x) (pr_extent pr)) as [Hin'|Hout];
    [|eexists; reflexivity].
  destruct (x >? pr_id_floor (floor_step pr now)); [|eexists; reflexivity].
  unfold seen in Hbit. rewrite (Hbit Hin'). eexists; reflexivity.
Qed.

(** ** Runs and their logs *)

Lemma recv_all_app pr a b :
  recv_all pr (a ++ b) =
  (fst (recv_all pr a) ++ fst (recv_all (snd (recv_all pr a)) b),
   snd (recv_all (snd (recv_all pr a)) b)).
Proof.
  revert pr. induction a as [|p a IH]; intros pr; cbn [app recv_all].
  - cbn. destruct (recv_all pr b); reflexivity.
  - destruct (__ovpn_pktid_recv pr (p_now p) (p_id p) (p_time p)) as [r pr1].
    rewrite IH. destruct (recv_all pr1 a) as [rs pr2]. reflexivity.
Qed.

Lemma log_all_keeps ps : forall pr log z,
  In z log -> In z (log_all pr ps log).
Proof.
  induction ps as [|p ps IH]; intros pr log z Hin; cbn [log_all].
  - exact Hin.
  - destruct (__ovpn_pktid_recv pr (p_now p) (p_id p) (p_time p)) as [r pr1].
    apply IH. unfold log_call. destruct (is_accept r); [right|]; exact Hin.
Qed.

(** An accepted call of a run is in its log. *)
Lemma log_all_accepted ps : forall pr log (i : nat) p,
  ps !! i = Some p -> fst (recv_all pr ps) !! i = Some Accept ->
  In (p_id p, p_time p) (log_all pr ps log).
Proof.
  induction ps as [|q ps IH]; intros pr log i p Hp Hr; [discriminate|].
  cbn [recv_all log_all] in *.
  destruct (__ovpn_pktid_recv pr (p_now q) (p_id q) (p_time q)) as [r pr1].
  specialize (IH pr1). destruct (recv_all pr1 ps) as [rs pr2].
  cbn [fst] in *. destruct i as [|i]; cbn in Hp, Hr.
  - injection Hp as ->. injection Hr as ->.
    apply log_all_keeps. left. reflexivity.
  - apply (IH _ i); assumption.
Qed.

(** Every entry of the log of a run is there from the start or stands for
    an accepted call of the run. *)
Lemma log_all_origin ps : forall pr log x e,
  In (x, e) (log_all pr ps log) ->
  In (x, e) log \/
  exists (i : nat) p, ps !! i = Some p /\ p_id p = x /\ p_time p = e /\
                      fst (recv_all pr ps) !! i = Some Accept.
Proof.
  induction ps as [|q ps IH]; intros pr log x e Hin; cbn [log_all] in Hin.
  - left. exact Hin.
  - cbn [recv_all].
    destruct (__ovpn_pktid_recv pr (p_now q) (p_id q) (p_time q)) as [r pr1].
    specialize (IH pr1 _ x e Hin). destruct (recv_all pr1 ps) as [rs pr2].
    cbn [fst] in *. destruct IH as [Hlog|(i & p & Hp & Hx & He & Hr)].
    + unfold log_call in Hlog. destruct r as [|err]; cbn [is_accept] in Hlog.
      * destruct Hlog as [Hnew|Hold]; [|left; exact Hold].
        injection Hnew as <- <-. right. exists 0%nat, q.
        repeat split; reflexivity.
      * left. exact Hlog.
    + right. exists (S i), p. repeat split; assumption.
Qed.

(** The [j]-th call of a run is the call made in the state the first [j]
    calls leave. *)
Lemma recv_all_at ps (j : nat) q pr :
  ps !! j = Some q ->
  fst (recv_all pr ps) !! j =
  Some (fst (__ovpn_pktid_recv (snd (recv_all pr (take j ps)))
                               (p_now q) (p_id q) (p_time q))).
Proof.
  intros Hq. rewrite <- (take_drop_middle ps j q Hq) at 1.
  rewrite recv_all_app. cbn [fst].
  pose proof (recv_all_length (take j ps) pr) as Hlen.
  rewrite length_take in Hlen.
  apply lookup_lt_Some in Hq.
  rewrite lookup_app_r by lia.
  replace (j - length (fst (recv_all pr (take j ps))))%nat with 0%nat by lia.
  cbn [recv_all].
  destruct (__ovpn_pktid_recv _ (p_now q) (p_id q) (p_time q)) as [r pr1].
  destruct (recv_all pr1 (drop (S j) ps)); reflexivity.
Qed.

(** The first [j] return codes of a run are those of its first [j] calls. *)
Lemma recv_all_prefix ps (i j : nat) pr :
  (i < j)%nat -> (j <= length ps)%nat ->
  fst (recv_all pr (take j ps)) !! i = fst (recv_all pr ps) !! i.
Proof.
  intros Hij Hj. rewrite <- (take_drop j ps) at 2.
  rewrite recv_all_app. cbn [fst].
  pose proof (recv_all_length (take j ps) pr) as Hlen.
  rewrite length_take in Hlen.
  rewrite lookup_app_l by lia. reflexivity.
Qed.

(** What a REPLAY answer says about the state the call found. *)
Lemma recv_replay_bit pr now x e :
  0 <= pr_id pr < 2 ^ 32 -> 0 <= x < 2 ^ 32 ->
  fst (__ovpn_pktid_recv pr now x e) = Reject OVPN_ERR_PKTID_REPLAY ->
  e = pr_time pr /\ 0 <= pr_id pr - x < pr_extent pr /\
  history_test (pr_history pr) (REPLAY_INDEX (pr_base pr) (pr_id pr - x)) = true.
Proof.
  intros Hid Hx. rewrite recv_stages. cbv zeta.
  destruct (Z.eqb_spec x 0) as [Hz|Hnz]; [discriminate|].
  destruct (Z.ltb_spec e (pr_time pr)) as [Hlt|Hge]; [discriminate|].
  destruct (floor_step_fields pr now) as (Hh & Hb & Hext & _ & Hi & _ & _ & _).
  destruct (Z.eqb_spec e (pr_time pr)) as [Heq|Hne].
  - destruct (Z.eq_dec x (u32 (pr_id (floor_step pr now) + 1))) as [Hs|Hs].
    + rewrite (window_update_next _ _ Hs). discriminate.
    + destruct (Z_lt_le_dec (pr_id (floor_step pr now)) x) as [Hgt|Hle].
      * destruct (window_update_forward _ _ Hgt) as [Ha _].
        destruct (window_update (floor_step pr now) x) as [r pr2].
        cbn [fst] in Ha. subst r. discriminate.
      * rewrite (window_update_back _ _ Hs Hle). cbv zeta.
        rewrite Hh, Hb, Hext, Hi in *.
        rewrite (u32_small (pr_id pr - x)) by lia.
        destruct (Z.ltb_spec (pr_id pr - x) (pr_extent pr)) as [Hin|Hout];
          [|discriminate].
        destruct (x >? pr_id_floor (floor_step pr now)); [|discriminate].
        destruct (history_test (pr_history pr)
                    (REPLAY_INDEX (pr_base pr) (pr_id pr - x))) eqn:Hbit;
          [|discriminate].
        intros _. repeat split; try lia.
  - assert (Hgt : pr_id (window_reset (floor_step pr now) e) < x)
      by (cbn; lia).
    destruct (window_update_forward _ _ Hgt) as [Ha _].
    destruct (window_update (window_reset (floor_step pr now) e) x) as [r pr2].
    cbn [fst] in Ha. subst r. discriminate.
Qed.

(** X1.  No presentation is accepted twice.  In a run of calls of
    [__ovpn_pktid_recv] from the state left by [ovpn_pktid_recv_init], with
    packet ids of type [__u32], a call that presents the id and epoch of an
    earlier accepted call is rejected, whatever happened in between and
    whatever the clock reads. *)
Theorem recv_never_accepts_twice ps (i j : nat) p q :
  typed ps -> (i < j)%nat -> ps !! i = Some p -> ps !! j = Some q ->
  p_id q = p_id p -> p_time q = p_time p ->
  returned_at ps i Accept ->
  exists err, returned_at ps j (Reject err).
Proof.
  intros Hty Hij Hp Hq Hid Htime Hacc. unfold returned_at in *.
  rewrite (recv_all_at ps j q _ Hq).
  pose proof (lookup_lt_Some _ _ _ Hq) as Hj.
  assert (Hinv : replay_inv (snd (recv_all ovpn_pktid_recv_init (take j ps)))
                   (log_all ovpn_pktid_recv_init (take j ps) [])).
  { apply recv_all_replay_inv; [|exact init_replay_inv].
    apply Forall_take. exact Hty. }
  assert (Hin : In (p_id p, p_time p)
                   (log_all ovpn_pktid_recv_init (take j ps) [])).
  { apply (log_all_accepted _ _ _ i).
    - rewrite lookup_take_lt by exact Hij. exact Hp.
    - rewrite recv_all_prefix by lia. exact Hacc. }
  rewrite Hid, Htime.
  destruct (replay_inv_rejects _ _ (p_now q) _ _ Hinv Hin) as [err Herr].
  exists err. rewrite Herr. reflexivity.
Qed.

(** X2.  A REPLAY answer is never a false alarm.  In a run from the state
    left by [ovpn_pktid_recv_init], with packet ids of type [__u32], a call
    that returns [-OVPN_ERR_PKTID_REPLAY] presents the id and epoch of an
    earlier call of the run that was accepted. *)
Theorem recv_replay_was_accepted ps (j : nat) q :
  typed ps -> ps !! j = Some q ->
  returned_at ps j (Reject OVPN_ERR_PKTID_REPLAY) ->
  exists (i : nat) p,
    (i < j)%nat /\ ps !! i = Some p /\
    p_id p = p_id q /\ p_time p = p_time q /\ returned_at ps i Accept.
Proof.
  intros Hty Hq Hrep. unfold returned_at in *.
  rewrite (recv_all_at ps j q _ Hq) in Hrep. injection Hrep as Hrep.
  pose proof (lookup_lt_Some _ _ _ Hq) as Hj.
  destruct init_window_inv as [Hwf0 Hinv0].
  destruct (recv_all_window_inv (take j ps) _ [] (Forall_take _ _ _ Hty)
              Hwf0 Hinv0) as [(_ & _ & Hid) [_ Hbits]].
  assert (Hx : 0 <= p_id q < 2 ^ 32).
  { unfold typed in Hty. rewrite Forall_lookup in Hty. exact (Hty j q Hq). }
  destruct (recv_replay_bit _ _ _ _ Hid Hx Hrep) as (Ht & Hk & Hbit).
  destruct (Hbits _ Hk Hbit) as [_ Hin].
  replace (pr_id (snd (recv_all ovpn_pktid_recv_init (take j ps))) -
           (pr_id (snd (recv_all ovpn_pktid_recv_init (take j ps))) - p_id q))
    with (p_id q) in Hin by lia.
  rewrite <- Ht in Hin.
  destruct (log_all_origin _ _ _ _ _ Hin) as [[]|(i & p & Hp & Hpi & Hpt & Hr)].
  pose proof (lookup_lt_Some _ _ _ Hp) as Hi. rewrite length_take in Hi.
  exists i, p. split; [lia|]. split.
  - rewrite lookup_take_lt in Hp by lia. exact Hp.
  - split; [exact Hpi | split; [exact Hpt|]].
    rewrite <- (recv_all_prefix ps i j) by lia. exact Hr.
Qed.

(** X3.  Once the expiry deadline has passed
    ([time_after_eq(now, pr->expire)]), no id at or below the top id is
    accepted at the current epoch, seen before or not: the floor is raised
    to the top id first, so the call answers EXPIRE when the id is within
    the extent, ID_BACKTRACK when it is not (and ID_ZERO for the id 0). *)
Theorem recv_expired_backtrack pr now pkt_id :
  0 <= pr_id pr < 2 ^ 32 ->
  time_after_eq now (pr_expire pr) = true ->
  0 <= pkt_id <= pr_id pr ->
  fst (__ovpn_pktid_recv pr now pkt_id (pr_time pr)) =
    Reject (expired_error pr pkt_id) /\
  pr_id_floor (snd (__ovpn_pktid_recv pr now pkt_id (pr_time pr))) = pr_id pr.
Proof.
  intros Hid Hexp Hx. rewrite recv_stages. cbv zeta. unfold expired_error.
  destruct (floor_step_fields pr now) as (Hh & Hb & Hext & _ & Hi & _ & _ & Hf).
  rewrite Hexp in Hf.
  destruct (Z.eqb_spec pkt_id 0) as [Hz|Hnz]; [split; [reflexivity|exact Hf]|].
  rewrite Z.ltb_irrefl, Z.eqb_refl.
  assert (Hne : pkt_id <> u32 (pr_id (floor_step pr now) + 1)).
  { rewrite Hi. unfold u32. intros Hc.
    destruct (Z_lt_le_dec (pr_id pr + 1) (2 ^ 32)) as [Hs1|Hs1].
    - rewrite Z.mod_small in Hc by lia. lia.
    - replace (pr_id pr + 1) with (2 ^ 32) in Hc by lia.
      rewrite Z.mod_same in Hc by lia. lia. }
  rewrite (window_update_back _ _ Hne) by (rewrite Hi; lia). cbv zeta.
  rewrite Hext, Hi, Hf. rewrite (u32_small (pr_id pr - pkt_id)) by lia.
  destruct (Z.gtb_spec pkt_id (pr_id pr)) as [Hgt|_]; [lia|].
  destruct (pr_id pr - pkt_id <? pr_extent pr); cbn [fst snd];
    (split; [reflexivity | cbn [set_max_backtrack pr_id_floor]; exact Hf]).
Qed.

Lemma window_update_progress pr pkt_id :
  0 <= pr_id pr < 2 ^ 32 -> 1 <= pkt_id < 2 ^ 32 ->
  pr_id pr <= pr_id (snd (window_update pr pkt_id)) /\
  pr_max_backtrack pr <= pr_max_backtrack (snd (window_update pr pkt_id)) /\
  (fst (window_update pr pkt_id) = Accept ->
   pkt_id <= pr_id (snd (window_update pr pkt_id))).
Proof.
  intros Hid Hp.
  destruct (Z.eq_dec pkt_id (u32 (pr_id pr + 1))) as [Heq|Hne].
  - rewrite (window_update_next _ _ Heq).
    apply succ_id_no_wrap in Heq; [|lia|lia].
    cbn [fst snd pr_id pr_max_backtrack]. lia.
  - destruct (Z_lt_le_dec (pr_id pr) pkt_id) as [Hgt|Hle].
    + destruct (Z_lt_le_dec (u32 (pkt_id - pr_id pr)) REPLAY_WINDOW_SIZE)
        as [Hnear|Hfar].
      * rewrite (window_update_jump _ _ Hne Hgt Hnear).
        cbn [fst snd pr_id pr_max_backtrack]. lia.
      * rewrite (window_update_far _ _ Hne Hgt Hfar).
        cbn [fst snd pr_id pr_max_backtrack]. lia.
    + rewrite (window_update_back _ _ Hne Hle). cbv zeta.
      assert (Hmb : pr_max_backtrack pr <=
                    backtrack_seen pr (u32 (pr_id pr - pkt_id))).
      { unfold backtrack_seen.
        destruct (Z.gtb_spec (u32 (pr_id pr - pkt_id)) (pr_max_backtrack pr)); lia. }
      repeat match goal with
             | |- context [if ?c then _ else _] => destruct c
             end;
        cbn [fst snd set_history set_max_backtrack pr_id pr_max_backtrack];
        repeat split; try lia.
Qed.

(** X4.  The detector only moves forward.  Over any call the epoch does not
    decrease, the top id does not decrease while the epoch stays, and
    [max_backtrack] does not decrease; a call that accepts leaves the epoch
    of the packet, a top id at least the packet's id, and the expiry
    deadline [now + PKTID_RECV_EXPIRE]. *)
Theorem recv_moves_forward pr now pkt_id pkt_time :
  0 <= pr_id pr < 2 ^ 32 -> 0 <= pkt_id < 2 ^ 32 ->
  let r := __ovpn_pktid_recv pr now pkt_id pkt_time in
  pr_time pr <= pr_time (snd r) /\
  (pr_time (snd r) = pr_time pr -> pr_id pr <= pr_id (snd r)) /\
  pr_max_backtrack pr <= pr_max_backtrack (snd r) /\
  (fst r = Accept ->
   pr_time (snd r) = pkt_time /\ pkt_id <= pr_id (snd r) /\
   pr_expire (snd r) = ulong (now + PKTID_RECV_EXPIRE)).
Proof.
  intros Hid Hp. cbv zeta. rewrite recv_stages. cbv zeta.
  destruct (floor_step_fields pr now) as (_ & _ & _ & _ & Hi & Ht & Hmb & _).
  destruct (Z.eqb_spec pkt_id 0) as [Hz|Hnz].
  { cbn [fst snd]. rewrite Hi, Ht, Hmb.
    repeat split; try lia; discriminate. }
  destruct (Z.ltb_spec pkt_time (pr_time pr)) as [Hlt|Hge].
  { cbn [fst snd]. rewrite Hi, Ht, Hmb.
    repeat split; try lia; discriminate. }
  set (pr1 := if pkt_time =? pr_time pr then floor_step pr now
              else window_reset (floor_step pr now) pkt_time).
  assert (H1 : pr_time pr1 = pkt_time /\ 0 <= pr_id pr1 < 2 ^ 32 /\
               pr_max_backtrack pr1 = pr_max_backtrack pr /\
               (pkt_time = pr_time pr -> pr_id pr1 = pr_id pr)).
  { unfold pr1. destruct (Z.eqb_spec pkt_time (pr_time pr)) as [Heq|Hne].
    - rewrite Hi, Ht, Hmb. repeat split; lia.
    - cbn. rewrite Hmb. repeat split; lia. }
  destruct H1 as (Ht1 & Hid1 & Hmb1 & Hsame).
  assert (Hp1 : 1 <= pkt_id < 2 ^ 32) by lia.
  destruct (window_update_progress pr1 pkt_id Hid1 Hp1) as (Hup & Hbk & Hacc).
  pose proof (window_update_time pr1 pkt_id) as Ht2.
  destruct (window_update pr1 pkt_id) as [[|e] pr2]; cbn [fst snd] in *.
  - cbn [set_expire pr_time pr_id pr_max_backtrack pr_expire].
    specialize (Hacc eq_refl). repeat split; try lia.
  - repeat split; try lia; discriminate.
Qed.

(** X5.  The id 0 is refused before the epoch is looked at.  Whatever the
    state, the clock and the epoch of the packet, the call returns
    [-OVPN_ERR_PKTID_ID_ZERO] and leaves the window and the epoch as they
    were: a newer epoch carried by such a packet does not reset the
    detector. *)
Theorem recv_zero_id pr now pkt_time :
  fst (__ovpn_pktid_recv pr now 0 pkt_time) = Reject OVPN_ERR_PKTID_ID_ZERO /\
  same_fields (snd (__ovpn_pktid_recv pr now 0 pkt_time)) pr.
Proof.
  rewrite recv_stages. cbv zeta. cbn [Z.eqb fst snd]. split; [reflexivity|].
  destruct (floor_step_fields pr now) as (Hh & Hb & Hx & He & Hi & Ht & Hm & _).
  unfold same_fields. repeat split; assumption.
Qed.


(** X6.  Reordering within the window is tolerated.  In a state reached
    from [ovpn_pktid_recv_init], an id of the current epoch that lies among
    the last [REPLAY_WINDOW_SIZE] ids up to the top id, is above the expiry
    floor and was not accepted before at this epoch is accepted, provided
    the expiry deadline has not passed. *)
Theorem recv_fresh_backtrack_accepted ps now x :
  typed ps ->
  1 <= x <= pr_id (reached ps) ->
  pr_id (reached ps) - REPLAY_WINDOW_SIZE < x ->
  time_after_eq now (pr_expire (reached ps)) = false ->
  pr_id_floor (reached ps) < x ->
  (forall (i : nat) p, ps !! i = Some p -> p_id p = x ->
     p_time p = pr_time (reached ps) -> ~ returned_at ps i Accept) ->
  fst (__ovpn_pktid_recv (reached ps) now x (pr_time (reached ps))) = Accept.
Proof.
  unfold reached. intros Hty Hx Hwin Hexp Hfloor Hnew.
  destruct init_window_inv as [Hwf0 Hinv0].
  destruct (recv_all_window_inv ps _ [] Hty Hwf0 Hinv0) as [_ [_ Hbits]].
  destruct (reachable_extent_tracks_id ps Hty) as [Hid Hext].
  set (pr := snd (recv_all ovpn_pktid_recv_init ps)) in *.
  rewrite recv_stages. cbv zeta.
  assert (Hfs : floor_step pr now = pr) by (unfold floor_step; rewrite Hexp; reflexivity).
  rewrite Hfs.
  destruct (Z.eqb_spec x 0) as [Hz|_]; [lia|].
  rewrite Z.ltb_irrefl, Z.eqb_refl.
  assert (Hne : x <> u32 (pr_id pr + 1)).
  { unfold u32. intros Hc.
    destruct (Z_lt_le_dec (pr_id pr + 1) (2 ^ 32)) as [Hs1|Hs1].
    - rewrite Z.mod_small in Hc by lia. lia.
    - replace (pr_id pr + 1) with (2 ^ 32) in Hc by lia.
      rewrite Z.mod_same in Hc by lia. lia. }
  rewrite (window_update_back _ _ Hne) by lia. cbv zeta.
  rewrite (u32_small (pr_id pr - x)) by lia.
  destruct (Z.ltb_spec (pr_id pr - x) (pr_extent pr)) as [Hin|Hout]; [|lia].
  destruct (Z.gtb_spec x (pr_id_floor pr)) as [_|Hle]; [|lia].
  destruct (history_test (pr_history pr)
              (REPLAY_INDEX (pr_base pr) (pr_id pr - x))) eqn:Hbit;
    [|reflexivity].
  exfalso. destruct (Hbits (pr_id pr - x) ltac:(lia) Hbit) as [_ Hlog].
  replace (pr_id pr - (pr_id pr - x)) with x in Hlog by lia.
  destruct (log_all_origin _ _ _ _ _ Hlog) as [[]|(i & p & Hp & Hpi & Hpt & Hr)].
  exact (Hnew i p Hp Hpi Hpt Hr).
Qed.

(** X21.  The shape of the window in every state reached from
    [ovpn_pktid_recv_init] (packet ids of type [__u32]): the extent is the
    top id capped by [REPLAY_WINDOW_SIZE], [base] is an index of the window,
    the history array has its declared size, and the bit at [base], which
    stands for the top id, is set whenever the window is not empty. *)
Theorem reachable_window_shape ps :
  typed ps ->
  extent_tracks_id (reached ps) /\ top_marked (reached ps).
Proof.
  intros Hty. unfold reached. split.
  - apply reachable_extent_tracks_id. exact Hty.
  - apply reachable_top_marked.
Qed.

End Detector.

(** ** Instances: a window of 64 bits, expiry after 3000 jiffies *)

(** Closed comparisons on [Z], decided by evaluation. *)
Ltac decide_Z :=
  repeat match goal with |- _ /\ _ => split end;
  first [ apply Z.leb_le; vm_compute; reflexivity
        | apply Z.ltb_lt; vm_compute; reflexivity
        | vm_compute; reflexivity
        | vm_compute; discriminate ].

(** A detector that has accepted id 64 as its first packet: top id 64, the
    window [{1, ..., 64}] full, only the bit of id 64 set. *)
Definition after_first_64 : struct_ovpn_pktid_recv :=
  snd (recv_all 3 3000 (ovpn_pktid_recv_init 3) [mk_presentation 0 64 0]).

(** The ids 1, 2, ..., 64 in this order, at epoch 0 and jiffies 0. *)
Definition window_1_to_64 : list presentation :=
  map (fun i => mk_presentation 0 i 0) (seqZ 1 64).

(** The ids 64, 63, ..., 1 would do as well; the order is immaterial. *)
Lemma recv_window_permutation_witness :
  (0 <= 3 <= 28) /\
  full_window 3 after_first_64 /\
  at_epoch (pr_time after_first_64) window_1_to_64 /\
  window_permutation 3 after_first_64 window_1_to_64 /\
  unexpired 3 3000 after_first_64 window_1_to_64 /\
  fst (recv_all 3 3000 after_first_64 window_1_to_64)
    = map (fun p => verdict 3 after_first_64 (p_id p)) window_1_to_64 /\
  fst (__ovpn_pktid_recv 3 3000
         (snd (recv_all 3 3000 after_first_64 window_1_to_64)) 0 17
         (pr_time after_first_64))
    = Reject OVPN_ERR_PKTID_REPLAY.
Proof.
  assert (Ho : 0 <= 3 <= 28) by lia.
  assert (Hf : full_window 3 after_first_64).
  { unfold full_window, history_sized. decide_Z. }
  assert (He : at_epoch (pr_time after_first_64) window_1_to_64).
  { apply Forall_forall. intros p Hp. apply list_elem_of_In in Hp.
    apply in_map_iff in Hp. destruct Hp as (i & <- & _). reflexivity. }
  assert (Hp : window_permutation 3 after_first_64 window_1_to_64).
  { unfold window_permutation. vm_compute. reflexivity. }
  assert (Hu : unexpired 3 3000 after_first_64 window_1_to_64).
  { vm_compute. repeat split. }
  repeat (split; [assumption|]).
  destruct (recv_window_permutation 3 3000 Ho after_first_64 window_1_to_64
              Hf He Hp Hu) as (Hrs & _ & Hagain).
  split; [exact Hrs|].
  apply Hagain.
  - unfold in_window. decide_Z.
  - vm_compute. reflexivity.
Defined.

(** C1, as stated, fails: the detector of [after_first_64] is reached from a
    fresh one by accepting id 64; its top id is 64, every id of
    [{1, ..., 64}] is above [id_floor] and nothing expires; yet when the
    window is presented, id 64 is rejected as a replay at its first
    presentation, because it was accepted when it became the top id. *)
Lemma window_accept_counterexample :
  pr_id after_first_64 = 64 /\
  full_window 3 after_first_64 /\
  at_epoch (pr_time after_first_64) window_1_to_64 /\
  window_permutation 3 after_first_64 window_1_to_64 /\
  unexpired 3 3000 after_first_64 window_1_to_64 /\
  fst (recv_all 3 3000 after_first_64 window_1_to_64)
    = replicate 63 Accept ++ [Reject OVPN_ERR_PKTID_REPLAY].
Proof.
  split; [reflexivity|]. split.
  { unfold full_window, history_sized. decide_Z. }
  split.
  { apply Forall_forall. intros p Hp. apply list_elem_of_In in Hp.
    apply in_map_iff in Hp. destruct Hp as (i & <- & _). reflexivity. }
  split; [unfold window_permutation; vm_compute; reflexivity|].
  split; [vm_compute; repeat split|].
  vm_compute. reflexivity.
Qed.

(** The ids 64, 63, ..., 1 at epoch 1000 and jiffies 0. *)
Definition window_64_to_1 : list presentation :=
  map (fun i => mk_presentation 0 (65 - i) 1000) (seqZ 1 64).

(** A fresh detector accepts the whole window, here in descending order. *)
Lemma recv_window_from_below_witness :
  below_window 3 1 (ovpn_pktid_recv_init 3) /\
  quiet 3 3000 1 (ovpn_pktid_recv_init 3) window_64_to_1 /\
  Forall (fun r => r = Accept)
         (fst (recv_all 3 3000 (ovpn_pktid_recv_init 3) window_64_to_1)).
Proof.
  assert (Ho : 0 <= 3 <= 28) by lia.
  assert (Hb : below_window 3 1 (ovpn_pktid_recv_init 3)).
  { unfold below_window, history_sized. decide_Z. }
  assert (Hq : quiet 3 3000 1 (ovpn_pktid_recv_init 3) window_64_to_1).
  { vm_compute. repeat split; auto. }
  repeat (split; [assumption|]).
  refine (proj1 (proj2 (recv_window_from_below 3 3000 Ho 1 1000
                          (ovpn_pktid_recv_init 3) window_64_to_1
                          _ _ Hb _ _ _ Hq))).
  - lia.
  - decide_Z.
  - decide_Z.
  - apply Forall_forall. intros p Hp. apply list_elem_of_In in Hp.
    apply in_map_iff in Hp. destruct Hp as (i & <- & _). reflexivity.
  - apply (bool_decide_unpack _). vm_compute. exact I.
Defined.

(** Spec scenario 3: at top id 200 with a full window, id 100 is too old. *)
Definition after_first_200 : struct_ovpn_pktid_recv :=
  snd (recv_all 3 3000 (ovpn_pktid_recv_init 3) [mk_presentation 0 200 0]).

Lemma recv_out_of_window_witness :
  (0 <= 3 <= 28) /\
  0 <= pr_id after_first_200 < 2 ^ 32 /\
  pr_extent after_first_200 <= REPLAY_WINDOW_SIZE 3 /\
  0 = pr_time after_first_200 /\
  0 <= 100 /\ 100 <> 0 /\
  100 < pr_id after_first_200 - REPLAY_WINDOW_SIZE 3 + 1 /\
  fst (__ovpn_pktid_recv 3 3000 after_first_200 7 100 0)
    = Reject OVPN_ERR_PKTID_ID_BACKTRACK.
Proof.
  assert (Ho : 0 <= 3 <= 28) by lia.
  assert (Hi : 0 <= pr_id after_first_200 < 2 ^ 32) by decide_Z.
  assert (Hx : pr_extent after_first_200 <= REPLAY_WINDOW_SIZE 3) by decide_Z.
  assert (Ht : 0 = pr_time after_first_200) by reflexivity.
  assert (Hp : 0 <= 100) by lia.
  assert (Hn : 100 <> 0) by lia.
  assert (Hl : 100 < pr_id after_first_200 - REPLAY_WINDOW_SIZE 3 + 1)
    by decide_Z.
  repeat (split; [assumption|]).
  exact (proj1 (recv_out_of_window 3 3000 Ho) after_first_200 7 100 0
           Hi Hx Ht Hp Hn Hl).
Defined.

(** Spec scenario 4: at epoch 1000 with top id 500, the packet (1, 1001). *)
Definition at_epoch_1000 : struct_ovpn_pktid_recv :=
  snd (recv_all 3 3000 (ovpn_pktid_recv_init 3) [mk_presentation 0 500 1000]).

Lemma recv_epoch_change_witness :
  (0 <= 3 <= 28) /\ 0 <= 1 < 2 ^ 32 /\
  pr_time at_epoch_1000 < 1001 /\
  fst (__ovpn_pktid_recv 3 3000 at_epoch_1000 5 1 1001) = Accept /\
  pr_time (snd (__ovpn_pktid_recv 3 3000 at_epoch_1000 5 1 1001)) = 1001 /\
  pr_id (snd (__ovpn_pktid_recv 3 3000 at_epoch_1000 5 1 1001)) = 1.
Proof.
  assert (Ho : 0 <= 3 <= 28) by lia.
  assert (Hp : 0 <= 1 < 2 ^ 32) by lia.
  assert (Ht : pr_time at_epoch_1000 < 1001) by decide_Z.
  repeat (split; [assumption|]).
  destruct (recv_epoch_change 3 3000 Ho at_epoch_1000 5 1 1001 Hp) as [Hnew _].
  destruct (Hnew Ht ltac:(lia)) as (_ & _ & Ha & Htm & Hid & _).
  repeat split; assumption.
Defined.

(** Ids 1, 2, 3, 5, 9 at epoch 1000, presented to a fresh detector. *)
Definition rising_ids : list presentation :=
  map (fun i => mk_presentation 0 i 1000) [1; 2; 3; 5; 9].

Lemma recv_monotone_accept_witness :
  at_epoch 1000 rising_ids /\
  increasing_above 0 rising_ids /\
  pr_time (ovpn_pktid_recv_init 3) <= 1000 /\
  Forall (fun r => r = Accept)
         (fst (recv_all 3 3000 (ovpn_pktid_recv_init 3) rising_ids)).
Proof.
  assert (He : at_epoch 1000 rising_ids).
  { unfold rising_ids. cbn [map]. repeat constructor. }
  assert (Hi : increasing_above 0 rising_ids).
  { unfold rising_ids. cbn. lia. }
  assert (Ht : pr_time (ovpn_pktid_recv_init 3) <= 1000) by (cbn; lia).
  repeat (split; [assumption|]).
  apply (recv_monotone_accept 3 3000 (ovpn_pktid_recv_init 3) 1000 rising_ids
           He Hi Ht).
  cbn. lia.
Defined.

Lemma recv_preserves_window_inv_witness :
  (0 <= 3 <= 28) /\
  state_wf 3 (ovpn_pktid_recv_init 3) /\ 0 <= 1 < 2 ^ 32 /\
  window_inv 3 (ovpn_pktid_recv_init 3) [] /\
  window_inv 3 (snd (__ovpn_pktid_recv 3 3000 (ovpn_pktid_recv_init 3) 0 1 0))
             (log_call (fst (__ovpn_pktid_recv 3 3000 (ovpn_pktid_recv_init 3) 0 1 0))
                       1 0 []).
Proof.
  assert (Ho : 0 <= 3 <= 28) by lia.
  assert (Hwf : state_wf 3 (ovpn_pktid_recv_init 3)).
  { unfold state_wf, history_sized. decide_Z. }
  assert (Hp : 0 <= 1 < 2 ^ 32) by lia.
  assert (Hinv : window_inv 3 (ovpn_pktid_recv_init 3) []).
  { split; [decide_Z|]. intros k Hk. cbn in Hk. lia. }
  repeat (split; [assumption|]).
  destruct (recv_preserves_window_inv 3 3000 Ho) as (_ & Hstep & _).
  exact (proj1 (Hstep (ovpn_pktid_recv_init 3) [] 0 1 0 Hwf Hp Hinv)).
Defined.

(** The replay of id 64 on [after_first_64] changes nothing but
    [max_backtrack] (here it stays 0) and [id_floor]. *)
Lemma recv_reject_frame_witness :
  (0 <= 3 <= 28) /\ 0 <= 64 < 2 ^ 32 /\
  fst (__ovpn_pktid_recv 3 3000 after_first_64 0 64 0)
    = Reject OVPN_ERR_PKTID_REPLAY /\
  pr_history (snd (__ovpn_pktid_recv 3 3000 after_first_64 0 64 0))
    = pr_history after_first_64.
Proof.
  assert (Ho : 0 <= 3 <= 28) by lia.
  assert (Hp : 0 <= 64 < 2 ^ 32) by lia.
  assert (Hr : fst (__ovpn_pktid_recv 3 3000 after_first_64 0 64 0)
               = Reject OVPN_ERR_PKTID_REPLAY) by (vm_compute; reflexivity).
  repeat (split; [assumption|]).
  destruct (recv_reject_frame 3 3000 Ho) as [Hframe _].
  destruct (Hframe after_first_64 0 64 0 _ Hp Hr) as (_ & _ & _ & Hh & _).
  exact Hh.
Defined.

(** ** Instances of the further properties *)

(** The ids 5, 7 and again 5 at epoch 0. *)
Definition replayed_run : list presentation :=
  [mk_presentation 0 5 0; mk_presentation 0 7 0; mk_presentation 0 5 0].

Lemma recv_never_accepts_twice_witness :
  (0 <= 3 <= 28) /\ typed replayed_run /\
  returned_at 3 3000 replayed_run 0 Accept /\
  exists err, returned_at 3 3000 replayed_run 2 (Reject err).
Proof.
  assert (Ho : 0 <= 3 <= 28) by lia.
  assert (Hty : typed replayed_run).
  { unfold typed, replayed_run. repeat constructor; cbn; lia. }
  assert (Hacc : returned_at 3 3000 replayed_run 0 Accept)
    by (vm_compute; reflexivity).
  repeat (split; [assumption|]).
  exact (recv_never_accepts_twice 3 3000 Ho replayed_run 0 2
           (mk_presentation 0 5 0) (mk_presentation 0 5 0)
           Hty ltac:(lia) eq_refl eq_refl eq_refl eq_refl Hacc).
Defined.

Lemma recv_replay_was_accepted_witness :
  (0 <= 3 <= 28) /\ typed replayed_run /\
  returned_at 3 3000 replayed_run 2 (Reject OVPN_ERR_PKTID_REPLAY) /\
  exists (i : nat) p,
    (i < 2)%nat /\ replayed_run !! i = Some p /\
    p_id p = 5 /\ p_time p = 0 /\ returned_at 3 3000 replayed_run i Accept.
Proof.
  assert (Ho : 0 <= 3 <= 28) by lia.
  assert (Hty : typed replayed_run).
  { unfold typed, replayed_run. repeat constructor; cbn; lia. }
  assert (Hrep : returned_at 3 3000 replayed_run 2 (Reject OVPN_ERR_PKTID_REPLAY))
    by (vm_compute; reflexivity).
  repeat (split; [assumption|]).
  exact (recv_replay_was_accepted 3 3000 Ho replayed_run 2
           (mk_presentation 0 5 0) Hty eq_refl Hrep).
Defined.

(** On [after_first_64] the deadline is 3000 jiffies: at that time the ids
    up to 64 are refused. *)
Lemma recv_expired_backtrack_witness :
  0 <= pr_id after_first_64 < 2 ^ 32 /\
  time_after_eq 3000 (pr_expire after_first_64) = true /\
  0 <= 60 <= pr_id after_first_64 /\
  fst (__ovpn_pktid_recv 3 3000 after_first_64 3000 60 (pr_time after_first_64))
    = Reject (expired_error after_first_64 60).
Proof.
  assert (Hi : 0 <= pr_id after_first_64 < 2 ^ 32) by decide_Z.
  assert (He : time_after_eq 3000 (pr_expire after_first_64) = true)
    by (vm_compute; reflexivity).
  assert (Hx : 0 <= 60 <= pr_id after_first_64) by decide_Z.
  repeat (split; [assumption|]).
  exact (proj1 (recv_expired_backtrack 3 3000 after_first_64 3000 60 Hi He Hx)).
Defined.

Lemma recv_moves_forward_witness :
  0 <= pr_id after_first_64 < 2 ^ 32 /\ 0 <= 70 < 2 ^ 32 /\
  pr_time after_first_64 <=
    pr_time (snd (__ovpn_pktid_recv 3 3000 after_first_64 5 70 0)).
Proof.
  assert (Hi : 0 <= pr_id after_first_64 < 2 ^ 32) by decide_Z.
  assert (Hp : 0 <= 70 < 2 ^ 32) by lia.
  repeat (split; [assumption|]).
  exact (proj1 (recv_moves_forward 3 3000 after_first_64 5 70 0 Hi Hp)).
Defined.

(** After the id 10, the id 7 arrives late. *)
Lemma recv_fresh_backtrack_accepted_witness :
  (0 <= 3 <= 28) /\
  fst (__ovpn_pktid_recv 3 3000 (reached 3 3000 [mk_presentation 0 10 0]) 1 7
         (pr_time (reached 3 3000 [mk_presentation 0 10 0]))) = Accept.
Proof.
  assert (Ho : 0 <= 3 <= 28) by lia.
  split; [assumption|].
  apply (recv_fresh_backtrack_accepted 3 3000 Ho [mk_presentation 0 10 0] 1 7).
  - repeat constructor; cbn; lia.
  - decide_Z.
  - decide_Z.
  - vm_compute. reflexivity.
  - decide_Z.
  - intros i p Hp Hid _. destruct i as [|i]; [|discriminate].
    injection Hp as <-. cbn in Hid. lia.
Defined.

Lemma reachable_window_shape_witness :
  (0 <= 3 <= 28) /\ extent_tracks_id 3 (reached 3 3000 replayed_run) /\
  top_marked 3 (reached 3 3000 replayed_run).
Proof.
  assert (Ho : 0 <= 3 <= 28) by lia.
  split; [exact Ho|].
  apply (reachable_window_shape 3 3000 Ho replayed_run).
  unfold typed, replayed_run. repeat constructor; cbn; lia.
Defined.

End Pktid.

Module Ovpn.

(** ** Data model of ovpn.c *)

(** [struct sk_buff], as far as the datapath reads or writes it: the payload
    bytes ([skb->data], [skb->len] being their number), the control block
    [OVPN_SKB_CB(skb)] and the checksum annotation. *)
Record sk_buff : Type := mk_skb {
  skb_data : list Z;
  cb_rx_stats_size : Z;       (* OVPN_SKB_CB(skb)->rx_stats_size *)
  cb_pktid : Z;               (* OVPN_SKB_CB(skb)->pktid *)
  skb_ip_summed : Z           (* skb->ip_summed *)
}.

Definition skb_len (skb : sk_buff) : Z := Z.of_nat (length (skb_data skb)).

Definition set_rx_stats_size (skb : sk_buff) (v : Z) : sk_buff :=
  mk_skb (skb_data skb) v (cb_pktid skb) (skb_ip_summed skb).
Definition set_pktid (skb : sk_buff) (v : Z) : sk_buff :=
  mk_skb (skb_data skb) (cb_rx_stats_size skb) v (skb_ip_summed skb).
Definition set_ip_summed (skb : sk_buff) (v : Z) : sk_buff :=
  mk_skb (skb_data skb) (cb_rx_stats_size skb) (cb_pktid skb) v.

(** Kernel constants used by the code. *)
Definition EINVAL : Z := 22.
Definition ENOENT : Z := 2.
Definition ENODEV : Z := 19.
Definition ENOLINK : Z := 67.
Definition EINPROGRESS : Z := 115.
Definition ETH_HLEN : Z := 14.
Definition CHECKSUM_UNNECESSARY : Z := 1.

(** The test [headroom < 0] of [do_ovpn_net_xmit], on the value held by the
    [unsigned int] variable. *)
Definition headroom_invalid (headroom : Z) : bool := headroom <? 0.

(** The collaborators of the datapath: the peer, binding and crypto-context
    handles, and the functions of proto.h, peer.h, crypto.h, bind.h,
    netlink.h and of the kernel that ovpn.c calls.  None of them is among
    the sources; each is a parameter, a function returning what the C
    function returns. *)
Record collaborators : Type := mk_collaborators {
  ovpn_peer : Type;
  ovpn_crypto_context : Type;
  ovpn_bind : Type;
  (* proto.h *)
  OVPN_PROBE_SET_SKB : Z;
  ovpn_opcode_is_data : Z -> bool;
  ovpn_key_id_extract : Z -> Z;
  ovpn_ip_header_probe : sk_buff -> Z -> Z;
  ovpn_is_keepalive : sk_buff -> bool;
  (* crypto.h: lookups, and the cc->ops->decrypt and cc->ops->encrypt
     operations with the code they return and the buffer they leave *)
  ovpn_crypto_context_from_state : ovpn_peer -> Z -> option ovpn_crypto_context;
  ovpn_crypto_context_primary : ovpn_peer -> option (ovpn_crypto_context * Z);
  ops_decrypt : ovpn_crypto_context -> sk_buff -> Z -> Z -> Z * sk_buff;
  ops_encrypt : ovpn_crypto_context -> sk_buff -> Z -> Z -> Z * sk_buff;
  (* peer.h, bind.h: peer->bind, peer->sock != NULL *)
  peer_bind : ovpn_peer -> option ovpn_bind;
  peer_has_sock : ovpn_peer -> bool;
  ovpn_bind_udp_encap_overhead : ovpn_bind -> Z -> Z;
  (* the result of ovpn_udp_output, whose routing is outside this model *)
  udp_output_result : ovpn_bind -> sk_buff -> Z;
  (* netlink.h and the kernel *)
  skb_linearize : sk_buff -> Z;
  ovpn_netlink_send_packet : list Z -> Z -> Z;
  pskb_may_pull : sk_buff -> Z -> bool
}.

Section Datapath.

Variable env : collaborators.

(** What the datapath does to the outside, in call order. *)
Inductive event : Type :=
| ev_netlink_send_packet (data : list Z) (len : Z)
| ev_decrypt (cc : ovpn_crypto_context env) (skb : sk_buff) (key_id op : Z)
| ev_encrypt (cc : ovpn_crypto_context env) (skb : sk_buff) (headroom key_id : Z)
| ev_netif_rx (skb : sk_buff)
| ev_udp_output (b : ovpn_bind env) (skb : sk_buff)
| ev_kfree_skb (skb : sk_buff)
| ev_consume_skb (skb : sk_buff)
| ev_peer_put (p : ovpn_peer env)
| ev_crypto_context_put (cc : ovpn_crypto_context env)
| ev_update_keepalive_expire (p : ovpn_peer env)
| ev_update_keepalive_xmit (p : ovpn_peer env)
| ev_stats_increment_rx (p : ovpn_peer env) (size : Z).

(** A computation returns a value and the events it caused. *)
Definition M (A : Type) : Type := A * list event.

#[local] Instance M_ret : MRet M := fun A a => (a, []).
#[local] Instance M_bind : MBind M := fun A B k m =>
  let '(a, t1) := m in let '(b, t2) := k a in (b, t1 ++ t2).

Definition emit (e : event) : M unit := (tt, [e]).
Definition value {A : Type} (m : M A) : A := fst m.
Definition trace {A : Type} (m : M A) : list event := snd m.

(** [if (peer) ovpn_peer_put(peer)] *)
Definition peer_put_if (peer : option (ovpn_peer env)) : M unit :=
  match peer with
  | Some p => emit (ev_peer_put p)
  | None => mret tt
  end.

(** [tun_netdev_write]: called after decrypt to write the IP packet to the
    tun device. *)
Definition tun_netdev_write (peer : ovpn_peer env) (skb : sk_buff) : M Z :=
  (* note event of authenticated packet received for keepalive *)
  emit (ev_update_keepalive_expire peer) ;;
  (* increment RX stats *)
  emit (ev_stats_increment_rx peer (cb_rx_stats_size skb)) ;;
  let r := ovpn_ip_header_probe env skb (OVPN_PROBE_SET_SKB env) in
  if r <? 0 then
    let r :=
      (* check if null packet *)
      if negb (pskb_may_pull env skb 1) then - EINVAL
      (* check if special OpenVPN message *)
      else if ovpn_is_keepalive env skb then 0
      else r in
    (* drop: *)
    (if r <? 0 then emit (ev_kfree_skb skb) else emit (ev_consume_skb skb)) ;;
    mret r
  else
    let skb := set_ip_summed skb CHECKSUM_UNNECESSARY in
    (* cause packet to be "received" by tun interface *)
    emit (ev_netif_rx skb) ;;
    mret 0.

(** [post_decrypt] *)
Definition post_decrypt (peer : ovpn_peer env) (cc : ovpn_crypto_context env)
  (skb : sk_buff) (err : Z) : M unit :=
  (if negb (err =? 0) then emit (ev_kfree_skb skb)
   else tun_netdev_write peer skb ;; mret tt) ;;
  emit (ev_crypto_context_put cc) ;;
  emit (ev_peer_put peer).

(** [ovpn_transport_to_userspace] *)
Definition ovpn_transport_to_userspace (skb : sk_buff) : M Z :=
  let r := skb_linearize env skb in
  if r <? 0 then mret r
  else
    emit (ev_netlink_send_packet (skb_data skb) (skb_len skb)) ;;
    let r := ovpn_netlink_send_packet env (skb_data skb) (skb_len skb) in
    if r <? 0 then mret r
    else emit (ev_consume_skb skb) ;; mret 0.

(** [ovpn_recv_crypto]: receive an encrypted packet from transport. *)
Definition ovpn_recv_crypto (peer : option (ovpn_peer env)) (op : Z)
  (skb : sk_buff) : M unit :=
  (* save original packet size for stats accounting *)
  let skb := set_rx_stats_size skb (skb_len skb) in
  let drop := peer_put_if peer ;; emit (ev_kfree_skb skb) in
  match peer, ovpn_opcode_is_data env op with
  | Some p, true =>
      (* get the crypto context *)
      let key_id := ovpn_key_id_extract env op in
      match ovpn_crypto_context_from_state env p key_id with
      | None => drop
      | Some cc =>
          (* decrypt *)
          emit (ev_decrypt cc skb key_id op) ;;
          let '(r, skb) := ops_decrypt env cc skb key_id op in
          if negb (r =? - EINPROGRESS) then post_decrypt p cc skb r
          else mret tt
      end
  | _, _ =>
      (* all other packets are sent to userspace via netlink *)
      r ← ovpn_transport_to_userspace skb;
      if r <? 0 then drop else peer_put_if peer
  end.

(** [ovpn_recv] *)
Definition ovpn_recv (peer : option (ovpn_peer env)) (op : Z) (skb : sk_buff)
  : M unit :=
  ovpn_recv_crypto peer op skb.

(** [ovpn_udp_write]: called after encrypt to write the packet to the UDP
    port. *)
Definition ovpn_udp_write (peer : ovpn_peer env) (skb : sk_buff) : M unit :=
  r ← (if negb (peer_has_sock env peer) then mret (-1)
       else match peer_bind env peer with
            | None => mret (-1)
            | Some b =>
                emit (ev_update_keepalive_xmit peer) ;;
                emit (ev_udp_output b skb) ;;
                mret (udp_output_result env b skb)
            end);
  if r <? 0 then emit (ev_kfree_skb skb) else mret tt.

(** [post_encrypt] *)
Definition post_encrypt (peer : ovpn_peer env) (cc : ovpn_crypto_context env)
  (skb : sk_buff) (err : Z) : M unit :=
  (if negb (err =? 0) then emit (ev_kfree_skb skb)
   else ovpn_udp_write peer skb) ;;
  emit (ev_crypto_context_put cc) ;;
  emit (ev_peer_put peer).

(** [do_ovpn_net_xmit]; [current] is what [ovpn_peer_get(ovpn)] returns.
    [headroom] is an [unsigned int]: the [int] computed by
    [ovpn_bind_udp_encap_overhead] is converted on assignment. *)
Definition do_ovpn_net_xmit (current : option (ovpn_peer env)) (skb : sk_buff)
  (is_ip_packet : bool) : M Z :=
  match current with
  | None => mret (- ENOLINK)
  | Some peer =>
      match peer_bind env peer with
      | None => emit (ev_peer_put peer) ;; mret (- ENOENT)
      | Some b =>
          (* set minimum encapsulation headroom for encrypt *)
          let headroom := u32 (ovpn_bind_udp_encap_overhead env b ETH_HLEN) in
          if headroom_invalid headroom then emit (ev_peer_put peer) ;; mret (-1)
          else
            (* get crypto context *)
            match ovpn_crypto_context_primary env peer with
            | None => emit (ev_peer_put peer) ;; mret (- ENODEV)
            | Some (cc, key_id) =>
                (* init packet ID to undef *)
                let skb := set_pktid skb 0 in
                (* encrypt *)
                emit (ev_encrypt cc skb headroom key_id) ;;
                let '(r, skb) := ops_encrypt env cc skb headroom key_id in
                (if negb (r =? - EINPROGRESS) then post_encrypt peer cc skb r
                 else mret tt) ;;
                mret 0
            end
      end
  end.


(** ** Dispatch of received packets *)

Definition is_decrypt (e : event) : bool :=
  match e with ev_decrypt _ _ _ _ => true | _ => false end.

Definition is_netlink_send (e : event) : bool :=
  match e with ev_netlink_send_packet _ _ => true | _ => false end.

Definition is_netif_rx (e : event) : bool :=
  match e with ev_netif_rx _ => true | _ => false end.

Ltac run_M :=
  unfold trace, value, peer_put_if, emit;
  cbn [mbind mret M_bind M_ret fst snd app].

Lemma transport_to_userspace_cases skb :
  (skb_linearize env skb < 0 /\
   ovpn_transport_to_userspace skb = (skb_linearize env skb, []))
  \/ (0 <= skb_linearize env skb /\
      ovpn_netlink_send_packet env (skb_data skb) (skb_len skb) < 0 /\
      ovpn_transport_to_userspace skb =
        (ovpn_netlink_send_packet env (skb_data skb) (skb_len skb),
         [ev_netlink_send_packet (skb_data skb) (skb_len skb)]))
  \/ (0 <= skb_linearize env skb /\
      0 <= ovpn_netlink_send_packet env (skb_data skb) (skb_len skb) /\
      ovpn_transport_to_userspace skb =
        (0, [ev_netlink_send_packet (skb_data skb) (skb_len skb);
             ev_consume_skb skb])).
Proof.
  unfold ovpn_transport_to_userspace.
  destruct (Z.ltb_spec (skb_linearize env skb) 0) as [Hl|Hl].
  - left. split; [exact Hl | reflexivity].
  - right.
    destruct (Z.ltb_spec
                (ovpn_netlink_send_packet env (skb_data skb) (skb_len skb)) 0)
      as [Hs|Hs].
    + left. run_M. auto.
    + right. run_M. auto.
Qed.

(** The userspace branch of [ovpn_recv_crypto]. *)
Lemma recv_crypto_relay peer op skb :
  peer = None \/ ovpn_opcode_is_data env op = false ->
  ovpn_recv_crypto peer op skb =
  (let skb0 := set_rx_stats_size skb (skb_len skb) in
   r ← ovpn_transport_to_userspace skb0;
   if r <? 0 then peer_put_if peer ;; emit (ev_kfree_skb skb0)
   else peer_put_if peer).
Proof.
  intros [-> | Hop]; unfold ovpn_recv_crypto; cbv zeta.
  - reflexivity.
  - rewrite Hop. destruct peer; reflexivity.
Qed.


(** C7 (amended).  A received packet whose opcode is not a data-channel
    opcode, or for which no peer was found, is never offered to decrypt.  It
    is handed to the control plane: unless [skb_linearize] fails, the first
    and only netlink message carries the packet's bytes and length
    unchanged; when [skb_linearize] fails nothing is sent and the packet is
    freed.  Decrypt is invoked only when a peer is present and the opcode is
    a data-channel opcode. *)
Theorem recv_crypto_dispatch peer op skb :
  let skb0 := set_rx_stats_size skb (skb_len skb) in
  let t := trace (ovpn_recv_crypto peer op skb) in
  (peer = None \/ ovpn_opcode_is_data env op = false ->
   existsb is_decrypt t = false /\
   (0 <= skb_linearize env skb0 ->
    exists rest,
      t = ev_netlink_send_packet (skb_data skb) (skb_len skb) :: rest /\
      existsb is_netlink_send rest = false) /\
   (skb_linearize env skb0 < 0 ->
    existsb is_netlink_send t = false /\ In (ev_kfree_skb skb0) t))
  /\
  (existsb is_decrypt t = true ->
   exists p, peer = Some p /\ ovpn_opcode_is_data env op = true).
Proof.
  cbv zeta.
  assert (Hrelay : peer = None \/ ovpn_opcode_is_data env op = false ->
    existsb is_decrypt (trace (ovpn_recv_crypto peer op skb)) = false /\
    (0 <= skb_linearize env (set_rx_stats_size skb (skb_len skb)) ->
     exists rest,
       trace (ovpn_recv_crypto peer op skb)
       = ev_netlink_send_packet (skb_data skb) (skb_len skb) :: rest /\
       existsb is_netlink_send rest = false) /\
    (skb_linearize env (set_rx_stats_size skb (skb_len skb)) < 0 ->
     existsb is_netlink_send (trace (ovpn_recv_crypto peer op skb)) = false /\
     In (ev_kfree_skb (set_rx_stats_size skb (skb_len skb)))
        (trace (ovpn_recv_crypto peer op skb)))).
  { intros Hcase. rewrite (recv_crypto_relay peer op skb Hcase). cbv zeta.
    set (skb0 := set_rx_stats_size skb (skb_len skb)).
    change (skb_data skb) with (skb_data skb0).
    change (skb_len skb) with (skb_len skb0).
    destruct (transport_to_userspace_cases skb0)
      as [(Hl & ->) | [(Hl & Hs & ->) | (Hl & Hs & ->)]]; run_M.
    - rewrite (proj2 (Z.ltb_lt _ _) Hl).
      destruct peer as [p|]; cbn; (split; [reflexivity|]);
        (split; [intros; lia | intros _; split; [reflexivity | auto]]).
    - rewrite (proj2 (Z.ltb_lt _ _) Hs).
      destruct peer as [p|]; cbn; (split; [reflexivity|]);
        (split; [intros _; eexists; split; reflexivity | intros; lia]).
    - change (0 <? 0) with false.
      destruct peer as [p|]; cbn; (split; [reflexivity|]);
        (split; [intros _; eexists; split; reflexivity | intros; lia]). }
  split; [exact Hrelay|].
  intros Hdec. destruct peer as [p|].
  - destruct (ovpn_opcode_is_data env op) eqn:Hop.
    + exists p. split; reflexivity.
    + destruct (Hrelay (or_intror eq_refl)) as [Hno _]. congruence.
  - destruct (Hrelay (or_introl eq_refl)) as [Hno _]. congruence.
Qed.


(** ** Keepalive messages *)

Section Keepalive.

(** Modelled from the spec: the keepalive payload (sixteen bytes in the
    spec) and what section 4.4 says of the helpers of proto.h, which are not
    among the sources.  [is_keepalive] recognises the payload by exact
    match; the IP header probe accepts only IPv4 and IPv6 packets and leaves
    a buffer holding just the keepalive marker to [is_keepalive].  Nothing
    is assumed of [pskb_may_pull]. *)
Variable ovpn_keepalive_message : list Z.
Hypothesis keepalive_recognised : forall skb,
  skb_data skb = ovpn_keepalive_message -> ovpn_is_keepalive env skb = true.
Hypothesis keepalive_not_ip : forall skb flags,
  skb_data skb = ovpn_keepalive_message -> ovpn_ip_header_probe env skb flags < 0.

(** C8 (amended).  A successfully decrypted buffer whose payload is the
    keepalive message: the post-decrypt handler refreshes the RX keepalive
    timestamp first and counts the bytes, and the tun device's receive entry
    [netif_rx] is not called.  When [pskb_may_pull(skb, 1)], the check for a
    null packet that precedes the keepalive test, succeeds, the buffer is
    consumed and [tun_netdev_write] returns 0, not an error.  When that
    check fails the buffer is freed and [tun_netdev_write] returns
    -EINVAL. *)
Theorem keepalive_consumed peer cc skb :
  skb_data skb = ovpn_keepalive_message ->
  existsb is_netif_rx (trace (post_decrypt peer cc skb 0)) = false /\
  (exists rest,
     trace (post_decrypt peer cc skb 0) =
       ev_update_keepalive_expire peer ::
       ev_stats_increment_rx peer (cb_rx_stats_size skb) :: rest) /\
  (pskb_may_pull env skb 1 = true ->
   tun_netdev_write peer skb =
     (0, [ev_update_keepalive_expire peer;
          ev_stats_increment_rx peer (cb_rx_stats_size skb);
          ev_consume_skb skb]) /\
   trace (post_decrypt peer cc skb 0) =
     [ev_update_keepalive_expire peer;
      ev_stats_increment_rx peer (cb_rx_stats_size skb);
      ev_consume_skb skb;
      ev_crypto_context_put cc;
      ev_peer_put peer]) /\
  (pskb_may_pull env skb 1 = false ->
   tun_netdev_write peer skb =
     (- EINVAL, [ev_update_keepalive_expire peer;
                 ev_stats_increment_rx peer (cb_rx_stats_size skb);
                 ev_kfree_skb skb]) /\
   trace (post_decrypt peer cc skb 0) =
     [ev_update_keepalive_expire peer;
      ev_stats_increment_rx peer (cb_rx_stats_size skb);
      ev_kfree_skb skb;
      ev_crypto_context_put cc;
      ev_peer_put peer]).
Proof.
  intros Hdata.
  assert (Hw : tun_netdev_write peer skb =
    if pskb_may_pull env skb 1
    then (0, [ev_update_keepalive_expire peer;
              ev_stats_increment_rx peer (cb_rx_stats_size skb);
              ev_consume_skb skb])
    else (- EINVAL, [ev_update_keepalive_expire peer;
                     ev_stats_increment_rx peer (cb_rx_stats_size skb);
                     ev_kfree_skb skb])).
  { unfold tun_netdev_write. cbv zeta.
    rewrite (proj2 (Z.ltb_lt _ _)
               (keepalive_not_ip skb (OVPN_PROBE_SET_SKB env) Hdata)).
    rewrite (keepalive_recognised skb Hdata).
    destruct (pskb_may_pull env skb 1); reflexivity. }
  unfold post_decrypt. change (negb (0 =? 0)) with false. cbv iota.
  rewrite Hw.
  destruct (pskb_may_pull env skb 1).
  - split; [reflexivity|]. split; [eexists; reflexivity|].
    split; [intros _; split; reflexivity | discriminate].
  - split; [reflexivity|]. split; [eexists; reflexivity|].
    split; [discriminate | intros _; split; reflexivity].
Qed.

End Keepalive.

(** ** The transmit headroom *)

(** C10.  In [do_ovpn_net_xmit] the test [headroom < 0] is made on an
    unsigned value, so it never holds: the function never returns through
    that branch (it is the only one that returns -1), and whenever a peer
    with a binding and a primary crypto context is present, encrypt is
    called with the computed encapsulation overhead converted to
    [unsigned int], whatever its value. *)
Theorem xmit_headroom_unchecked current skb is_ip :
  (forall overhead, headroom_invalid (u32 overhead) = false) /\
  value (do_ovpn_net_xmit current skb is_ip) <> -1 /\
  (forall peer b cc key_id,
     current = Some peer ->
     peer_bind env peer = Some b ->
     ovpn_crypto_context_primary env peer = Some (cc, key_id) ->
     exists rest,
       trace (do_ovpn_net_xmit current skb is_ip) =
       ev_encrypt cc (set_pktid skb 0)
                  (u32 (ovpn_bind_udp_encap_overhead env b ETH_HLEN)) key_id
       :: rest).
Proof.
  assert (Hguard : forall overhead, headroom_invalid (u32 overhead) = false).
  { intros overhead. unfold headroom_invalid, u32.
    apply Z.ltb_ge. apply Z.mod_pos_bound. lia. }
  split; [exact Hguard|]. split.
  - unfold do_ovpn_net_xmit. destruct current as [peer|]; [|discriminate].
    destruct (peer_bind env peer) as [b|]; [|discriminate].
    cbv zeta. rewrite Hguard.
    destruct (ovpn_crypto_context_primary env peer) as [[cc key_id]|];
      [|discriminate].
    run_M. destruct (ops_encrypt env cc _ _ key_id) as [r skb'].
    destruct (negb (r =? - EINPROGRESS)); [|discriminate].
    destruct (post_encrypt peer cc skb' r) as [u t]. cbn. discriminate.
  - intros peer b cc key_id -> Hb Hcc. unfold do_ovpn_net_xmit.
    rewrite Hb. cbv zeta. rewrite Hguard, Hcc. run_M.
    destruct (ops_encrypt env cc _ _ key_id) as [r skb'].
    destruct (negb (r =? - EINPROGRESS)).
    + destruct (post_encrypt peer cc skb' r) as [u t]. cbn. eexists. reflexivity.
    + cbn. eexists. reflexivity.
Qed.


(** ** Buffers and references *)

(** The events by which a buffer leaves the datapath: it is freed or
    consumed, given to the tun device, or taken by the UDP output, which
    takes it exactly when it reports no error. *)
Definition releases_skb (e : event) : bool :=
  match e with
  | ev_kfree_skb _ | ev_consume_skb _ | ev_netif_rx _ => true
  | ev_udp_output b skb => negb (udp_output_result env b skb <? 0)
  | _ => false
  end.

Definition is_peer_put (e : event) : bool :=
  match e with ev_peer_put _ => true | _ => false end.

Definition is_crypto_context_put (e : event) : bool :=
  match e with ev_crypto_context_put _ => true | _ => false end.

Definition is_encrypt (e : event) : bool :=
  match e with ev_encrypt _ _ _ _ => true | _ => false end.

(** What only an authenticated packet may cause: delivery to the tun
    device, the RX keepalive timestamp, the RX byte counter. *)
Definition is_authenticated_rx (e : event) : bool :=
  match e with
  | ev_netif_rx _ | ev_update_keepalive_expire _ | ev_stats_increment_rx _ _ => true
  | _ => false
  end.

(** The number of events of a trace that satisfy [f]. *)
Definition count (f : event -> bool) (t : list event) : nat :=
  length (List.filter f t).

(** The crypto context [ovpn_recv_crypto] finds and what its decrypt
    operation returns, when the packet gets that far. *)
Definition decrypt_result (peer : option (ovpn_peer env)) (op : Z) (skb : sk_buff)
  : option (ovpn_crypto_context env * (Z * sk_buff)) :=
  match peer with
  | Some p =>
      if ovpn_opcode_is_data env op then
        let key_id := ovpn_key_id_extract env op in
        match ovpn_crypto_context_from_state env p key_id with
        | Some cc =>
            Some (cc, ops_decrypt env cc (set_rx_stats_size skb (skb_len skb))
                                  key_id op)
        | None => None
        end
      else None
  | None => None
  end.

(** The error with which [do_ovpn_net_xmit] gives up before encrypting. *)
Definition xmit_error (current : option (ovpn_peer env)) : option Z :=
  match current with
  | None => Some (- ENOLINK)
  | Some peer =>
      match peer_bind env peer with
      | None => Some (- ENOENT)
      | Some _ =>
          match ovpn_crypto_context_primary env peer with
          | None => Some (- ENODEV)
          | Some _ => None
          end
      end
  end.

(** The crypto context [do_ovpn_net_xmit] finds and what its encrypt
    operation returns, when the packet gets that far. *)
Definition encrypt_result (current : option (ovpn_peer env)) (skb : sk_buff)
  : option (ovpn_crypto_context env * (Z * sk_buff)) :=
  match current with
  | Some peer =>
      match peer_bind env peer, ovpn_crypto_context_primary env peer with
      | Some b, Some (cc, key_id) =>
          Some (cc, ops_encrypt env cc (set_pktid skb 0)
                      (u32 (ovpn_bind_udp_encap_overhead env b ETH_HLEN)) key_id)
      | _, _ => None
      end
  | None => None
  end.

(** The crypto operation returned -EINPROGRESS: the completion callback
    will run the post-stage handler. *)
Definition in_progress (r : option (ovpn_crypto_context env * (Z * sk_buff)))
  : bool :=
  match r with
  | Some (_, (code, _)) => code =? - EINPROGRESS
  | None => false
  end.

(** [ovpn_peer_put] on each element: the references an operation on [peer]
    is expected to drop. *)
Definition peer_puts (peer : option (ovpn_peer env)) : list event :=
  match peer with
  | Some p => [ev_peer_put p]
  | None => []
  end.

(** ** The entry points *)

(** Further kernel constants. *)
Definition EHOSTUNREACH : Z := 113.
Definition ENOMEM : Z := 12.
Definition EOPNOTSUPP : Z := 95.
Definition AF_INET : Z := 2.
Definition AF_INET6 : Z := 10.
Definition NETDEV_TX_OK : Z := 0.
Definition NET_XMIT_DROP : Z := 1.

(** [sizeof(struct udphdr)] *)
Definition sizeof_udphdr : nat := 8.

(** [__skb_pull(skb, n)] on a buffer that holds at least [n] bytes. *)
Definition __skb_pull (skb : sk_buff) (n : nat) : sk_buff :=
  mk_skb (drop n (skb_data skb)) (cb_rx_stats_size skb) (cb_pktid skb)
         (skb_ip_summed skb).

(** The buffer [alloc_skb] returns once [skb_reserve] has made the headroom
    and the [len] bytes of [data] have been copied in: the control block
    and the checksum annotation are still zero. *)
Definition skb_of_data (data : list Z) : sk_buff := mk_skb data 0 0 0.

(** [ovpn_xmit_special]: encrypt and transmit a special message to peer.
    [engine] is [peer->ovpn], absent when the pointer is NULL and otherwise
    given by what [ovpn_peer_get] returns on it; [skb_allocated] tells
    whether [alloc_skb] succeeds; [data] holds the [len] bytes.  The
    priority set on the buffer is not part of [sk_buff] here. *)
Definition ovpn_xmit_special (engine : option (option (ovpn_peer env)))
  (skb_allocated : bool) (data : list Z) : M unit :=
  match engine with
  | None => mret tt
  | Some current =>
      if negb skb_allocated then mret tt
      else
        let skb := skb_of_data data in
        err ← do_ovpn_net_xmit current skb false;
        if err <? 0 then emit (ev_kfree_skb skb) else mret tt
  end.

(** [ovpn_udp_send_data]; [current] is what [ovpn_peer_get(ovpn)] returns. *)
Definition ovpn_udp_send_data (current : option (ovpn_peer env))
  (skb_allocated : bool) (data : list Z) : M Z :=
  match current with
  | None => mret (- EHOSTUNREACH)
  | Some peer =>
      ret ← (if negb skb_allocated then mret (- ENOMEM)
             else ovpn_udp_write peer (skb_of_data data) ;; mret 0);
      (* out: *)
      emit (ev_peer_put peer) ;;
      mret ret
  end.

(** The collaborators of the entry points and of the UDP output: the socket
    handle and the functions of bind.h, proto.h, crypto.h and of the kernel's
    routing they call.  None of them is among the sources. *)
Record entry_collaborators : Type := mk_entry_collaborators {
  sock : Type;
  (* bind.h *)
  ovpn_bind_skb_match : ovpn_bind env -> sk_buff -> bool;
  sapair_local_family : ovpn_bind env -> Z;
  (* proto.h *)
  ovpn_op32_from_skb : sk_buff -> Z;
  (* crypto.h: cc->peer *)
  cc_peer : ovpn_crypto_context env -> ovpn_peer env;
  (* IS_ERR(ip_route_output_flow(...)) for the flow built from bind and sk *)
  ip_route_output_flow_failed : ovpn_bind env -> sock -> bool;
  (* ip6_route_output(...)->error for the flow built from bind and sk *)
  ip6_route_output_error : ovpn_bind env -> sock -> Z
}.

Variable ext : entry_collaborators.

(** What the entry points do to the outside beyond the events of the
    datapath. *)
Inductive io_event : Type :=
| io_datapath (e : event)
| io_peer_put_null                 (* ovpn_peer_put(NULL) *)
| io_skb_tx_error (skb : sk_buff)
| io_udp_tunnel_xmit_skb (b : ovpn_bind env) (sk : sock ext) (skb : sk_buff)
| io_udp_tunnel6_xmit_skb (b : ovpn_bind env) (sk : sock ext) (skb : sk_buff)
| io_dst_release (b : ovpn_bind env) (sk : sock ext).

Definition IO (A : Type) : Type := A * list io_event.

#[local] Instance IO_ret : MRet IO := fun A a => (a, []).
#[local] Instance IO_bind : MBind IO := fun A B k m =>
  let '(a, t1) := m in let '(b, t2) := k a in (b, t1 ++ t2).

Definition io_emit (e : io_event) : IO unit := (tt, [e]).
Definition value' {A : Type} (m : IO A) : A := fst m.
Definition trace' {A : Type} (m : IO A) : list io_event := snd m.

(** A computation of the datapath, run from an entry point. *)
Definition datapath {A : Type} (m : M A) : IO A :=
  (fst m, map io_datapath (snd m)).

(** The events of the datapath within a trace of an entry point. *)
Definition datapath_events (t : list io_event) : list event :=
  omap (fun e => match e with io_datapath e => Some e | _ => None end) t.

(** [post_decrypt_callback]; [cc] is [OVPN_SKB_CB(skb)->work->cc]. *)
Definition post_decrypt_callback (cc : ovpn_crypto_context env) (skb : sk_buff)
  (err : Z) : M unit :=
  post_decrypt (cc_peer ext cc) cc skb err.

(** [post_encrypt_callback]; [cc] is [OVPN_SKB_CB(skb)->work->cc]. *)
Definition post_encrypt_callback (cc : ovpn_crypto_context env) (skb : sk_buff)
  (err : Z) : M unit :=
  post_encrypt (cc_peer ext cc) cc skb err.

(** [ovpn_lookup_peer_via_transport]; [current] is what
    [ovpn_peer_get(ovpn)] returns.  The label [err] calls [ovpn_peer_put]
    on that pointer, NULL or not. *)
Definition ovpn_lookup_peer_via_transport (current : option (ovpn_peer env))
  (skb : sk_buff) : IO (option (ovpn_peer env)) :=
  let err :=
    match current with
    | Some peer => io_emit (io_datapath (ev_peer_put peer))
    | None => io_emit io_peer_put_null
    end ;;
    mret None in
  match current with
  | None => err
  | Some peer =>
      match peer_bind env peer with
      | None => err
      | Some bind =>
          (* only one peer is supported at the moment. check if it's the one
             the skb was received from and return it *)
          if negb (ovpn_bind_skb_match ext bind skb) then err
          else mret (Some peer)
      end
  end.

(** [ovpn_udp_encap_recv]; [engine] is what [ovpn_from_udp_sock(sk)]
    returns, given by what [ovpn_peer_get] returns on it.  The UDP layer
    hands over buffers that hold the UDP header. *)
Definition ovpn_udp_encap_recv (engine : option (option (ovpn_peer env)))
  (skb : sk_buff) : IO Z :=
  (* pop off outer UDP header *)
  let skb := __skb_pull skb sizeof_udphdr in
  match engine with
  | None => io_emit (io_datapath (ev_kfree_skb skb)) ;; mret 0
  | Some current =>
      (* get opcode *)
      let op := ovpn_op32_from_skb ext skb in
      (* lookup peer *)
      peer ← ovpn_lookup_peer_via_transport current skb;
      datapath (ovpn_recv peer op skb) ;;
      mret 0
  end.

(** [ovpn_udp4_output] *)
Definition ovpn_udp4_output (bind : ovpn_bind env) (sk : sock ext)
  (skb : sk_buff) : IO Z :=
  if ip_route_output_flow_failed ext bind sk then mret (- EHOSTUNREACH)
  else io_emit (io_udp_tunnel_xmit_skb bind sk skb) ;; mret 0.

(** [ovpn_udp6_output] *)
Definition ovpn_udp6_output (bind : ovpn_bind env) (sk : sock ext)
  (skb : sk_buff) : IO Z :=
  let error := ip6_route_output_error ext bind sk in
  if error <? 0 then io_emit (io_dst_release bind sk) ;; mret error
  else io_emit (io_udp_tunnel6_xmit_skb bind sk skb) ;; mret 0.

(** [ovpn_udp_output] (CONFIG_IPV6 enabled).  The statement that clears
    [skb->sk] of an orphaned buffer touches no field of [sk_buff] here. *)
Definition ovpn_udp_output (bind : ovpn_bind env) (sk : sock ext)
  (skb : sk_buff) : IO Z :=
  let family := sapair_local_family ext bind in
  if family =? AF_INET then ovpn_udp4_output bind sk skb
  else if family =? AF_INET6 then ovpn_udp6_output bind sk skb
  else mret (- EOPNOTSUPP).

(** [ovpn_net_xmit]: net device start xmit; [current] is what
    [ovpn_peer_get] returns on the device's [ovpn_struct].  [nf_reset_ct]
    and [skb_reset_network_header] touch no field of [sk_buff] here. *)
Definition ovpn_net_xmit (current : option (ovpn_peer env)) (skb : sk_buff)
  : IO Z :=
  let drop :=
    io_emit (io_skb_tx_error skb) ;;
    io_emit (io_datapath (ev_kfree_skb skb)) ;;
    mret NET_XMIT_DROP in
  (* verify IP header size in network packet *)
  if ovpn_ip_header_probe env skb 0 <? 0 then drop
  else
    ret ← datapath (do_ovpn_net_xmit current skb true);
    if ret <? 0 then drop else mret NETDEV_TX_OK.

(** The buffer is handed to the UDP tunnel transmit. *)
Definition is_tunnel_xmit (e : io_event) : bool :=
  match e with
  | io_udp_tunnel_xmit_skb _ _ _ | io_udp_tunnel6_xmit_skb _ _ _ => true
  | _ => false
  end.

(** The call [ovpn_peer_put(peer)] on what [ovpn_peer_get] returned. *)
Definition peer_put_call (current : option (ovpn_peer env)) : io_event :=
  match current with
  | Some peer => io_datapath (ev_peer_put peer)
  | None => io_peer_put_null
  end.

Definition is_peer_put_call (e : io_event) : bool :=
  match e with
  | io_datapath (ev_peer_put _) | io_peer_put_null => true
  | _ => false
  end.

(** The conditions under which [ovpn_net_xmit] hands the packet on: the
    probe accepts it and [do_ovpn_net_xmit] does not fail. *)
Definition xmit_ready (current : option (ovpn_peer env)) (skb : sk_buff) : bool :=
  negb (ovpn_ip_header_probe env skb 0 <? 0) &&
  match xmit_error current with
  | None => true
  | Some _ => false
  end.

(** ** Ownership of the buffer and of the references *)

Ltac case_paths :=
  repeat (cbn;
          match goal with
          | |- context [if ?c then _ else _] => destruct c eqn:?
          | |- context [match ?x with Some _ => _ | None => _ end] =>
              destruct x eqn:?
          | |- context [let '(_, _) := ?x in _] => destruct x eqn:?
          end).

Lemma count_app f t1 t2 : count f (t1 ++ t2) = (count f t1 + count f t2)%nat.
Proof. unfold count. rewrite List.filter_app, length_app. reflexivity. Qed.

Lemma tun_netdev_write_resources peer skb :
  count releases_skb (trace (tun_netdev_write peer skb)) = 1%nat /\
  List.filter is_peer_put (trace (tun_netdev_write peer skb)) = [] /\
  List.filter is_crypto_context_put (trace (tun_netdev_write peer skb)) = [].
Proof.
  unfold tun_netdev_write, count, trace, emit. cbv zeta.
  case_paths; repeat split.
Qed.

Lemma post_decrypt_resources peer cc skb err :
  count releases_skb (trace (post_decrypt peer cc skb err)) = 1%nat /\
  List.filter is_peer_put (trace (post_decrypt peer cc skb err))
    = [ev_peer_put peer] /\
  List.filter is_crypto_context_put (trace (post_decrypt peer cc skb err))
    = [ev_crypto_context_put cc].
Proof.
  destruct (tun_netdev_write_resources peer skb) as (Hr & Hp & Hc).
  unfold post_decrypt, count, trace, emit in *.
  destruct (negb (err =? 0)).
  - cbn. repeat split.
  - destruct (tun_netdev_write peer skb) as [v t].
    cbn [mbind mret M_bind M_ret fst snd] in *.
    rewrite !List.filter_app, !length_app, Hr, Hp, Hc, !app_nil_r.
    cbn. repeat split.
Qed.

Lemma udp_write_resources peer skb :
  count releases_skb (trace (ovpn_udp_write peer skb)) = 1%nat /\
  List.filter is_peer_put (trace (ovpn_udp_write peer skb)) = [] /\
  List.filter is_crypto_context_put (trace (ovpn_udp_write peer skb)) = [] /\
  existsb is_encrypt (trace (ovpn_udp_write peer skb)) = false.
Proof.
  unfold ovpn_udp_write, count, trace, emit.
  destruct (negb (peer_has_sock env peer)); [cbn; repeat split|].
  destruct (peer_bind env peer) as [b|]; [|cbn; repeat split].
  cbn [mbind mret M_bind M_ret fst snd app].
  destruct (udp_output_result env b skb <? 0) eqn:Hout;
    cbn; rewrite Hout; cbn; repeat split.
Qed.

Lemma post_encrypt_resources peer cc skb err :
  count releases_skb (trace (post_encrypt peer cc skb err)) = 1%nat /\
  List.filter is_peer_put (trace (post_encrypt peer cc skb err))
    = [ev_peer_put peer] /\
  List.filter is_crypto_context_put (trace (post_encrypt peer cc skb err))
    = [ev_crypto_context_put cc] /\
  existsb is_encrypt (trace (post_encrypt peer cc skb err)) = false.
Proof.
  destruct (udp_write_resources peer skb) as (Hr & Hp & Hc & He).
  unfold post_encrypt, count, trace, emit in *.
  destruct (negb (err =? 0)).
  - cbn. repeat split.
  - destruct (ovpn_udp_write peer skb) as [v t].
    cbn [mbind mret M_bind M_ret fst snd] in *.
    rewrite !List.filter_app, !length_app, existsb_app, Hr, Hp, Hc, He.
    cbn. repeat split.
Qed.

Lemma transport_to_userspace_resources skb :
  count releases_skb (trace (ovpn_transport_to_userspace skb)) =
    (if value (ovpn_transport_to_userspace skb) <? 0 then 0%nat else 1%nat) /\
  List.filter is_peer_put (trace (ovpn_transport_to_userspace skb)) = [] /\
  List.filter is_crypto_context_put (trace (ovpn_transport_to_userspace skb)) = [] /\
  existsb is_authenticated_rx (trace (ovpn_transport_to_userspace skb)) = false.
Proof.
  destruct (transport_to_userspace_cases skb)
    as [(Hl & ->) | [(Hl & Hs & ->) | (Hl & Hs & ->)]];
    unfold count, trace, value; cbn [fst snd].
  - rewrite (proj2 (Z.ltb_lt _ _) Hl). repeat split.
  - rewrite (proj2 (Z.ltb_lt _ _) Hs). repeat split.
  - repeat split.
Qed.

(** The trace of the decrypt branch of [ovpn_recv_crypto]. *)
Lemma recv_crypto_data p op skb :
  ovpn_opcode_is_data env op = true ->
  trace (ovpn_recv_crypto (Some p) op skb) =
  let skb0 := set_rx_stats_size skb (skb_len skb) in
  let key_id := ovpn_key_id_extract env op in
  match ovpn_crypto_context_from_state env p key_id with
  | None => [ev_peer_put p; ev_kfree_skb skb0]
  | Some cc =>
      ev_decrypt cc skb0 key_id op ::
      (if fst (ops_decrypt env cc skb0 key_id op) =? - EINPROGRESS then []
       else trace (post_decrypt p cc (snd (ops_decrypt env cc skb0 key_id op))
                                (fst (ops_decrypt env cc skb0 key_id op))))
  end.
Proof.
  intros Hop. unfold ovpn_recv_crypto. rewrite Hop. cbv zeta.
  destruct (ovpn_crypto_context_from_state env p (ovpn_key_id_extract env op))
    as [cc|]; [|reflexivity].
  destruct (ops_decrypt env cc _ _ op) as [r skb'].
  cbn [fst snd]. unfold trace, emit.
  destruct (r =? - EINPROGRESS); cbn [negb].
  - reflexivity.
  - destruct (post_decrypt p cc skb' r) as [u t]. reflexivity.
Qed.

(** The trace of the userspace branch of [ovpn_recv_crypto]. *)
Lemma recv_crypto_relay_trace peer op skb :
  peer = None \/ ovpn_opcode_is_data env op = false ->
  decrypt_result peer op skb = None /\
  trace (ovpn_recv_crypto peer op skb) =
  let skb0 := set_rx_stats_size skb (skb_len skb) in
  trace (ovpn_transport_to_userspace skb0) ++
  peer_puts peer ++
  (if value (ovpn_transport_to_userspace skb0) <? 0 then [ev_kfree_skb skb0]
   else []).
Proof.
  intros Hcase. split.
  - unfold decrypt_result. destruct Hcase as [-> | Hop]; [reflexivity|].
    rewrite Hop. destruct peer; reflexivity.
  - rewrite (recv_crypto_relay peer op skb Hcase). cbv zeta.
    unfold trace, value, peer_puts, peer_put_if, emit.
    destruct (ovpn_transport_to_userspace _) as [r t].
    cbn [mbind mret M_bind M_ret fst snd].
    destruct (r <? 0); destruct peer; cbn [mbind mret M_bind M_ret fst snd app];
      rewrite ?app_nil_r; reflexivity.
Qed.

(** The buffer in [ovpn_recv_crypto]. *)
Lemma recv_crypto_buffer peer op skb :
  count releases_skb (trace (ovpn_recv_crypto peer op skb)) =
  if in_progress (decrypt_result peer op skb) then 0%nat else 1%nat.
Proof.
  assert (Hrelay : peer = None \/ ovpn_opcode_is_data env op = false ->
    count releases_skb (trace (ovpn_recv_crypto peer op skb)) =
    if in_progress (decrypt_result peer op skb) then 0%nat else 1%nat).
  { intros Hcase.
    destruct (recv_crypto_relay_trace peer op skb Hcase) as [-> ->]. cbv zeta.
    destruct (transport_to_userspace_resources
                (set_rx_stats_size skb (skb_len skb))) as (Hr & _).
    rewrite !count_app, Hr.
    destruct (value (ovpn_transport_to_userspace _) <? 0);
      destruct peer; reflexivity. }
  destruct peer as [p|]; [|apply Hrelay; left; reflexivity].
  destruct (ovpn_opcode_is_data env op) eqn:Hop;
    [|apply Hrelay; right; reflexivity].
  rewrite (recv_crypto_data p op skb Hop). unfold decrypt_result. rewrite Hop.
  cbv zeta.
  destruct (ovpn_crypto_context_from_state env p (ovpn_key_id_extract env op))
    as [cc|]; [|reflexivity].
  destruct (ops_decrypt env cc _ _ op) as [r skb']. cbn [fst snd in_progress].
  destruct (r =? - EINPROGRESS); [reflexivity|].
  destruct (post_decrypt_resources p cc skb' r) as (Hr & _).
  change (ev_decrypt cc (set_rx_stats_size skb (skb_len skb))
            (ovpn_key_id_extract env op) op :: trace (post_decrypt p cc skb' r))
    with ([ev_decrypt cc (set_rx_stats_size skb (skb_len skb))
             (ovpn_key_id_extract env op) op] ++ trace (post_decrypt p cc skb' r)).
  rewrite count_app, Hr. reflexivity.
Qed.

(** X7.  [ovpn_recv_crypto] takes ownership of the buffer: on every path
    on which the work is finished when it returns, the buffer leaves the
    datapath exactly once (it is freed, consumed, or given to the tun
    device by [netif_rx]), never twice and never not at all.  Only when
    decrypt returns -EINPROGRESS is nothing released yet. *)
Theorem recv_crypto_releases_skb peer op skb :
  count releases_skb (trace (ovpn_recv_crypto peer op skb)) =
  if in_progress (decrypt_result peer op skb) then 0%nat else 1%nat.
Proof. apply recv_crypto_buffer. Qed.

(** The references in [ovpn_recv_crypto]. *)
Lemma recv_crypto_references peer op skb :
  List.filter is_peer_put (trace (ovpn_recv_crypto peer op skb)) =
    (if in_progress (decrypt_result peer op skb) then [] else peer_puts peer) /\
  List.filter is_crypto_context_put (trace (ovpn_recv_crypto peer op skb)) =
    match decrypt_result peer op skb with
    | Some (cc, (code, _)) =>
        if code =? - EINPROGRESS then [] else [ev_crypto_context_put cc]
    | None => []
    end.
Proof.
  assert (Hrelay : peer = None \/ ovpn_opcode_is_data env op = false ->
    List.filter is_peer_put (trace (ovpn_recv_crypto peer op skb)) =
      (if in_progress (decrypt_result peer op skb) then [] else peer_puts peer) /\
    List.filter is_crypto_context_put (trace (ovpn_recv_crypto peer op skb)) =
      match decrypt_result peer op skb with
      | Some (cc, (code, _)) =>
          if code =? - EINPROGRESS then [] else [ev_crypto_context_put cc]
      | None => []
      end).
  { intros Hcase.
    destruct (recv_crypto_relay_trace peer op skb Hcase) as [-> ->]. cbv zeta.
    destruct (transport_to_userspace_resources
                (set_rx_stats_size skb (skb_len skb))) as (_ & Hp & Hc & _).
    rewrite !List.filter_app, Hp, Hc.
    destruct (value (ovpn_transport_to_userspace _) <? 0);
      destruct peer; split; reflexivity. }
  destruct peer as [p|]; [|apply Hrelay; left; reflexivity].
  destruct (ovpn_opcode_is_data env op) eqn:Hop;
    [|apply Hrelay; right; reflexivity].
  rewrite (recv_crypto_data p op skb Hop). unfold decrypt_result. rewrite Hop.
  cbv zeta.
  destruct (ovpn_crypto_context_from_state env p (ovpn_key_id_extract env op))
    as [cc|]; [|split; reflexivity].
  destruct (ops_decrypt env cc _ _ op) as [r skb']. cbn [fst snd in_progress].
  destruct (r =? - EINPROGRESS); [split; reflexivity|].
  destruct (post_decrypt_resources p cc skb' r) as (_ & Hp & Hc).
  cbn [List.filter is_peer_put is_crypto_context_put]. rewrite Hp, Hc.
  split; reflexivity.
Qed.

(** X8.  [ovpn_recv_crypto] drops the references it was given: unless
    decrypt returns -EINPROGRESS, [ovpn_peer_put] is called exactly once on
    the peer when there is one (and not at all when there is none), and
    [ovpn_crypto_context_put] exactly once on the crypto context when one
    was looked up, on no other. *)
Theorem recv_crypto_puts peer op skb :
  List.filter is_peer_put (trace (ovpn_recv_crypto peer op skb)) =
    (if in_progress (decrypt_result peer op skb) then [] else peer_puts peer) /\
  List.filter is_crypto_context_put (trace (ovpn_recv_crypto peer op skb)) =
    match decrypt_result peer op skb with
    | Some (cc, (code, _)) =>
        if code =? - EINPROGRESS then [] else [ev_crypto_context_put cc]
    | None => []
    end.
Proof. apply recv_crypto_references. Qed.

(** ** What an unauthenticated packet cannot do *)

Lemma post_decrypt_trace peer cc skb err :
  trace (post_decrypt peer cc skb err) =
  (if err =? 0 then trace (tun_netdev_write peer skb) else [ev_kfree_skb skb])
  ++ [ev_crypto_context_put cc; ev_peer_put peer].
Proof.
  unfold post_decrypt, trace, emit. destruct (err =? 0); cbn [negb].
  - destruct (tun_netdev_write peer skb) as [v t].
    cbn [mbind mret M_bind M_ret fst snd app]. rewrite app_nil_r.
    reflexivity.
  - reflexivity.
Qed.

(** X9.  Only a packet that decrypt has accepted reaches the tun device or
    counts as traffic of the peer.  If a run of [ovpn_recv_crypto] calls
    [netif_rx], refreshes the RX keepalive timestamp or increments the RX
    byte counter, then a peer was given, the opcode was a data opcode, a
    crypto context was found for its key id and decrypt returned 0.
    Conversely, when decrypt returns 0 the run is the decrypt call, then
    [tun_netdev_write] on the buffer decrypt left, then the release of the
    crypto context and of the peer; when it returns an error the buffer is
    freed and the two are released, nothing else. *)
Theorem recv_crypto_authenticated peer op skb :
  (existsb is_authenticated_rx (trace (ovpn_recv_crypto peer op skb)) = true ->
   exists cc skb', decrypt_result peer op skb = Some (cc, (0, skb'))) /\
  (forall p cc code skb',
     peer = Some p ->
     decrypt_result peer op skb = Some (cc, (code, skb')) ->
     code <> - EINPROGRESS ->
     trace (ovpn_recv_crypto peer op skb) =
       ev_decrypt cc (set_rx_stats_size skb (skb_len skb))
                  (ovpn_key_id_extract env op) op ::
       (if code =? 0 then trace (tun_netdev_write p skb')
        else [ev_kfree_skb skb']) ++
       [ev_crypto_context_put cc; ev_peer_put p]).
Proof.
  split.
  - assert (Hrelay : peer = None \/ ovpn_opcode_is_data env op = false ->
      existsb is_authenticated_rx (trace (ovpn_recv_crypto peer op skb)) = false).
    { intros Hcase.
      destruct (recv_crypto_relay_trace peer op skb Hcase) as [_ ->]. cbv zeta.
      destruct (transport_to_userspace_resources
                  (set_rx_stats_size skb (skb_len skb))) as (_ & _ & _ & Ha).
      rewrite !existsb_app, Ha.
      destruct (value (ovpn_transport_to_userspace _) <? 0);
        destruct peer; reflexivity. }
    destruct peer as [p|];
      [|rewrite Hrelay by (left; reflexivity); discriminate].
    destruct (ovpn_opcode_is_data env op) eqn:Hop;
      [|rewrite Hrelay by (right; reflexivity); discriminate].
    rewrite (recv_crypto_data p op skb Hop). unfold decrypt_result.
    rewrite Hop. cbv zeta.
    destruct (ovpn_crypto_context_from_state env p (ovpn_key_id_extract env op))
      as [cc|]; [|discriminate].
    destruct (ops_decrypt env cc _ _ op) as [r skb']. cbn [fst snd].
    destruct (r =? - EINPROGRESS); [discriminate|].
    rewrite post_decrypt_trace.
    destruct (Z.eqb_spec r 0) as [->|Hr].
    + intros _. exists cc, skb'. reflexivity.
    + cbn. discriminate.
  - intros p cc code skb' -> Hres Hcode. unfold decrypt_result in Hres.
    destruct (ovpn_opcode_is_data env op) eqn:Hop; [|discriminate].
    rewrite (recv_crypto_data p op skb Hop). cbv zeta in *.
    destruct (ovpn_crypto_context_from_state env p (ovpn_key_id_extract env op))
      as [cc'|]; [|discriminate].
    injection Hres as -> Hres. rewrite Hres. cbn [fst snd].
    destruct (Z.eqb_spec code (- EINPROGRESS)) as [He|_]; [contradiction|].
    rewrite post_decrypt_trace. reflexivity.
Qed.

(** X10.  [tun_netdev_write] on a decrypted buffer: the RX keepalive
    timestamp is refreshed and the bytes are counted (with the size saved in
    the control block) before the buffer is looked at, so also for a
    malformed packet; then exactly one thing happens to the buffer.  It is
    given to [netif_rx], marked CHECKSUM_UNNECESSARY, exactly when the IP
    header probe accepts it, and the function returns 0.  Otherwise it is
    consumed with return value 0 when it holds at least a byte and is a
    keepalive, and freed with a negative return value when not: -EINVAL for
    a null packet, the probe's code else. *)
Theorem tun_netdev_write_verdict peer skb :
  exists last,
    tun_netdev_write peer skb =
      (if ovpn_ip_header_probe env skb (OVPN_PROBE_SET_SKB env) <? 0 then
         if negb (pskb_may_pull env skb 1) then - EINVAL
         else if ovpn_is_keepalive env skb then 0
         else ovpn_ip_header_probe env skb (OVPN_PROBE_SET_SKB env)
       else 0,
       [ev_update_keepalive_expire peer;
        ev_stats_increment_rx peer (cb_rx_stats_size skb); last]) /\
    (last = ev_netif_rx (set_ip_summed skb CHECKSUM_UNNECESSARY) <->
     0 <= ovpn_ip_header_probe env skb (OVPN_PROBE_SET_SKB env)) /\
    (last = ev_consume_skb skb <->
     ovpn_ip_header_probe env skb (OVPN_PROBE_SET_SKB env) < 0 /\
     pskb_may_pull env skb 1 = true /\ ovpn_is_keepalive env skb = true) /\
    (last = ev_kfree_skb skb <-> value (tun_netdev_write peer skb) < 0).
Proof.
  unfold tun_netdev_write, value, emit. cbv zeta.
  destruct (Z.ltb_spec (ovpn_ip_header_probe env skb (OVPN_PROBE_SET_SKB env)) 0)
    as [Hp|Hp].
  - destruct (pskb_may_pull env skb 1) eqn:Hpull; cbn [negb].
    + destruct (ovpn_is_keepalive env skb) eqn:Hka.
      * exists (ev_consume_skb skb).
        cbn [mbind mret M_bind M_ret fst snd app Z.ltb Z.compare].
        split; [reflexivity|].
        intuition (first [discriminate | lia | congruence]).
      * exists (ev_kfree_skb skb).
        rewrite (proj2 (Z.ltb_lt _ _) Hp).
        cbn [mbind mret M_bind M_ret fst snd app]. split; [reflexivity|].
        intuition (first [discriminate | lia | congruence]).
    + exists (ev_kfree_skb skb).
      change (- EINVAL <? 0) with true.
      cbn [mbind mret M_bind M_ret fst snd app]. split; [reflexivity|].
      change (- EINVAL) with (-22).
      intuition (first [discriminate | lia | congruence]).
  - exists (ev_netif_rx (set_ip_summed skb CHECKSUM_UNNECESSARY)).
    cbn [mbind mret M_bind M_ret fst snd app].
    split; [reflexivity|].
    intuition (first [discriminate | lia | congruence]).
Qed.

(** ** The transmit path *)

Lemma headroom_valid overhead : headroom_invalid (u32 overhead) = false.
Proof.
  unfold headroom_invalid, u32. apply Z.ltb_ge. apply Z.mod_pos_bound. lia.
Qed.

(** [do_ovpn_net_xmit] once peer, binding and crypto context are found. *)
Lemma xmit_encrypts peer b cc key_id skb is_ip :
  peer_bind env peer = Some b ->
  ovpn_crypto_context_primary env peer = Some (cc, key_id) ->
  do_ovpn_net_xmit (Some peer) skb is_ip =
  let headroom := u32 (ovpn_bind_udp_encap_overhead env b ETH_HLEN) in
  let enc := ops_encrypt env cc (set_pktid skb 0) headroom key_id in
  (0, ev_encrypt cc (set_pktid skb 0) headroom key_id ::
      (if fst enc =? - EINPROGRESS then []
       else trace (post_encrypt peer cc (snd enc) (fst enc)))).
Proof.
  intros Hb Hcc. unfold do_ovpn_net_xmit. rewrite Hb. cbv zeta.
  rewrite headroom_valid, Hcc.
  destruct (ops_encrypt env cc _ _ key_id) as [r skb'].
  cbn [fst snd]. unfold trace, emit.
  destruct (r =? - EINPROGRESS); cbn [negb].
  - reflexivity.
  - destruct (post_encrypt peer cc skb' r) as [u t]. cbn.
    rewrite app_nil_r. reflexivity.
Qed.

(** The buffer is released once when [do_ovpn_net_xmit] gets to encrypt. *)
Lemma xmit_takes_skb_aux current skb is_ip :
  xmit_error current = None ->
  count releases_skb (trace (do_ovpn_net_xmit current skb is_ip)) =
    (if in_progress (encrypt_result current skb) then 0%nat else 1%nat).
Proof.
  unfold xmit_error, encrypt_result.
  destruct current as [peer|]; [|discriminate].
  destruct (peer_bind env peer) as [b|] eqn:Hb; [|discriminate].
  destruct (ovpn_crypto_context_primary env peer) as [[cc key_id]|] eqn:Hcc;
    [|discriminate].
  intros _. rewrite (xmit_encrypts peer b cc key_id skb is_ip Hb Hcc). cbv zeta.
  destruct (ops_encrypt env cc _ _ key_id) as [r skb'].
  cbn [fst snd in_progress trace].
  destruct (r =? - EINPROGRESS); [reflexivity|].
  destruct (post_encrypt_resources peer cc skb' r) as (Hr & _).
  unfold count in *. cbn [List.filter releases_skb]. exact Hr.
Qed.

(** The failing returns of [do_ovpn_net_xmit]. *)
Lemma xmit_failure current skb is_ip :
  value (do_ovpn_net_xmit current skb is_ip) =
    match xmit_error current with Some e => e | None => 0 end /\
  (forall e, xmit_error current = Some e ->
     e < 0 /\
     count releases_skb (trace (do_ovpn_net_xmit current skb is_ip)) = 0%nat /\
     existsb is_encrypt (trace (do_ovpn_net_xmit current skb is_ip)) = false /\
     List.filter is_crypto_context_put
       (trace (do_ovpn_net_xmit current skb is_ip)) = [] /\
     List.filter is_peer_put (trace (do_ovpn_net_xmit current skb is_ip))
       = peer_puts current).
Proof.
  unfold xmit_error.
  destruct current as [peer|].
  - destruct (peer_bind env peer) as [b|] eqn:Hb.
    + destruct (ovpn_crypto_context_primary env peer) as [[cc key_id]|] eqn:Hcc.
      * rewrite (xmit_encrypts peer b cc key_id skb is_ip Hb Hcc). cbv zeta.
        split; [reflexivity | discriminate].
      * unfold do_ovpn_net_xmit. rewrite Hb. cbv zeta.
        rewrite headroom_valid, Hcc. split; [reflexivity|].
        intros e [= <-]. cbn. repeat split.
    + unfold do_ovpn_net_xmit. rewrite Hb. split; [reflexivity|].
      intros e [= <-]. cbn. repeat split.
  - split; [reflexivity|]. intros e [= <-]. cbn. repeat split.
Qed.

(** X11.  [do_ovpn_net_xmit] fails exactly when no peer is installed
    (-ENOLINK), the peer has no binding (-ENOENT) or no primary crypto
    context (-ENODEV); the value is negative.  On such a return the buffer
    has not been released (it stays with the caller), encrypt was not
    called, no crypto context was released, and the reference on the peer,
    if one was obtained, has been dropped exactly once. *)
Theorem xmit_error_keeps_skb current skb is_ip :
  value (do_ovpn_net_xmit current skb is_ip) =
    match xmit_error current with Some e => e | None => 0 end /\
  (forall e, xmit_error current = Some e ->
     e < 0 /\
     count releases_skb (trace (do_ovpn_net_xmit current skb is_ip)) = 0%nat /\
     existsb is_encrypt (trace (do_ovpn_net_xmit current skb is_ip)) = false /\
     List.filter is_crypto_context_put
       (trace (do_ovpn_net_xmit current skb is_ip)) = [] /\
     List.filter is_peer_put (trace (do_ovpn_net_xmit current skb is_ip))
       = peer_puts current).
Proof. apply xmit_failure. Qed.

(** X12.  When [do_ovpn_net_xmit] finds peer, binding and crypto context it
    returns 0 whatever encrypt and the UDP output report, and it has
    taken the buffer: encrypt is called once, and unless it returns
    -EINPROGRESS the buffer is released exactly once (freed when encrypt or
    the output fails or socket or binding are missing, taken by the UDP
    output else), the peer reference and the crypto context are each
    dropped exactly once. *)
Theorem xmit_takes_skb current skb is_ip :
  xmit_error current = None ->
  value (do_ovpn_net_xmit current skb is_ip) = 0 /\
  count is_encrypt (trace (do_ovpn_net_xmit current skb is_ip)) = 1%nat /\
  count releases_skb (trace (do_ovpn_net_xmit current skb is_ip)) =
    (if in_progress (encrypt_result current skb) then 0%nat else 1%nat) /\
  List.filter is_peer_put (trace (do_ovpn_net_xmit current skb is_ip)) =
    (if in_progress (encrypt_result current skb) then [] else peer_puts current) /\
  List.filter is_crypto_context_put (trace (do_ovpn_net_xmit current skb is_ip)) =
    match encrypt_result current skb with
    | Some (cc, (code, _)) =>
        if code =? - EINPROGRESS then [] else [ev_crypto_context_put cc]
    | None => []
    end.
Proof.
  unfold xmit_error, encrypt_result.
  destruct current as [peer|]; [|discriminate].
  destruct (peer_bind env peer) as [b|] eqn:Hb; [|discriminate].
  destruct (ovpn_crypto_context_primary env peer) as [[cc key_id]|] eqn:Hcc;
    [|discriminate].
  intros _. rewrite (xmit_encrypts peer b cc key_id skb is_ip Hb Hcc). cbv zeta.
  destruct (ops_encrypt env cc _ _ key_id) as [r skb'].
  cbn [fst snd in_progress value trace].
  destruct (r =? - EINPROGRESS); [repeat split|].
  destruct (post_encrypt_resources peer cc skb' r) as (Hr & Hp & Hc & He).
  unfold count in *.
  cbn [List.filter is_encrypt releases_skb is_peer_put is_crypto_context_put
       length peer_puts].
  rewrite Hr, Hp, Hc. repeat split.
  assert (Hnone : List.filter is_encrypt (trace (post_encrypt peer cc skb' r)) = []).
  { clear -He. induction (trace (post_encrypt peer cc skb' r)) as [|e t IH].
    - reflexivity.
    - cbn in *. destruct (is_encrypt e); [discriminate|]. apply IH. exact He. }
  rewrite Hnone. reflexivity.
Qed.

(** X13.  [ovpn_xmit_special] sends the message through the same path as
    a packet of the tun device, without the IP header probe.  Nothing
    happens when the peer has no [ovpn_struct] or no buffer can be
    allocated.  Otherwise [do_ovpn_net_xmit] is run on a buffer holding the
    bytes given, and the buffer is freed here exactly when that call
    fails; so it is released exactly once in all, unless encrypt is still
    in progress. *)
Theorem xmit_special_releases engine skb_allocated data :
  (engine = None \/ skb_allocated = false ->
   trace (ovpn_xmit_special engine skb_allocated data) = []) /\
  (forall current, engine = Some current -> skb_allocated = true ->
     trace (ovpn_xmit_special engine skb_allocated data) =
       trace (do_ovpn_net_xmit current (skb_of_data data) true) ++
       match xmit_error current with
        | Some _ => [ev_kfree_skb (skb_of_data data)]
        | None => []
        end /\
     count releases_skb (trace (ovpn_xmit_special engine skb_allocated data)) =
       (if in_progress (encrypt_result current (skb_of_data data))
        then 0%nat else 1%nat)).
Proof.
  split.
  - intros [-> | ->]; [reflexivity|]. destruct engine; reflexivity.
  - intros current -> ->. unfold ovpn_xmit_special. cbn [negb].
    destruct (xmit_failure current (skb_of_data data) true)
      as [Hv Herr].
    assert (Ht : trace
        (err ← do_ovpn_net_xmit current (skb_of_data data) false;
         if err <? 0 then emit (ev_kfree_skb (skb_of_data data)) else mret tt) =
      trace (do_ovpn_net_xmit current (skb_of_data data) true) ++
      match xmit_error current with
        | Some _ => [ev_kfree_skb (skb_of_data data)]
        | None => []
        end).
    { change (do_ovpn_net_xmit current (skb_of_data data) false)
        with (do_ovpn_net_xmit current (skb_of_data data) true).
      unfold value, trace, emit in *.
      destruct (do_ovpn_net_xmit current (skb_of_data data) true) as [v t].
      cbn [mbind mret M_bind M_ret fst snd] in *. subst v.
      destruct (xmit_error current) as [e|].
      - destruct (Herr e eq_refl) as [He _].
        rewrite (proj2 (Z.ltb_lt _ _) He). reflexivity.
      - reflexivity. }
    split; [exact Ht|]. rewrite Ht, count_app.
    destruct (xmit_error current) as [e|] eqn:Hx.
    + destruct (Herr e eq_refl) as (_ & Hr & _). rewrite Hr.
      assert (Hnone : encrypt_result current (skb_of_data data) = None).
      { unfold xmit_error, encrypt_result in *.
        destruct current as [peer|]; [|reflexivity].
        destruct (peer_bind env peer); [|reflexivity].
        destruct (ovpn_crypto_context_primary env peer) as [[cc k]|];
          [discriminate | reflexivity]. }
      rewrite Hnone. reflexivity.
    + rewrite (xmit_takes_skb_aux current (skb_of_data data) true Hx).
      destruct (in_progress _); reflexivity.
Qed.


(** X22.  [ovpn_udp_write] frees the buffer without any other effect when
    the peer has no socket or no binding.  Otherwise it refreshes the TX
    keepalive timestamp and then calls the UDP output, and frees the buffer
    exactly when the output returns an error: the timestamp is refreshed
    also for a packet that could not be sent. *)
Theorem udp_write_verdict peer skb :
  (peer_has_sock env peer = false \/ peer_bind env peer = None ->
   trace (ovpn_udp_write peer skb) = [ev_kfree_skb skb]) /\
  (forall b, peer_has_sock env peer = true -> peer_bind env peer = Some b ->
     trace (ovpn_udp_write peer skb) =
       ev_update_keepalive_xmit peer :: ev_udp_output b skb ::
       (if udp_output_result env b skb <? 0 then [ev_kfree_skb skb] else [])).
Proof.
  unfold ovpn_udp_write, trace, emit. split.
  - intros [Hs | Hb].
    + rewrite Hs. reflexivity.
    + destruct (peer_has_sock env peer); [|reflexivity]. rewrite Hb. reflexivity.
  - intros b Hs Hb. rewrite Hs, Hb.
    cbn [negb mbind mret M_bind M_ret fst snd app].
    destruct (udp_output_result env b skb <? 0); reflexivity.
Qed.

(** X14.  [ovpn_udp_send_data] sends the bytes as they are, without
    encryption.  Without a peer it returns -EHOSTUNREACH and does nothing;
    when no buffer can be allocated it returns -ENOMEM.  Otherwise it
    returns 0, also when the packet could not be sent (no socket, no
    binding, or an error of the UDP output, in which cases the buffer is
    freed): the buffer is released exactly once.  Whenever a peer was
    found its reference is dropped exactly once. *)
Theorem udp_send_data_result current skb_allocated data :
  value (ovpn_udp_send_data current skb_allocated data) =
    match current with
    | None => - EHOSTUNREACH
    | Some _ => if skb_allocated then 0 else - ENOMEM
    end /\
  List.filter is_peer_put (trace (ovpn_udp_send_data current skb_allocated data))
    = peer_puts current /\
  existsb is_encrypt (trace (ovpn_udp_send_data current skb_allocated data))
    = false /\
  count releases_skb (trace (ovpn_udp_send_data current skb_allocated data)) =
    match current with
    | None => 0%nat
    | Some _ => if skb_allocated then 1%nat else 0%nat
    end /\
  (forall peer, current = Some peer -> skb_allocated = true ->
     trace (ovpn_udp_send_data current skb_allocated data) =
       trace (ovpn_udp_write peer (skb_of_data data)) ++ [ev_peer_put peer]).
Proof.
  unfold ovpn_udp_send_data.
  destruct current as [peer|]; [|repeat split; discriminate].
  destruct skb_allocated; cbn [negb].
  - destruct (udp_write_resources peer (skb_of_data data)) as (Hr & Hp & Hc & He).
    unfold count, value, trace, emit in *.
    destruct (ovpn_udp_write peer (skb_of_data data)) as [u t] eqn:Hw.
    cbn [mbind mret M_bind M_ret fst snd app] in *.
    rewrite !app_nil_r, !List.filter_app, existsb_app, length_app, Hr, Hp, He.
    repeat split. intros p [= <-] _. rewrite Hw. reflexivity.
  - cbn. repeat split. intros; discriminate.
Qed.

(** X15.  The completion callbacks finish what the inline path leaves
    undone.  When decrypt (encrypt) returns -EINPROGRESS, the run of
    [ovpn_recv_crypto] ([do_ovpn_net_xmit]) followed by the run of
    [post_decrypt_callback] ([post_encrypt_callback]) on the work's crypto
    context releases the buffer exactly once and drops exactly one
    reference on the crypto context and one on the peer that context
    belongs to ([cc->peer]), whatever status the callback is given. *)
Theorem crypto_callbacks_complete peer current op skb cc skb1 skb2 err :
  (decrypt_result peer op skb = Some (cc, (- EINPROGRESS, skb1)) ->
   let t := trace (ovpn_recv_crypto peer op skb) ++
            trace (post_decrypt_callback cc skb2 err) in
   count releases_skb t = 1%nat /\
   List.filter is_peer_put t = [ev_peer_put (cc_peer ext cc)] /\
   List.filter is_crypto_context_put t = [ev_crypto_context_put cc]) /\
  (encrypt_result current skb = Some (cc, (- EINPROGRESS, skb1)) ->
   let t := trace (do_ovpn_net_xmit current skb true) ++
            trace (post_encrypt_callback cc skb2 err) in
   count releases_skb t = 1%nat /\
   List.filter is_peer_put t = [ev_peer_put (cc_peer ext cc)] /\
   List.filter is_crypto_context_put t = [ev_crypto_context_put cc]).
Proof.
  split.
  - intros Hres. cbv zeta. unfold decrypt_result in Hres.
    destruct peer as [p|]; [|discriminate].
    destruct (ovpn_opcode_is_data env op) eqn:Hop; [|discriminate].
    rewrite (recv_crypto_data p op skb Hop). cbv zeta in *.
    destruct (ovpn_crypto_context_from_state env p (ovpn_key_id_extract env op))
      as [cc'|]; [|discriminate].
    injection Hres as -> Hres. rewrite Hres. cbn [fst snd].
    rewrite Z.eqb_refl.
    destruct (post_decrypt_resources (cc_peer ext cc) cc skb2 err)
      as (Hr & Hp & Hc).
    unfold post_decrypt_callback, count in *.
    cbn [app List.filter releases_skb is_peer_put is_crypto_context_put].
    repeat split; assumption.
  - intros Hres. cbv zeta. unfold encrypt_result in Hres.
    destruct current as [p|]; [|discriminate].
    destruct (peer_bind env p) as [b|] eqn:Hb; [|discriminate].
    destruct (ovpn_crypto_context_primary env p) as [[cc' key_id]|] eqn:Hcc;
      [|discriminate].
    injection Hres as -> Hres.
    rewrite (xmit_encrypts p b cc key_id skb true Hb Hcc). cbv zeta.
    rewrite Hres. cbn [fst snd trace]. rewrite Z.eqb_refl.
    destruct (post_encrypt_resources (cc_peer ext cc) cc skb2 err)
      as (Hr & Hp & Hc & _).
    unfold post_encrypt_callback, count, trace in *.
    cbn [app List.filter releases_skb is_peer_put is_crypto_context_put].
    repeat split; assumption.
Qed.

(** ** The entry points *)

Lemma datapath_events_lifted t : datapath_events (map io_datapath t) = t.
Proof.
  unfold datapath_events. induction t as [|e t IH]; [reflexivity|].
  cbn. rewrite IH. reflexivity.
Qed.

Lemma datapath_events_app t1 t2 :
  datapath_events (t1 ++ t2) = datapath_events t1 ++ datapath_events t2.
Proof. unfold datapath_events. apply omap_app. Qed.

Lemma peer_put_calls_lifted t :
  List.filter is_peer_put_call (map io_datapath t)
  = map io_datapath (List.filter is_peer_put t).
Proof.
  induction t as [|e t IH]; [reflexivity|].
  cbn [map List.filter]. rewrite IH. destruct e; reflexivity.
Qed.

(** The three outcomes of [ovpn_lookup_peer_via_transport]. *)
Lemma lookup_peer_cases current skb :
  (exists p b, current = Some p /\ peer_bind env p = Some b /\
               ovpn_bind_skb_match ext b skb = true /\
               ovpn_lookup_peer_via_transport current skb = (Some p, []))
  \/ ((forall p b, current = Some p -> peer_bind env p = Some b ->
         ovpn_bind_skb_match ext b skb = false) /\
      ovpn_lookup_peer_via_transport current skb
        = (None, [peer_put_call current])).
Proof.
  unfold ovpn_lookup_peer_via_transport, io_emit.
  destruct current as [p|].
  - destruct (peer_bind env p) as [b|] eqn:Hb.
    + destruct (ovpn_bind_skb_match ext b skb) eqn:Hm; cbn [negb].
      * left. exists p, b. repeat split; assumption.
      * right. split; [|reflexivity].
        intros p' b' [= <-] Hb'. rewrite Hb in Hb'. injection Hb' as <-.
        exact Hm.
    + right. split; [|reflexivity].
      intros p' b' [= <-] Hb'. rewrite Hb in Hb'. discriminate.
  - right. split; [|reflexivity]. intros p' b' Hc. discriminate.
Qed.

(** X16.  [ovpn_lookup_peer_via_transport] returns a peer only if it is
    the installed peer, it has a binding, and the buffer matches the
    binding ([ovpn_bind_skb_match]); it then keeps the reference
    [ovpn_peer_get] took, for the caller.  In every other case it returns
    NULL after one call of [ovpn_peer_put] on the pointer [ovpn_peer_get]
    returned, which is the NULL pointer when no peer is installed. *)
Theorem lookup_peer_result current skb :
  (forall p, value' (ovpn_lookup_peer_via_transport current skb) = Some p <->
     current = Some p /\
     exists b, peer_bind env p = Some b /\ ovpn_bind_skb_match ext b skb = true) /\
  trace' (ovpn_lookup_peer_via_transport current skb) =
    match value' (ovpn_lookup_peer_via_transport current skb) with
    | Some _ => []
    | None => [peer_put_call current]
    end.
Proof.
  destruct (lookup_peer_cases current skb)
    as [(p & b & -> & Hb & Hm & ->) | (Hno & ->)]; cbn [value' trace' fst snd].
  - split; [|reflexivity]. intros p'. split.
    + intros [= <-]. split; [reflexivity|]. exists b. split; assumption.
    + intros ([= <-] & _). reflexivity.
  - split; [|reflexivity]. intros p. split; [discriminate|].
    intros (-> & b & Hb & Hm). rewrite (Hno p b eq_refl Hb) in Hm. discriminate.
Qed.


(** The userspace branch never decrypts, and sends the bytes it was given
    unless [skb_linearize] fails. *)
Lemma recv_crypto_relay_events peer op skb :
  peer = None \/ ovpn_opcode_is_data env op = false ->
  existsb is_decrypt (trace (ovpn_recv_crypto peer op skb)) = false /\
  (0 <= skb_linearize env (set_rx_stats_size skb (skb_len skb)) ->
   In (ev_netlink_send_packet (skb_data skb) (skb_len skb))
      (trace (ovpn_recv_crypto peer op skb))).
Proof.
  intros Hcase.
  destruct (recv_crypto_relay_trace peer op skb Hcase) as [_ ->]. cbv zeta.
  set (skb0 := set_rx_stats_size skb (skb_len skb)).
  change (skb_data skb) with (skb_data skb0).
  change (skb_len skb) with (skb_len skb0).
  destruct (transport_to_userspace_cases skb0)
    as [(Hl & ->) | [(Hl & Hs & ->) | (Hl & Hs & ->)]];
    unfold trace, value; cbn [fst snd app].
  - split; [|intros; lia].
    rewrite existsb_app. destruct peer; destruct (_ <? 0); reflexivity.
  - split; [|intros _; left; reflexivity].
    cbn [existsb is_decrypt orb]. rewrite existsb_app.
    destruct peer; destruct (_ <? 0); reflexivity.
  - split; [|intros _; left; reflexivity].
    cbn [existsb is_decrypt orb]. rewrite existsb_app.
    destruct peer; reflexivity.
Qed.

(** X17.  [ovpn_udp_encap_recv] always returns 0: the packet is never
    handed back to the UDP layer.  It strips the UDP header and, if the
    socket has no [ovpn_struct], frees the buffer.  Otherwise the buffer is
    released exactly once on every path that is finished on return (not
    yet when decrypt is in progress), and [ovpn_peer_put] is called exactly
    once on the pointer [ovpn_peer_get] returned, also when that pointer is
    NULL.  A packet for which the lookup finds no peer (none installed, no
    binding, or a source that does not match the binding) is never
    decrypted, whatever its opcode; unless [skb_linearize] fails, what
    follows the UDP header is sent to the control plane. *)
Theorem udp_encap_recv_consumed engine skb :
  value' (ovpn_udp_encap_recv engine skb) = 0 /\
  (engine = None ->
   trace' (ovpn_udp_encap_recv engine skb) =
     [io_datapath (ev_kfree_skb (__skb_pull skb sizeof_udphdr))]) /\
  (forall current, engine = Some current ->
     let skb' := __skb_pull skb sizeof_udphdr in
     let peer := value' (ovpn_lookup_peer_via_transport current skb') in
     let pending :=
       in_progress (decrypt_result peer (ovpn_op32_from_skb ext skb') skb') in
     let t := trace' (ovpn_udp_encap_recv engine skb) in
     count releases_skb (datapath_events t) =
       (if pending then 0%nat else 1%nat) /\
     List.filter is_peer_put_call t =
       (if pending then [] else [peer_put_call current]) /\
     (peer = None ->
      existsb is_decrypt (datapath_events t) = false /\
      (0 <= skb_linearize env (set_rx_stats_size skb' (skb_len skb')) ->
       In (ev_netlink_send_packet (drop sizeof_udphdr (skb_data skb))
                                  (skb_len skb'))
          (datapath_events t)))).
Proof.
  split; [|split].
  - unfold ovpn_udp_encap_recv, value'. destruct engine as [current|];
      [|reflexivity].
    cbv zeta. destruct (ovpn_lookup_peer_via_transport current _) as [peer t1].
    unfold datapath, ovpn_recv.
    cbn [mbind mret IO_bind IO_ret fst snd]. reflexivity.
  - intros ->. reflexivity.
  - intros current ->. cbv zeta.
    set (skb' := __skb_pull skb sizeof_udphdr).
    set (op := ovpn_op32_from_skb ext skb').
    assert (Ht : trace' (ovpn_udp_encap_recv (Some current) skb) =
      trace' (ovpn_lookup_peer_via_transport current skb') ++
      map io_datapath
        (trace (ovpn_recv_crypto
                  (value' (ovpn_lookup_peer_via_transport current skb')) op skb'))).
    { unfold ovpn_udp_encap_recv, trace', value', trace. cbv zeta.
      fold skb' op.
      destruct (ovpn_lookup_peer_via_transport current skb') as [peer t1].
      unfold datapath, ovpn_recv.
      destruct (ovpn_recv_crypto peer op skb') as [u t2].
      cbn [mbind mret IO_bind IO_ret fst snd]. rewrite app_nil_r. reflexivity. }
    rewrite Ht. clear Ht.
    rewrite datapath_events_app, datapath_events_lifted, List.filter_app,
      peer_put_calls_lifted.
    destruct (lookup_peer_cases current skb')
      as [(p & b & -> & Hb & Hm & ->) | (Hno & ->)];
      cbn [value' trace' fst snd].
    + change (datapath_events []) with (@nil event).
      cbn [app List.filter].
      rewrite (recv_crypto_buffer (Some p) op skb').
      rewrite (proj1 (recv_crypto_references (Some p) op skb')).
      split; [reflexivity|]. split; [|discriminate].
      destruct (in_progress _); reflexivity.
    + assert (Hput : is_peer_put_call (peer_put_call current) = true)
        by (destruct current; reflexivity).
      assert (Hdp : count releases_skb (datapath_events [peer_put_call current])
                    = 0%nat /\
                    existsb is_decrypt (datapath_events [peer_put_call current])
                    = false)
        by (destruct current; split; reflexivity).
      destruct Hdp as [Hdp1 Hdp2].
      rewrite count_app, Hdp1, (recv_crypto_buffer None op skb').
      rewrite (proj1 (recv_crypto_references None op skb')).
      cbn [List.filter]. rewrite Hput.
      cbn [decrypt_result in_progress peer_puts map app Nat.add].
      split; [reflexivity|]. split; [reflexivity|].
      intros _.
      destruct (recv_crypto_relay_events None op skb' (or_introl eq_refl))
        as [Hdec Hsend].
      split.
      * rewrite existsb_app, Hdp2, Hdec. reflexivity.
      * intros Hl. apply in_or_app. right. exact (Hsend Hl).
Qed.

(** X18.  [ovpn_net_xmit] returns NETDEV_TX_OK exactly when the IP header
    probe accepts the packet and a peer with a binding and a primary
    crypto context is installed, and NET_XMIT_DROP else; it does so also
    when encryption or the UDP output fail afterwards.  A packet the probe
    refuses is dropped before the peer is looked at.  Every drop ends in
    [skb_tx_error] and [kfree_skb] on a buffer nothing else has released,
    so on all paths finished on return the buffer is released exactly
    once. *)
Theorem net_xmit_verdict current skb :
  value' (ovpn_net_xmit current skb) =
    (if xmit_ready current skb then NETDEV_TX_OK else NET_XMIT_DROP) /\
  (ovpn_ip_header_probe env skb 0 < 0 ->
   trace' (ovpn_net_xmit current skb) =
     [io_skb_tx_error skb; io_datapath (ev_kfree_skb skb)]) /\
  (xmit_ready current skb = false ->
   exists t0,
     trace' (ovpn_net_xmit current skb) =
       t0 ++ [io_skb_tx_error skb; io_datapath (ev_kfree_skb skb)] /\
     count releases_skb (datapath_events t0) = 0%nat /\
     existsb is_encrypt (datapath_events t0) = false) /\
  count releases_skb (datapath_events (trace' (ovpn_net_xmit current skb))) =
    (if xmit_ready current skb && in_progress (encrypt_result current skb)
     then 0%nat else 1%nat).
Proof.
  unfold ovpn_net_xmit, xmit_ready. cbv zeta.
  destruct (Z.ltb_spec (ovpn_ip_header_probe env skb 0) 0) as [Hp|Hp];
    cbn [negb andb].
  - unfold value', trace', io_emit.
    cbn [mbind mret IO_bind IO_ret fst snd app].
    split; [reflexivity|]. split; [reflexivity|]. split; [|reflexivity].
    intros _. exists []. repeat split.
  - destruct (xmit_failure current skb true) as [Hv Herr].
    pose proof (xmit_takes_skb_aux current skb true) as Hok.
    unfold datapath, value', trace', io_emit, value, trace in *.
    destruct (do_ovpn_net_xmit current skb true) as [v t].
    cbn [fst snd] in *. subst v.
    destruct (xmit_error current) as [e|].
    + destruct (Herr e eq_refl) as (He & Hr & Henc & _).
      cbn [mbind mret IO_bind IO_ret fst snd].
      rewrite (proj2 (Z.ltb_lt _ _) He).
      cbn [mbind mret IO_bind IO_ret fst snd app].
      split; [reflexivity|]. split; [intros; lia|]. split.
      * intros _. exists (map io_datapath t).
        rewrite datapath_events_lifted. repeat split; assumption.
      * rewrite datapath_events_app, datapath_events_lifted, count_app, Hr.
        reflexivity.
    + cbn [mbind mret IO_bind IO_ret fst snd Z.ltb Z.compare].
      rewrite app_nil_r, datapath_events_lifted.
      split; [reflexivity|]. split; [intros; lia|]. split; [discriminate|].
      exact (Hok eq_refl).
Qed.

(** X19.  [ovpn_udp_output] takes the buffer exactly when it returns 0:
    it then has handed it to the UDP tunnel transmit of the address family
    of the binding, once.  On every error return (the value is negative)
    the buffer has not been handed on, so [ovpn_udp_write] is right to free
    it: -EOPNOTSUPP for a family other than AF_INET and AF_INET6,
    -EHOSTUNREACH when there is no IPv4 route, and the error of the IPv6
    route lookup, whose entry is released. *)
Theorem udp_output_takes_skb bind sk skb :
  value' (ovpn_udp_output bind sk skb) <= 0 /\
  length (List.filter is_tunnel_xmit (trace' (ovpn_udp_output bind sk skb))) =
    (if value' (ovpn_udp_output bind sk skb) <? 0 then 0%nat else 1%nat) /\
  (sapair_local_family ext bind <> AF_INET ->
   sapair_local_family ext bind <> AF_INET6 ->
   ovpn_udp_output bind sk skb = (- EOPNOTSUPP, [])) /\
  (sapair_local_family ext bind = AF_INET ->
   ovpn_udp_output bind sk skb =
     if ip_route_output_flow_failed ext bind sk then (- EHOSTUNREACH, [])
     else (0, [io_udp_tunnel_xmit_skb bind sk skb])) /\
  (sapair_local_family ext bind = AF_INET6 ->
   ovpn_udp_output bind sk skb =
     if ip6_route_output_error ext bind sk <? 0
     then (ip6_route_output_error ext bind sk, [io_dst_release bind sk])
     else (0, [io_udp_tunnel6_xmit_skb bind sk skb])).
Proof.
  unfold ovpn_udp_output, ovpn_udp4_output, ovpn_udp6_output, value', trace',
    io_emit.
  cbv zeta.
  destruct (Z.eqb_spec (sapair_local_family ext bind) AF_INET) as [H4|H4].
  - destruct (ip_route_output_flow_failed ext bind sk);
      cbn [mbind mret IO_bind IO_ret fst snd app];
      (split; [unfold EHOSTUNREACH; lia|]); (split; [reflexivity|]);
      (split; [intros; contradiction|]); (split; [reflexivity|]);
      rewrite H4; discriminate.
  - destruct (Z.eqb_spec (sapair_local_family ext bind) AF_INET6) as [H6|H6].
    + destruct (Z.ltb_spec (ip6_route_output_error ext bind sk) 0) as [He|He];
        cbn [mbind mret IO_bind IO_ret fst snd app].
      * split; [lia|]. rewrite (proj2 (Z.ltb_lt _ _) He).
        split; [reflexivity|]. split; [intros; contradiction|].
        split; [intros; contradiction | reflexivity].
      * split; [lia|]. split; [reflexivity|]. split; [intros; contradiction|].
        split; [intros; contradiction | reflexivity].
    + cbn [mret IO_ret fst snd]. split; [unfold EOPNOTSUPP; lia|].
      split; [reflexivity|]. split; [reflexivity|].
      split; intros; contradiction.
Qed.
End Datapath.

(** ** Instances *)

(** A sixteen-byte keepalive payload. *)
Definition demo_keepalive : list Z :=
  [0x2a; 0x18; 0x7b; 0xf3; 0x64; 0x1e; 0xb4; 0xcb;
   0x07; 0xed; 0x2d; 0x0a; 0x98; 0x1f; 0xc7; 0x48].

(** An IP header probe in the sense of spec section 4.4: IPv4 or IPv6 by
    the top nibble of the first byte, with room for the header. *)
Definition demo_probe (skb : sk_buff) (flags : Z) : Z :=
  match skb_data skb with
  | b :: _ =>
      if ((Z.shiftr b 4 =? 4) && (20 <=? skb_len skb))
         || ((Z.shiftr b 4 =? 6) && (40 <=? skb_len skb))
      then 0 else -1
  | [] => -1
  end.

(** Collaborators for the examples: peers and bindings are numbers (a
    binding is its address family, 2 for AF_INET), crypto contexts are key
    ids 0 and 1, crypto completes at once, and [skb_linearize] returns
    [linearize_result]. *)
Definition demo_env (linearize_result : Z) : collaborators :=
  {| ovpn_peer := Z;
     ovpn_crypto_context := Z;
     ovpn_bind := Z;
     OVPN_PROBE_SET_SKB := 1;
     ovpn_opcode_is_data := fun op => (Z.shiftr op 3 =? 6) || (Z.shiftr op 3 =? 9);
     ovpn_key_id_extract := fun op => Z.land op 7;
     ovpn_ip_header_probe := demo_probe;
     ovpn_is_keepalive := fun skb => bool_decide (skb_data skb = demo_keepalive);
     ovpn_crypto_context_from_state := fun _ k => if k <? 2 then Some k else None;
     ovpn_crypto_context_primary := fun _ => Some (0, 0);
     ops_decrypt := fun _ skb _ _ => (0, skb);
     ops_encrypt := fun _ skb _ _ => (0, skb);
     peer_bind := fun p => Some p;
     peer_has_sock := fun _ => true;
     ovpn_bind_udp_encap_overhead := fun b extra =>
       if b =? 2 then extra + 20 + 8 + 16 + 8 else -97;
     udp_output_result := fun _ _ => 0;
     skb_linearize := fun _ => linearize_result;
     ovpn_netlink_send_packet := fun _ _ => 0;
     pskb_may_pull := fun skb n => n <=? skb_len skb |}.

(** A control-channel packet (opcode 4, key id 0) of three bytes. *)
Definition control_packet : sk_buff := mk_skb [0x20; 0x01; 0x02] 0 0 0.

(** A decrypted keepalive. *)
Definition keepalive_packet : sk_buff := mk_skb demo_keepalive 40 1 0.

(** C7, as stated, fails when [skb_linearize] fails (here with -ENOMEM): the
    control packet of an unknown peer is not forwarded; nothing is sent over
    netlink and the buffer is freed. *)
Lemma recv_crypto_dispatch_counterexample :
  ovpn_opcode_is_data (demo_env (-12)) 0x20 = false /\
  trace (demo_env (-12)) (ovpn_recv_crypto (demo_env (-12)) None 0x20 control_packet)
  = [ev_kfree_skb (demo_env (-12)) (mk_skb [0x20; 0x01; 0x02] 3 0 0)] /\
  existsb (is_netlink_send (demo_env (-12)))
    (trace (demo_env (-12))
       (ovpn_recv_crypto (demo_env (-12)) None 0x20 control_packet))
  = false.
Proof. repeat split. Qed.

Lemma recv_crypto_dispatch_witness :
  exists rest,
    trace (demo_env 0) (ovpn_recv_crypto (demo_env 0) (Some 2) 0x20 control_packet)
    = ev_netlink_send_packet (demo_env 0) [0x20; 0x01; 0x02] 3 :: rest /\
    existsb (is_netlink_send (demo_env 0)) rest = false.
Proof.
  destruct (recv_crypto_dispatch (demo_env 0) (Some 2) 0x20 control_packet)
    as [Hrelay _].
  destruct (Hrelay (or_intror eq_refl)) as (_ & Hsend & _).
  apply Hsend. cbn. lia.
Defined.

Lemma keepalive_consumed_witness :
  skb_data keepalive_packet = demo_keepalive /\
  pskb_may_pull (demo_env 0) keepalive_packet 1 = true /\
  tun_netdev_write (demo_env 0) 2 keepalive_packet =
    (0, [ev_update_keepalive_expire (demo_env 0) 2;
         ev_stats_increment_rx (demo_env 0) 2 40;
         ev_consume_skb (demo_env 0) keepalive_packet]).
Proof.
  assert (Hdata : skb_data keepalive_packet = demo_keepalive) by reflexivity.
  assert (Hpull : pskb_may_pull (demo_env 0) keepalive_packet 1 = true)
    by reflexivity.
  repeat (split; [assumption|]).
  assert (Hrec : forall skb, skb_data skb = demo_keepalive ->
                   ovpn_is_keepalive (demo_env 0) skb = true).
  { intros skb Hd. cbn. apply bool_decide_eq_true_2. exact Hd. }
  assert (Hnot : forall skb flags, skb_data skb = demo_keepalive ->
                   ovpn_ip_header_probe (demo_env 0) skb flags < 0).
  { intros skb flags Hd. cbn. unfold demo_probe, skb_len. rewrite Hd.
    vm_compute. reflexivity. }
  destruct (keepalive_consumed (demo_env 0) demo_keepalive Hrec Hnot
              2 0 keepalive_packet Hdata) as (_ & _ & Hok & _).
  exact (proj1 (Hok Hpull)).
Defined.

(** The collaborators of [demo_env 0] with a [pskb_may_pull] that fails, as
    the kernel's does when it cannot bring the bytes asked for into the
    linear part of the buffer. *)
Definition pull_fails_env : collaborators :=
  {| ovpn_peer := Z;
     ovpn_crypto_context := Z;
     ovpn_bind := Z;
     OVPN_PROBE_SET_SKB := 1;
     ovpn_opcode_is_data := fun op => (Z.shiftr op 3 =? 6) || (Z.shiftr op 3 =? 9);
     ovpn_key_id_extract := fun op => Z.land op 7;
     ovpn_ip_header_probe := demo_probe;
     ovpn_is_keepalive := fun skb => bool_decide (skb_data skb = demo_keepalive);
     ovpn_crypto_context_from_state := fun _ k => if k <? 2 then Some k else None;
     ovpn_crypto_context_primary := fun _ => Some (0, 0);
     ops_decrypt := fun _ skb _ _ => (0, skb);
     ops_encrypt := fun _ skb _ _ => (0, skb);
     peer_bind := fun p => Some p;
     peer_has_sock := fun _ => true;
     ovpn_bind_udp_encap_overhead := fun b extra =>
       if b =? 2 then extra + 20 + 8 + 16 + 8 else -97;
     udp_output_result := fun _ _ => 0;
     skb_linearize := fun _ => 0;
     ovpn_netlink_send_packet := fun _ _ => 0;
     pskb_may_pull := fun _ _ => false |}.

(** C8, as stated, fails when [pskb_may_pull(skb, 1)] fails: the decrypted
    keepalive is not consumed but freed, and [tun_netdev_write] returns
    -EINVAL. *)
Lemma keepalive_consumed_counterexample :
  skb_data keepalive_packet = demo_keepalive /\
  ovpn_is_keepalive pull_fails_env keepalive_packet = true /\
  tun_netdev_write pull_fails_env 2 keepalive_packet =
    (-22, [ev_update_keepalive_expire pull_fails_env 2;
           ev_stats_increment_rx pull_fails_env 2 40;
           ev_kfree_skb pull_fails_env keepalive_packet]) /\
  trace pull_fails_env (post_decrypt pull_fails_env 2 0 keepalive_packet 0) =
    [ev_update_keepalive_expire pull_fails_env 2;
     ev_stats_increment_rx pull_fails_env 2 40;
     ev_kfree_skb pull_fails_env keepalive_packet;
     ev_crypto_context_put pull_fails_env 0;
     ev_peer_put pull_fails_env 2].
Proof. repeat split. Qed.

(** Peer 7 has a binding of an unsupported family: the overhead is the
    error code -97, and encrypt is called with headroom 4294967199. *)
Lemma xmit_headroom_unchecked_witness :
  exists rest,
    trace (demo_env 0) (do_ovpn_net_xmit (demo_env 0) (Some 7) control_packet true)
    = ev_encrypt (demo_env 0) 0 control_packet 4294967199 0 :: rest.
Proof.
  destruct (xmit_headroom_unchecked (demo_env 0) (Some 7) control_packet true)
    as (_ & _ & Henc).
  exact (Henc 7 7 0 0 eq_refl eq_refl eq_refl).
Defined.

(** ** Instances of the further properties *)

(** Collaborators of the entry points for the examples: sockets are
    numbers, a buffer matches the binding 2 only, the family of a binding
    is its number, the opcode is the first byte of the buffer, every crypto
    context belongs to peer 2, IPv4 routes exist and IPv6 route lookups
    fail with -ENETUNREACH. *)
Definition demo_ext : entry_collaborators (demo_env 0) :=
  mk_entry_collaborators (demo_env 0) Z
    (fun (b : Z) _ => b =? 2)
    (fun (b : Z) => b)
    (fun skb => match skb_data skb with b :: _ => b | [] => 0 end)
    (fun _ => 2)
    (fun _ _ => false)
    (fun _ _ => -101).

(** The collaborators of [demo_env 0] with crypto operations that complete
    later: they return -EINPROGRESS. *)
Definition async_env : collaborators :=
  {| ovpn_peer := Z;
     ovpn_crypto_context := Z;
     ovpn_bind := Z;
     OVPN_PROBE_SET_SKB := 1;
     ovpn_opcode_is_data := fun op => (Z.shiftr op 3 =? 6) || (Z.shiftr op 3 =? 9);
     ovpn_key_id_extract := fun op => Z.land op 7;
     ovpn_ip_header_probe := demo_probe;
     ovpn_is_keepalive := fun skb => bool_decide (skb_data skb = demo_keepalive);
     ovpn_crypto_context_from_state := fun _ k => if k <? 2 then Some k else None;
     ovpn_crypto_context_primary := fun _ => Some (0, 0);
     ops_decrypt := fun _ skb _ _ => (-115, skb);
     ops_encrypt := fun _ skb _ _ => (-115, skb);
     peer_bind := fun p => Some p;
     peer_has_sock := fun _ => true;
     ovpn_bind_udp_encap_overhead := fun b extra =>
       if b =? 2 then extra + 20 + 8 + 16 + 8 else -97;
     udp_output_result := fun _ _ => 0;
     skb_linearize := fun _ => 0;
     ovpn_netlink_send_packet := fun _ _ => 0;
     pskb_may_pull := fun skb n => n <=? skb_len skb |}.

Definition async_ext : entry_collaborators async_env :=
  mk_entry_collaborators async_env Z
    (fun (b : Z) _ => b =? 2)
    (fun (b : Z) => b)
    (fun skb => match skb_data skb with b :: _ => b | [] => 0 end)
    (fun _ => 2)
    (fun _ _ => false)
    (fun _ _ => -101).

(** A twenty-byte IPv4 header. *)
Definition ip_packet : sk_buff :=
  mk_skb (0x45 :: replicate 19 0) 0 0 0.

(** A UDP datagram: eight bytes of UDP header, then a data packet (opcode
    6, key id 0). *)
Definition udp_datagram : sk_buff :=
  mk_skb (replicate 8 0 ++ [0x30; 0x01; 0x02; 0x03]) 0 0 0.

(** A data packet of peer 2 that decrypts to an IPv4 packet is delivered. *)
Lemma recv_crypto_authenticated_witness :
  trace (demo_env 0) (ovpn_recv_crypto (demo_env 0) (Some 2) 0x30 ip_packet) =
  [ev_decrypt (demo_env 0) 0 (set_rx_stats_size ip_packet 20) 0 0x30;
   ev_update_keepalive_expire (demo_env 0) 2;
   ev_stats_increment_rx (demo_env 0) 2 20;
   ev_netif_rx (demo_env 0) (mk_skb (0x45 :: replicate 19 0) 20 0 1);
   ev_crypto_context_put (demo_env 0) 0;
   ev_peer_put (demo_env 0) 2].
Proof.
  rewrite (proj2 (recv_crypto_authenticated (demo_env 0) (Some 2) 0x30 ip_packet)
             2 0 0 (set_rx_stats_size ip_packet 20) eq_refl eq_refl
             ltac:(intros Hc; vm_compute in Hc; discriminate Hc)).
  reflexivity.
Defined.

(** Without a peer the transmit fails with -ENOLINK and the buffer stays
    with the caller. *)
Lemma xmit_error_keeps_skb_witness :
  value (demo_env 0) (do_ovpn_net_xmit (demo_env 0) None ip_packet true) = -67 /\
  count (demo_env 0) (releases_skb (demo_env 0))
    (trace (demo_env 0) (do_ovpn_net_xmit (demo_env 0) None ip_packet true))
  = 0%nat.
Proof.
  destruct (xmit_error_keeps_skb (demo_env 0) None ip_packet true) as [Hv Herr].
  destruct (Herr (- ENOLINK) eq_refl) as (_ & Hr & _).
  split; [exact Hv | exact Hr].
Defined.

Lemma xmit_takes_skb_witness :
  xmit_error (demo_env 0) (Some 2) = None /\
  value (demo_env 0) (do_ovpn_net_xmit (demo_env 0) (Some 2) ip_packet true) = 0 /\
  count (demo_env 0) (is_encrypt (demo_env 0))
    (trace (demo_env 0) (do_ovpn_net_xmit (demo_env 0) (Some 2) ip_packet true))
  = 1%nat.
Proof.
  assert (Hx : xmit_error (demo_env 0) (Some 2) = None) by reflexivity.
  split; [exact Hx|].
  destruct (xmit_takes_skb (demo_env 0) (Some 2) ip_packet true Hx)
    as (Hv & He & _).
  split; [exact Hv | exact He].
Defined.

(** A keepalive for a peer whose [ovpn_struct] has no peer installed: the
    transmit fails and the buffer is freed here. *)
Lemma xmit_special_releases_witness :
  trace (demo_env 0) (ovpn_xmit_special (demo_env 0) (Some None) true demo_keepalive)
  = trace (demo_env 0)
      (do_ovpn_net_xmit (demo_env 0) None (skb_of_data demo_keepalive) true)
    ++ [ev_kfree_skb (demo_env 0) (skb_of_data demo_keepalive)].
Proof.
  exact (proj1 (proj2 (xmit_special_releases (demo_env 0) (Some None) true
                         demo_keepalive) None eq_refl eq_refl)).
Defined.

Lemma udp_send_data_result_witness :
  trace (demo_env 0) (ovpn_udp_send_data (demo_env 0) (Some 2) true [1; 2; 3]) =
  trace (demo_env 0) (ovpn_udp_write (demo_env 0) 2 (skb_of_data [1; 2; 3]))
  ++ [ev_peer_put (demo_env 0) 2].
Proof.
  destruct (udp_send_data_result (demo_env 0) (Some 2) true [1; 2; 3])
    as (_ & _ & _ & _ & Ht).
  exact (Ht 2 eq_refl eq_refl).
Defined.

(** Decrypt of a data packet of peer 2 is deferred and completes with
    status 0. *)
Lemma crypto_callbacks_complete_witness :
  decrypt_result async_env (Some 2) 0x30 ip_packet =
    Some (0, (- EINPROGRESS, set_rx_stats_size ip_packet 20)) /\
  count async_env (releases_skb async_env)
    (trace async_env (ovpn_recv_crypto async_env (Some 2) 0x30 ip_packet) ++
     trace async_env (post_decrypt_callback async_env async_ext 0 ip_packet 0))
  = 1%nat.
Proof.
  assert (Hd : decrypt_result async_env (Some 2) 0x30 ip_packet =
               Some (0, (- EINPROGRESS, set_rx_stats_size ip_packet 20)))
    by reflexivity.
  split; [exact Hd|].
  destruct (crypto_callbacks_complete async_env async_ext (Some 2) None 0x30
              ip_packet 0 (set_rx_stats_size ip_packet 20) ip_packet 0)
    as [Hdec _].
  exact (proj1 (Hdec Hd)).
Defined.

(** Peer 2 is installed and its binding matches. *)
Lemma lookup_peer_result_witness :
  value' (demo_env 0) demo_ext
    (ovpn_lookup_peer_via_transport (demo_env 0) demo_ext (Some 2) udp_datagram)
  = Some 2.
Proof.
  apply (proj1 (lookup_peer_result (demo_env 0) demo_ext (Some 2) udp_datagram) 2).
  split; [reflexivity|]. exists 2. split; reflexivity.
Defined.

(** Peer 7 is installed, but the datagram does not match its binding: the
    data packet is not decrypted. *)
Lemma udp_encap_recv_consumed_witness :
  value' (demo_env 0) demo_ext
    (ovpn_lookup_peer_via_transport (demo_env 0) demo_ext (Some 7)
       (__skb_pull udp_datagram sizeof_udphdr)) = None /\
  existsb (is_decrypt (demo_env 0))
    (datapath_events (demo_env 0) demo_ext
       (trace' (demo_env 0) demo_ext
          (ovpn_udp_encap_recv (demo_env 0) demo_ext (Some (Some 7)) udp_datagram)))
  = false.
Proof.
  assert (Hl : value' (demo_env 0) demo_ext
    (ovpn_lookup_peer_via_transport (demo_env 0) demo_ext (Some 7)
       (__skb_pull udp_datagram sizeof_udphdr)) = None) by reflexivity.
  split; [exact Hl|].
  destruct (udp_encap_recv_consumed (demo_env 0) demo_ext (Some (Some 7))
              udp_datagram) as (_ & _ & Hrun).
  destruct (Hrun (Some 7) eq_refl) as (_ & _ & Hnone).
  exact (proj1 (Hnone Hl)).
Defined.

(** The probe refuses the three bytes of [control_packet]. *)
Lemma net_xmit_verdict_witness :
  ovpn_ip_header_probe (demo_env 0) control_packet 0 < 0 /\
  trace' (demo_env 0) demo_ext
    (ovpn_net_xmit (demo_env 0) demo_ext (Some 2) control_packet) =
  [io_skb_tx_error (demo_env 0) demo_ext control_packet;
   io_datapath (demo_env 0) demo_ext (ev_kfree_skb (demo_env 0) control_packet)].
Proof.
  assert (Hp : ovpn_ip_header_probe (demo_env 0) control_packet 0 < 0)
    by (vm_compute; reflexivity).
  split; [exact Hp|].
  destruct (net_xmit_verdict (demo_env 0) demo_ext (Some 2) control_packet)
    as (_ & Hdrop & _).
  exact (Hdrop Hp).
Defined.

(** The binding 7 has an unsupported family. *)
Lemma udp_output_takes_skb_witness :
  ovpn_udp_output (demo_env 0) demo_ext 7 0 ip_packet = (- EOPNOTSUPP, []).
Proof.
  destruct (udp_output_takes_skb (demo_env 0) demo_ext 7 0 ip_packet)
    as (_ & _ & Hfam & _).
  apply Hfam; cbn; unfold AF_INET, AF_INET6; lia.
Defined.

(** Peer 2 has a socket and a binding, and the output succeeds. *)
Lemma udp_write_verdict_witness :
  trace (demo_env 0) (ovpn_udp_write (demo_env 0) 2 ip_packet) =
  [ev_update_keepalive_xmit (demo_env 0) 2; ev_udp_output (demo_env 0) 2 ip_packet].
Proof.
  exact (proj2 (udp_write_verdict (demo_env 0) 2 ip_packet) 2 eq_refl eq_refl).
Defined.

End Ovpn.
